(** * The per-host task daemon of ai-protocol-client ([ai-server-daemon.py])

    A shallow embedding of [AIServerDaemon]: the task table, the queue, the
    tmux sessions and the files the daemon reads and writes are explicit
    state; every method is a function on that state.

    Conventions of the embedding.
    - A Python [str] is a [string]: a sequence of code points below 256.
    - [self.tasks] is an insertion-ordered [dict]: an association list with
      unique keys ([Dict] below); directories and the tmux server are
      dictionaries of the same kind.
    - A value read from the clock is an argument of the function that reads
      it: [datetime.now().isoformat()] is a [string], [datetime.now()] used
      in arithmetic is a [Z] (microseconds on the naive time line, taken as
      unbounded).
    - [datetime.fromisoformat] is a parameter [fromisoformat : string ->
      option Z] ([None] stands for [ValueError]); [iso_parse] below is an
      instance for the canonical output of [isoformat].
    - Task identifiers are interpolated into a regular expression by
      [finalize_task_from_logs]; the embedding interpolates them literally,
      which is what Python does for identifiers free of regex
      metacharacters ([plain_id]), such as those [create_task] generates.
    - A record file holds a record with the fields of [Task], or content
      a reader drops before it touches the task table; [load_tasks] takes
      the directory listing once and reads each file at its turn.
    - [time.sleep], logging and thread scheduling are not modelled: every
      method runs to completion on the state it is given. *)

From Stdlib Require Import ZArith List String Ascii Bool Lia DecimalString.
From Stdlib Require Import Floats.SpecFloat.
From Stdlib Require DecimalPos.
Import ListNotations.

Local Open Scope string_scope.
Local Open Scope Z_scope.

Set Implicit Arguments.

(* ================================================================== *)
(** * Python strings *)

Module Str.

Definition LF : ascii := ascii_of_nat 10.

(** [sub in s] *)
Fixpoint contains (sub s : string) : bool :=
  String.prefix sub s ||
  match s with
  | EmptyString => false
  | String _ s' => contains sub s'
  end.

(** [s.split('\n')] *)
Fixpoint split_lines (s : string) : list string :=
  match s with
  | EmptyString => [EmptyString]
  | String c s' =>
      if Ascii.eqb c LF then EmptyString :: split_lines s'
      else match split_lines s' with
           | l :: ls => String c l :: ls
           | [] => [String c EmptyString]
           end
  end.

(** [s[:n]] *)
Fixpoint take (n : nat) (s : string) : string :=
  match n, s with
  | S n', String c s' => String c (take n' s')
  | _, _ => EmptyString
  end.

Definition in_range (lo hi : nat) (c : ascii) : bool :=
  let n := nat_of_ascii c in (lo <=? n)%nat && (n <=? hi)%nat.

(** [c.lower()] on code points below 256: [A-Z] and the Latin-1 capitals
    (all of [U+00C0..U+00DE] but the multiplication sign). *)
Definition lower_char (c : ascii) : ascii :=
  if in_range 65 90 c
     || (in_range 192 222 c && negb (Nat.eqb (nat_of_ascii c) 215))
  then ascii_of_nat (nat_of_ascii c + 32) else c.

Fixpoint lower (s : string) : string :=
  match s with
  | EmptyString => EmptyString
  | String c s' => String (lower_char c) (lower s')
  end.

(** [\d] on code points below 256 *)
Definition is_digit (c : ascii) : bool := in_range 48 57 c.

(** [\s] of a [str] pattern on code points below 256: the characters for
    which [str.isspace()] holds. *)
Definition is_space (c : ascii) : bool :=
  in_range 9 13 c || in_range 28 32 c
  || Nat.eqb (nat_of_ascii c) 133 || Nat.eqb (nat_of_ascii c) 160.

(** [int(s)] for [s] matched by [\d+]; the length limit some versions of
    Python put on the conversion is left out *)
Definition digit_val (c : ascii) : Z := Z.of_nat (nat_of_ascii c) - 48.

Fixpoint int_acc (acc : Z) (s : string) : Z :=
  match s with
  | EmptyString => acc
  | String c s' => int_acc (10 * acc + digit_val c) s'
  end.

Definition int_of (s : string) : Z := int_acc 0 s.

(** [str(n)] for an [int] *)
Definition of_Z (n : Z) : string := NilZero.string_of_int (Z.to_int n).

(** [f"{v}"] for a value that may be [None] *)
Definition fmt_opt (v : option string) : string :=
  match v with Some s => s | None => "None" end.

Fixpoint all (p : ascii -> bool) (s : string) : bool :=
  match s with
  | EmptyString => true
  | String c s' => p c && all p s'
  end.

End Str.

(* ================================================================== *)
(** * The fragment of [re] the daemon uses

    Every pattern of the daemon is a sequence of single-character items
    (a literal or a class) under a quantifier, some of them wrapped in a
    capture group.  [re_match] is the backtracking matcher of [re]: greedy
    quantifiers try the longest run first, the lazy star the shortest. *)

Module Re.

Inductive quant := Once | Optional | Star | Plus | LazyStar.

Record atom := Atom {
  a_class : ascii -> bool;
  a_quant : quant;
  a_group : bool
}.

Definition regex := list atom.

Section Greedy.
Variable R : Type.
Variable cls : ascii -> bool.
Variable k : string -> string -> option R.

(** longest run of [cls] first, then shorter ones *)
Fixpoint greedy (acc s : string) : option R :=
  match s with
  | String c s' =>
      if cls c then
        match greedy (acc ++ String c EmptyString) s' with
        | Some x => Some x
        | None => k acc s
        end
      else k acc s
  | EmptyString => k acc s
  end.

(** shortest run of [cls] first, then longer ones *)
Fixpoint lazy (acc s : string) : option R :=
  match k acc s with
  | Some x => Some x
  | None =>
      match s with
      | String c s' =>
          if cls c then lazy (acc ++ String c EmptyString) s' else None
      | EmptyString => None
      end
  end.
End Greedy.

(** [re_match r s]: the groups captured by [r] at the start of [s], and
    what is left of [s] after the match. *)
Fixpoint re_match (r : regex) (s : string) : option (list string * string) :=
  match r with
  | [] => Some ([], s)
  | a :: r' =>
      let k (cap rest : string) :=
        match re_match r' rest with
        | Some (gs, rest') => Some (if a_group a then cap :: gs else gs, rest')
        | None => None
        end in
      match a_quant a with
      | Once =>
          match s with
          | String c s' =>
              if a_class a c then k (String c EmptyString) s' else None
          | EmptyString => None
          end
      | Optional =>
          match s with
          | String c s' =>
              if a_class a c then
                match k (String c EmptyString) s' with
                | Some x => Some x
                | None => k EmptyString s
                end
              else k EmptyString s
          | EmptyString => k EmptyString s
          end
      | Star => greedy (a_class a) k EmptyString s
      | Plus =>
          match s with
          | String c s' =>
              if a_class a c then greedy (a_class a) k (String c EmptyString) s'
              else None
          | EmptyString => None
          end
      | LazyStar => lazy (a_class a) k EmptyString s
      end
  end.

(** [re.search(r, s)]: the groups of the leftmost match *)
Fixpoint search (r : regex) (s : string) : option (list string) :=
  match re_match r s with
  | Some (gs, _) => Some gs
  | None =>
      match s with
      | String _ s' => search r s'
      | EmptyString => None
      end
  end.

(** [re.findall(r, s)]: the groups of the successive non-overlapping
    matches; [skip] counts the characters of the last match still to be
    stepped over. *)
Fixpoint findall_from (r : regex) (s : string) (skip : nat) : list (list string) :=
  match skip with
  | S n =>
      match s with
      | String _ s' => findall_from r s' n
      | EmptyString => []
      end
  | O =>
      match re_match r s with
      | Some (gs, rest) =>
          gs :: match s with
                | String _ s' =>
                    findall_from r s' (String.length s - String.length rest - 1)
                | EmptyString => []
                end
      | None =>
          match s with
          | String _ s' => findall_from r s' 0
          | EmptyString => []
          end
      end
  end.

Definition findall (r : regex) (s : string) : list (list string) :=
  findall_from r s 0.

Definition chr (c : ascii) : atom := Atom (Ascii.eqb c) Once false.

Fixpoint lit (s : string) : regex :=
  match s with
  | EmptyString => []
  | String c s' => chr c :: lit s'
  end.

(** the characters [re] gives a meaning to *)
Definition special (c : ascii) : bool :=
  Str.contains (String c EmptyString) ".^$*+?{}[]\|()".

End Re.

(** [[Pp]rogress:?\s*(\d+)%] *)
Definition re_progress : Re.regex :=
  ([Re.Atom (fun c => Ascii.eqb c "P" || Ascii.eqb c "p") Re.Once false]
   ++ Re.lit "rogress"
   ++ [Re.Atom (Ascii.eqb ":") Re.Optional false;
       Re.Atom Str.is_space Re.Star false;
       Re.Atom Str.is_digit Re.Plus true]
   ++ Re.lit "%")%list.

(** [(\d+)%\s+complete] *)
Definition re_complete : Re.regex :=
  ([Re.Atom Str.is_digit Re.Plus true]
   ++ Re.lit "%"
   ++ [Re.Atom Str.is_space Re.Plus false]
   ++ Re.lit "complete")%list.

(** [Processing.*?(\d+)\s+of\s+(\d+)] *)
Definition re_processing : Re.regex :=
  (Re.lit "Processing"
   ++ [Re.Atom (fun c => negb (Ascii.eqb c Str.LF)) Re.LazyStar false;
       Re.Atom Str.is_digit Re.Plus true;
       Re.Atom Str.is_space Re.Plus false]
   ++ Re.lit "of"
   ++ [Re.Atom Str.is_space Re.Plus false;
       Re.Atom Str.is_digit Re.Plus true])%list.

(** the text [f'[TASK_COMPLETED:{task_id}:'] *)
Definition completed_prefix (task_id : string) : string :=
  "[TASK_COMPLETED:" ++ task_id ++ ":".

(** the text [f'[TASK_FAILED:{task_id}:'] *)
Definition failed_prefix (task_id : string) : string :=
  "[TASK_FAILED:" ++ task_id ++ ":".

(** [\[TASK_COMPLETED:{task_id}:([^\]]+)\]] *)
Definition re_completed (task_id : string) : Re.regex :=
  (Re.lit (completed_prefix task_id)
   ++ [Re.Atom (fun c => negb (Ascii.eqb c "]")) Re.Plus true]
   ++ Re.lit "]")%list.

(** identifiers that mean themselves inside a pattern *)
Definition plain_id (task_id : string) : bool :=
  Str.all (fun c => negb (Re.special c)) task_id.

(* ================================================================== *)
(** * Python dictionaries with [str] keys

    Insertion-ordered: [set] keeps the place of a key that is present and
    appends a new one; iteration is the order of the list. *)

Module Dict.

Section Dict.
Variable V : Type.

Definition t := list (string * V).

(** [d.get(k)] *)
Fixpoint get (k : string) (d : t) : option V :=
  match d with
  | [] => None
  | (k', v) :: d' => if String.eqb k k' then Some v else get k d'
  end.

(** [k in d] *)
Definition mem (k : string) (d : t) : bool :=
  match get k d with Some _ => true | None => false end.

(** [d[k] = v] *)
Fixpoint set (k : string) (v : V) (d : t) : t :=
  match d with
  | [] => [(k, v)]
  | (k', v') :: d' =>
      if String.eqb k k' then (k, v) :: d' else (k', v') :: set k v d'
  end.

(** [del d[k]] *)
Fixpoint del (k : string) (d : t) : t :=
  match d with
  | [] => []
  | (k', v') :: d' =>
      if String.eqb k k' then del k d' else (k', v') :: del k d'
  end.

Definition keys (d : t) : list string := map fst d.
End Dict.

End Dict.

(* ================================================================== *)
(** * The data model *)

(** the four values [task['status']] takes *)
Inductive Status := queued | running | completed | failed.

Definition Status_eqb (a b : Status) : bool :=
  match a, b with
  | queued, queued | running, running
  | completed, completed | failed, failed => true
  | _, _ => false
  end.

(** [task['status'] in ['completed', 'failed']] *)
Definition terminal (s : Status) : bool :=
  Status_eqb s completed || Status_eqb s failed.

(** the task dictionary built by [create_task]; a field that may hold
    [None] is an [option]. *)
Record Task := mkTask {
  id : string;
  tool : option string;
  command : option string;
  parameters : Dict.t string;
  working_dir : option string;
  priority : string;
  timeout : option Z;
  status : Status;
  progress : Z;
  created_at : string;
  started_at : option string;
  completed_at : option string;
  error_message : option string;
  session_name : string;
  log_file : string;
  result_file : string;
  pid : option Z
}.

Definition set_status (v : Status) (t : Task) : Task :=
  mkTask (id t) (tool t) (command t) (parameters t) (working_dir t)
    (priority t) (timeout t) v (progress t) (created_at t) (started_at t)
    (completed_at t) (error_message t) (session_name t) (log_file t)
    (result_file t) (pid t).

Definition set_progress (v : Z) (t : Task) : Task :=
  mkTask (id t) (tool t) (command t) (parameters t) (working_dir t)
    (priority t) (timeout t) (status t) v (created_at t) (started_at t)
    (completed_at t) (error_message t) (session_name t) (log_file t)
    (result_file t) (pid t).

Definition set_started_at (v : option string) (t : Task) : Task :=
  mkTask (id t) (tool t) (command t) (parameters t) (working_dir t)
    (priority t) (timeout t) (status t) (progress t) (created_at t) v
    (completed_at t) (error_message t) (session_name t) (log_file t)
    (result_file t) (pid t).

Definition set_completed_at (v : option string) (t : Task) : Task :=
  mkTask (id t) (tool t) (command t) (parameters t) (working_dir t)
    (priority t) (timeout t) (status t) (progress t) (created_at t)
    (started_at t) v (error_message t) (session_name t) (log_file t)
    (result_file t) (pid t).

Definition set_error_message (v : option string) (t : Task) : Task :=
  mkTask (id t) (tool t) (command t) (parameters t) (working_dir t)
    (priority t) (timeout t) (status t) (progress t) (created_at t)
    (started_at t) (completed_at t) v (session_name t) (log_file t)
    (result_file t) (pid t).

(** Python truth of a field: [None], [''] and [0] are false *)
Definition truthy_str (v : option string) : option string :=
  match v with
  | Some EmptyString | None => None
  | Some s => Some s
  end.

Definition truthy_int (v : option Z) : option Z :=
  match v with
  | Some 0 | None => None
  | Some n => Some n
  end.

(** an entry of [config['ai_tools']]; [None] is an absent key *)
Module ToolConfig.
Record t := mk {
  command : string;
  env_setup : list string;
  working_dir : option string;
  timeout : option Z
}.
End ToolConfig.

Record Config := mkConfig {
  max_concurrent_tasks : Z;
  task_timeout : Z;
  cleanup_interval : Z;
  heartbeat_interval : Z;
  log_retention_days : Z;
  ai_tools : Dict.t ToolConfig.t
}.

(** [default_config] of [load_config] *)
Definition default_config : Config :=
  mkConfig 4 3600 300 30 7
    [ ("crush", ToolConfig.mk "crush" ["source ~/.bashrc"] (Some "~/projects") (Some 1800));
      ("blackbox", ToolConfig.mk "blackbox-cli" ["blackbox-cli auth"] (Some "~/projects") (Some 900));
      ("qwen", ToolConfig.mk "qwen-cli" ["source ~/qwen-env/bin/activate"] (Some "~/projects") (Some 2400));
      ("gemini", ToolConfig.mk "gemini-cli" ["export GEMINI_API_KEY=$GEMINI_KEY"] (Some "~/projects") (Some 1200)) ].

(** the daemon object: [self.workspace], [self.config], [self.tasks] and
    [self.task_queue] (oldest entry first) *)
Record Daemon := mkDaemon {
  workspace : string;
  config : Config;
  tasks : Dict.t Task;
  task_queue : list string
}.

Definition set_tasks (v : Dict.t Task) (d : Daemon) : Daemon :=
  mkDaemon (workspace d) (config d) v (task_queue d).

Definition set_task_queue (v : list string) (d : Daemon) : Daemon :=
  mkDaemon (workspace d) (config d) (tasks d) v.

(** a tmux session: the directory it was created in and the lines sent to
    it with [send-keys], oldest first *)
Record Session := mkSession {
  cwd : string;
  sent : list string
}.

(** what the daemon shares with the host:
    - [task_files]: the directory [tasks/], a record file [<stem>.json] under
      its stem; [None] is content a reader drops before it looks at a field
      other than ['id']: text [json.load] rejects (an empty or cut-off file
      among them) or a value without an ['id'].  The other content is a
      record with the fields of [Task]; an object that has an ['id'] and
      lacks other fields is not a value of the data model;
    - [log_files]: the files the log paths of the tasks name, with their text;
    - [param_files]: the parameter files [build_task_command] writes;
    - [sessions]: the sessions of the tmux server, by name;
    - [home]: what [~] expands to. *)
Record World := mkWorld {
  task_files : Dict.t (option Task);
  log_files : Dict.t string;
  param_files : Dict.t (Dict.t string);
  sessions : Dict.t Session;
  home : string
}.

Definition set_task_files (v : Dict.t (option Task)) (w : World) : World :=
  mkWorld v (log_files w) (param_files w) (sessions w) (home w).

Definition set_log_files (v : Dict.t string) (w : World) : World :=
  mkWorld (task_files w) v (param_files w) (sessions w) (home w).

Definition set_param_files (v : Dict.t (Dict.t string)) (w : World) : World :=
  mkWorld (task_files w) (log_files w) v (sessions w) (home w).

Definition set_sessions (v : Dict.t Session) (w : World) : World :=
  mkWorld (task_files w) (log_files w) (param_files w) v (home w).

(** [Path(a) / b] *)
Definition path_join (a b : string) : string := a ++ "/" ++ b.

(** [s.split('/')] *)
Fixpoint split_slash (s : string) : list string :=
  match s with
  | EmptyString => [""]
  | String c s' =>
      if Ascii.eqb c "/" then "" :: split_slash s'
      else
        match split_slash s' with
        | x :: l => String c x :: l
        | [] => [String c ""]
        end
  end.

(** a [PurePosixPath]: the root ([""], ["/"] or ["//"]) and the names after
    it.  Empty names and [.] are dropped when the text is parsed; exactly
    two leading slashes are a root of their own. *)
Definition path_root (p : string) : string :=
  match p with
  | String "/" (String "/" (String "/" _)) => "/"
  | String "/" (String "/" _) => "//"
  | String "/" _ => "/"
  | _ => ""
  end.

Definition path_names (p : string) : list string :=
  filter (fun x => negb (String.eqb x "" || String.eqb x ".")) (split_slash p).

(** [str] of a path *)
Definition path_str (root : string) (names : list string) : string :=
  match root, names with
  | EmptyString, [] => "."
  | _, _ => root ++ String.concat "/" names
  end.

(** [str(Path(p).expanduser())]: the text is parsed as a path, a first name
    [~] of a relative path is replaced by the parsed home directory, and the
    path is written out again.  A first name [~user] needs the password
    database, which the world does not hold; it is left as it is. *)
Definition expanduser (w : World) (p : string) : string :=
  match path_root p, path_names p with
  | EmptyString, String "~" EmptyString :: rest =>
      path_str (path_root (home w)) (path_names (home w) ++ rest)
  | root, names => path_str root names
  end.

(* ================================================================== *)
(** * Exceptions and the tmux server *)

Inductive exn :=
| CalledProcessError (cmd : list string) (returncode : Z)
| KeyError (key : option string)
| ValueError (msg : string).

(** [repr] of a [str].  The quote is ['] unless the text holds a ['] and no
    double quote; the quote and the backslash are escaped with a backslash,
    tab, line feed and carriage return are written [\t], [\n] and [\r], and
    every other character that is not printable ([str.isprintable]: the
    control characters, the no-break space and the soft hyphen) is written
    [\xhh]. *)
Definition double_quote : ascii := "034"%char.

Definition hex_digit (n : nat) : ascii :=
  nth n (list_ascii_of_string "0123456789abcdef") "0"%char.

Definition printable (c : ascii) : bool :=
  let n := nat_of_ascii c in
  negb ((n <? 32) || ((127 <=? n) && (n <=? 160)) || (n =? 173))%nat.

Definition repr_char (quote c : ascii) : string :=
  if Ascii.eqb c quote || Ascii.eqb c "\" then String "\" (String c "")
  else if Ascii.eqb c "009" then "\t"
  else if Ascii.eqb c "010" then "\n"
  else if Ascii.eqb c "013" then "\r"
  else if printable c then String c ""
  else
    let n := nat_of_ascii c in
    String "\" (String "x" (String (hex_digit (n / 16)%nat) (String (hex_digit (n mod 16)%nat) ""))).

Fixpoint repr_body (quote : ascii) (s : string) : string :=
  match s with
  | EmptyString => ""
  | String c s' => repr_char quote c ++ repr_body quote s'
  end.

Definition has_char (c : ascii) (s : string) : bool :=
  existsb (Ascii.eqb c) (list_ascii_of_string s).

Definition repr_str (s : string) : string :=
  let quote :=
    if has_char "'" s && negb (has_char double_quote s) then double_quote else "'"%char in
  String quote (repr_body quote s ++ String quote "").

(** [str(e)] *)
Definition str_exn (e : exn) : string :=
  match e with
  | CalledProcessError cmd rc =>
      "Command '[" ++ String.concat ", " (map repr_str cmd)
      ++ "]' returned non-zero exit status " ++ Str.of_Z rc ++ "."
  | KeyError (Some k) => repr_str k
  | KeyError None => "None"
  | ValueError msg => msg
  end.

(** code that reads and writes the world and may raise *)
Definition M (A : Type) : Type := World -> World * (exn + A).

Definition ret {A} (a : A) : M A := fun w => (w, inr a).

Definition raise {A} (e : exn) : M A := fun w => (w, inl e).

Definition bind {A B} (m : M A) (k : A -> M B) : M B :=
  fun w =>
    match m w with
    | (w', inr a) => k a w'
    | (w', inl e) => (w', inl e)
    end.

Notation "x <- m ;; k" := (bind m (fun x => k))
  (at level 61, m at next level, right associativity).
Notation "m ;;; k" := (bind m (fun _ => k))
  (at level 61, right associativity).

(** [for x in xs: body(x)] *)
Fixpoint for_each {A} (xs : list A) (body : A -> M unit) : M unit :=
  match xs with
  | [] => ret tt
  | x :: xs' => body x ;;; for_each xs' body
  end.

(** the tmux commands the daemon issues, on the session table; the result
    is the exit status.  A session is addressed by its exact name. *)
Definition tmux (args : list string) (w : World) : World * Z :=
  match args with
  | ["kill-session"; "-t"; s] =>
      if Dict.mem s (sessions w)
      then (set_sessions (Dict.del s (sessions w)) w, 0)
      else (w, 1)
  | ["new-session"; "-d"; "-s"; s; "-c"; dir] =>
      if Dict.mem s (sessions w) then (w, 1)
      else (set_sessions (Dict.set s (mkSession dir []) (sessions w)) w, 0)
  | ["send-keys"; "-t"; s; keys; "Enter"] =>
      match Dict.get s (sessions w) with
      | Some ss =>
          (set_sessions
             (Dict.set s (mkSession (cwd ss) (sent ss ++ [keys])) (sessions w)) w,
           0)
      | None => (w, 1)
      end
  | ["has-session"; "-t"; s] =>
      (w, if Dict.mem s (sessions w) then 0 else 1)
  | _ => (w, 1)
  end.

(** [subprocess.run(cmd, check=check).returncode] *)
Definition subprocess_run (cmd : list string) (check : bool) : M Z :=
  fun w =>
    match cmd with
    | "tmux" :: args =>
        let '(w', rc) := tmux args w in
        if check && negb (rc =? 0)
        then (w', inl (CalledProcessError cmd rc))
        else (w', inr rc)
    | _ => (w, inl (ValueError "unknown program"))
    end.

(* ================================================================== *)
(** * The methods of [AIServerDaemon] *)

(** ** [save_task]

    [open(task_file, 'w')] creates the file or empties the one that is
    there; [json.dump] and the end of the [with] block put the text of the
    record into it.  [save_task_steps] lists the two states of the disk the
    call goes through, [save_task] is the state it leaves. *)

Definition open_w (stem : string) (w : World) : World :=
  set_task_files (Dict.set stem None (task_files w)) w.

Definition json_dump (task : Task) (stem : string) (w : World) : World :=
  set_task_files (Dict.set stem (Some task) (task_files w)) w.

Definition save_task_steps (task : Task) (w : World) : list World :=
  let w1 := open_w (id task) w in
  [w1; json_dump task (id task) w1].

Definition save_task (task : Task) (w : World) : World :=
  last (save_task_steps task w) w.

(** ** [validate_task] *)

Definition validate_task (cfg : Config) (task : Task) : bool :=
  match truthy_str (tool task), truthy_str (command task) with
  | Some tl, Some _ => Dict.mem tl (ai_tools cfg)
  | _, _ => false
  end.

(** ** [create_task]

    [task_request] as the fields [create_task] reads with [.get]; an
    absent key and [None] are both [None].  [parameters] and [priority]
    arrive with the defaults of [.get] applied. *)
Record Request := mkRequest {
  r_tool : option string;
  r_command : option string;
  r_parameters : Dict.t string;
  r_working_dir : option string;
  r_priority : string;
  r_timeout : option Z
}.

(** what [create_task] draws from outside: the [strftime] stamp and the
    eight hex digits of the identifier, and the clock of [created_at] *)
Record Fresh := mkFresh {
  stamp : string;
  hex8 : string;
  now_created : string
}.

Definition new_task_id (f : Fresh) : string :=
  "task-" ++ stamp f ++ "-" ++ hex8 f.

Definition new_task (d : Daemon) (rq : Request) (f : Fresh) : Task :=
  let task_id := new_task_id f in
  mkTask task_id (r_tool rq) (r_command rq) (r_parameters rq)
    (r_working_dir rq) (r_priority rq) (r_timeout rq)
    queued 0 (now_created f) None None None
    ("ai-" ++ task_id)
    (path_join (path_join (workspace d) "logs") (task_id ++ ".log"))
    (path_join (path_join (workspace d) "results") (task_id ++ ".json"))
    None.

Definition create_task (rq : Request) (f : Fresh) (d : Daemon) (w : World)
  : Daemon * World * (exn + string) :=
  let task := new_task d rq f in
  if negb (validate_task (config d) task)
  then (d, w, inl (ValueError "Invalid task configuration"))
  else
    let w' := save_task task w in
    let d' := set_tasks (Dict.set (id task) task (tasks d)) d in
    (set_task_queue (task_queue d' ++ [id task]) d', w', inr (id task)).

(** ** [is_task_running] *)

Definition is_task_running (task : Task) (w : World) : World * bool :=
  match truthy_int (pid task) with
  | None => (w, false)
  | Some _ =>
      match subprocess_run ["tmux"; "has-session"; "-t"; session_name task] false w with
      | (w', inr rc) => (w', rc =? 0)
      | (w', inl _) => (w', false)
      end
  end.

(** ** [load_tasks]

    The record files are visited in the order of the directory listing,
    which [glob] takes when the loop starts; each file is read when its
    turn comes, after the [save_task] calls of the files before it.  A
    file whose content is [None] raises before the table is touched and is
    skipped.  [now] is the clock of [completed_at]. *)

Definition load_task (now : string) (task : Task) (d : Daemon) (w : World)
  : Daemon * World :=
  let d1 := set_tasks (Dict.set (id task) task (tasks d)) d in
  match status task with
  | running =>
      let '(w1, alive) := is_task_running task w in
      if negb alive then
        let task' :=
          set_completed_at (Some now)
            (set_error_message (Some "Process died unexpectedly")
               (set_status failed task)) in
        (set_tasks (Dict.set (id task) task' (tasks d1)) d1, save_task task' w1)
      else (d1, w1)
  | queued => (set_task_queue (task_queue d1 ++ [id task]) d1, w)
  | _ => (d1, w)
  end.

Fixpoint load_files (now : string) (stems : list string)
  (d : Daemon) (w : World) : Daemon * World :=
  match stems with
  | [] => (d, w)
  | stem :: rest =>
      match Dict.get stem (task_files w) with
      | Some (Some task) =>
          let '(d', w') := load_task now task d w in
          load_files now rest d' w'
      | _ => load_files now rest d w
      end
  end.

Definition load_tasks (now : string) (d : Daemon) (w : World) : Daemon * World :=
  load_files now (Dict.keys (task_files w)) d w.

(** ** [build_task_command] *)

Definition lookup_tool (cfg : Config) (task : Task) : M ToolConfig.t :=
  match tool task with
  | Some tl =>
      match Dict.get tl (ai_tools cfg) with
      | Some tc => ret tc
      | None => raise (KeyError (Some tl))
      end
  | None => raise (KeyError None)
  end.

Definition crush_params (ps : Dict.t string) : string :=
  fold_left (fun acc kv => acc ++ " --" ++ fst kv ++ " '" ++ snd kv ++ "'") ps "".

Definition str_in (s : option string) (l : list string) : bool :=
  match s with
  | Some x => existsb (String.eqb x) l
  | None => false
  end.

Definition build_task_command (d : Daemon) (task : Task) : M string :=
  tool_config <- lookup_tool (config d) task ;;
  let base_command := ToolConfig.command tool_config in
  let cmd := Str.fmt_opt (command task) in
  param_str <-
    match parameters task with
    | [] => ret ""
    | ps =>
        if str_in (tool task) ["crush"] then ret (crush_params ps)
        else if str_in (tool task) ["blackbox"; "qwen"; "gemini"] then
          let config_file :=
            path_join (path_join (workspace d) "configs") (id task ++ "_params.json") in
          fun w =>
            (set_param_files (Dict.set config_file ps (param_files w)) w,
             inr (" --config " ++ config_file))
        else ret ""
    end ;;
  match
    match truthy_int (timeout task) with
    | Some n => Some n
    | None => truthy_int (ToolConfig.timeout tool_config)
    end
  with
  | Some n =>
      ret ("timeout " ++ Str.of_Z n ++ " " ++ base_command ++ " " ++ cmd ++ param_str)
  | None => ret (base_command ++ " " ++ cmd ++ param_str)
  end.

(** ** [execute_task]

    The five clock readings of one call, in the order the code takes them:
    [started_at], the banner echoed into the log ([str(datetime.now())]),
    the two markers, and [completed_at] of the [except] branches. *)
Record ExecClock := mkExecClock {
  now_started : string;
  now_banner : string;
  now_completed : string;
  now_failed : string;
  now_except : string
}.

Definition send_keys (session : string) (line : string) : M unit :=
  subprocess_run ["tmux"; "send-keys"; "-t"; session; line; "Enter"] true ;;;
  ret tt.

Definition log_setup_commands (d : Daemon) (task_id : string) (task : Task)
  (ck : ExecClock) : list string :=
  [ "mkdir -p " ++ workspace d ++ "/logs";
    "exec > >(tee " ++ log_file task ++ ")";
    "exec 2>&1";
    "echo '[" ++ now_banner ck ++ "] Starting task " ++ task_id ++ "'" ].

(** the text between the quotes of [completion_cmd]: the line the shell
    prints when the invocation succeeds *)
Definition completed_marker (task_id : string) (ck : ExecClock) : string :=
  completed_prefix task_id ++ now_completed ck ++ "]".

(** [completion_cmd] *)
Definition completion_cmd (task_id : string) (ck : ExecClock) : string :=
  "echo '" ++ completed_marker task_id ck ++ "'".

(** the line sent after the invocation *)
Definition marker_line (task_command task_id : string) (ck : ExecClock) : string :=
  task_command ++ " && " ++ completion_cmd task_id ck
  ++ " || echo '" ++ failed_prefix task_id ++ now_failed ck ++ "]'".

(** the body of the [try] block after the first [save_task] *)
Definition start_session (d : Daemon) (task_id : string) (task : Task)
  (ck : ExecClock) : M unit :=
  tool_config <- lookup_tool (config d) task ;;
  work_dir <-
    (fun w =>
       (w, inr (expanduser w
                  match truthy_str (working_dir task) with
                  | Some p => p
                  | None =>
                      match ToolConfig.working_dir tool_config with
                      | Some p => p
                      | None => "~"
                      end
                  end))) ;;
  let session := session_name task in
  subprocess_run ["tmux"; "kill-session"; "-t"; session] false ;;;
  subprocess_run ["tmux"; "new-session"; "-d"; "-s"; session; "-c"; work_dir] true ;;;
  for_each (log_setup_commands d task_id task ck) (send_keys session) ;;;
  for_each (ToolConfig.env_setup tool_config) (send_keys session) ;;;
  task_command <- build_task_command d task ;;
  send_keys session task_command ;;;
  send_keys session (marker_line task_command task_id ck).

Definition failed_to_start (e : exn) : string :=
  match e with
  | CalledProcessError _ _ => "Failed to start: " ++ str_exn e
  | _ => "Unexpected error: " ++ str_exn e
  end.

Definition execute_task (task_id : string) (ck : ExecClock) (d : Daemon) (w : World)
  : Daemon * World * bool :=
  match Dict.get task_id (tasks d) with
  | None => (d, w, false)
  | Some task0 =>
      let task := set_started_at (Some (now_started ck)) (set_status running task0) in
      let d1 := set_tasks (Dict.set task_id task (tasks d)) d in
      match start_session d1 task_id task ck (save_task task w) with
      | (w', inr _) => (d1, w', true)
      | (w', inl e) =>
          let task' :=
            set_completed_at (Some (now_except ck))
              (set_error_message (Some (failed_to_start e))
                 (set_status failed task)) in
          (set_tasks (Dict.set task_id task' (tasks d1)) d1, save_task task' w', false)
      end
  end.

(** ** [worker]: one turn of the loop.  An empty queue is [queue.Empty]. *)
Definition worker (ck : ExecClock) (d : Daemon) (w : World) : Daemon * World :=
  match task_queue d with
  | [] => (d, w)
  | task_id :: rest =>
      let d1 := set_task_queue rest d in
      if Dict.mem task_id (tasks d1)
      then let '(d2, w2, _) := execute_task task_id ck d1 w in (d2, w2)
      else (d1, w)
  end.

(** ** [extract_progress_from_logs] *)

Fixpoint last_opt {A} (l : list A) : option A :=
  match l with
  | [] => None
  | [x] => Some x
  | _ :: l' => last_opt l'
  end.

Definition binary64_of_int (n : Z) : spec_float :=
  match n with
  | Z0 => S754_zero false
  | Zpos p => S754_finite false p 0
  | Zneg p => S754_finite true p 0
  end.

(** [int(x)] for a [float]; an infinity or a NaN raises *)
Definition int_of_float (x : spec_float) : option Z :=
  match x with
  | S754_zero _ => Some 0
  | S754_finite s m e =>
      let a := if 0 <=? e then Z.shiftl (Zpos m) e else Z.shiftr (Zpos m) (- e) in
      Some (if s then - a else a)
  | _ => None
  end.

(** [int((current / total) * 100)] in binary64 arithmetic: the quotient of
    the two integers rounded to nearest, its product with [100.0] rounded
    again, the result truncated; [None] when the expression raises
    ([total = 0], or a quotient too large for a [float]). *)
Definition percent (current total : Z) : option Z :=
  if total =? 0 then None
  else
    int_of_float
      (SFmul 53 1024
         (SFdiv 53 1024 (binary64_of_int current) (binary64_of_int total))
         (binary64_of_int 100)).

(** the value [extract_progress_from_logs] assigns to [task['progress']];
    [None] when it assigns nothing *)
Definition inferred_progress (log_content : string) : option Z :=
  match last_opt (Re.findall re_progress log_content) with
  | Some gs => Some (Str.int_of (hd "" gs))
  | None =>
      match last_opt (Re.findall re_complete log_content) with
      | Some gs => Some (Str.int_of (hd "" gs))
      | None =>
          match last_opt (Re.findall re_processing log_content) with
          | Some [current; total] => percent (Str.int_of current) (Str.int_of total)
          | _ => None
          end
      end
  end.

Definition extract_progress_from_logs (task_id log_content : string) (d : Daemon)
  : exn + Daemon :=
  match Dict.get task_id (tasks d) with
  | None => inl (KeyError (Some task_id))
  | Some task =>
      match inferred_progress log_content with
      | Some p => inr (set_tasks (Dict.set task_id (set_progress p task) (tasks d)) d)
      | None => inr d
      end
  end.

(** ** [finalize_task_from_logs] *)

Definition is_error_line (line : string) : bool :=
  existsb (fun keyword => Str.contains keyword (Str.lower line))
    ["error"; "failed"; "exception"].

(** the three branches on the text of the log *)
Definition classify_log (task_id log_content now : string) (task : Task) : Task :=
  if Str.contains (completed_prefix task_id) log_content then
    set_completed_at
      (match Re.search (re_completed task_id) log_content with
       | Some gs => Some (hd "" gs)
       | None => Some now
       end)
      (set_progress 100 (set_status completed task))
  else if Str.contains (failed_prefix task_id) log_content then
    set_completed_at (Some now)
      (match last_opt (filter is_error_line (Str.split_lines log_content)) with
       | Some line => set_error_message (Some (Str.take 500 line)) (set_status failed task)
       | None => set_status failed task
       end)
  else
    set_completed_at (Some now)
      (set_error_message (Some "Task ended without completion marker")
         (set_status failed task)).

Definition finalize_task_from_logs (task_id now : string) (d : Daemon) (w : World)
  : Daemon * World * (exn + unit) :=
  match Dict.get task_id (tasks d) with
  | None => (d, w, inl (KeyError (Some task_id)))
  | Some task =>
      let d1 :=
        match Dict.get (log_file task) (log_files w) with
        | Some log_content =>
            let d0 :=
              set_tasks
                (Dict.set task_id (classify_log task_id log_content now task) (tasks d)) d in
            match extract_progress_from_logs task_id log_content d0 with
            | inr d' => inr d'
            | inl e => inl (d0, e)
            end
        | None =>
            inr (set_tasks
                   (Dict.set task_id
                      (set_completed_at (Some now)
                         (set_error_message (Some "Log file not found")
                            (set_status failed task)))
                      (tasks d)) d)
        end in
      let d2 :=
        match d1 with
        | inr d' => d'
        | inl (d0, e) =>
            match Dict.get task_id (tasks d0) with
            | Some t0 =>
                set_tasks
                  (Dict.set task_id
                     (set_completed_at (Some now)
                        (set_error_message (Some ("Finalization error: " ++ str_exn e))
                           (set_status failed t0)))
                     (tasks d0)) d0
            | None => d0
            end
        end in
      match Dict.get task_id (tasks d2) with
      | Some t2 => (d2, save_task t2 w, inr tt)
      | None => (d2, w, inr tt)
      end
  end.

(** ** [kill_task] *)

Definition kill_task (task_id reason now : string) (d : Daemon) (w : World)
  : Daemon * World * bool :=
  match Dict.get task_id (tasks d) with
  | None => (d, w, false)
  | Some task =>
      match subprocess_run ["tmux"; "kill-session"; "-t"; session_name task] false w with
      | (w1, inr _) =>
          let task' :=
            set_completed_at (Some now)
              (set_error_message (Some ("Task killed: " ++ reason))
                 (set_status failed task)) in
          (set_tasks (Dict.set task_id task' (tasks d)) d, save_task task' w1, true)
      | (w1, inl _) => (d, w1, false)
      end
  end.

(** ** The monitor *)

(** the clock of one monitor tick: [datetime.now()] as a point of the time
    line and as the text of [isoformat()]; the readings of one tick are
    taken as one. *)
Record Tick := mkTick {
  now_dt : Z;
  now_iso : string
}.

Definition usec_per_second : Z := 1000000.
Definition usec_per_day : Z := 86400 * usec_per_second.

Section Monitor.

(** [datetime.fromisoformat]; [None] is [ValueError] *)
Variable fromisoformat : string -> option Z.

(** [task.get('timeout') or config['ai_tools'][task['tool']].get('timeout', 3600)] *)
Definition effective_timeout (cfg : Config) (task : Task) : exn + Z :=
  match truthy_int (timeout task) with
  | Some n => inr n
  | None =>
      match tool task with
      | Some tl =>
          match Dict.get tl (ai_tools cfg) with
          | Some tc =>
              inr match ToolConfig.timeout tc with Some n => n | None => 3600 end
          | None => inl (KeyError (Some tl))
          end
      | None => inl (KeyError None)
      end
  end.

(** [datetime.now() - started > timedelta(seconds=timeout)]; [None] when
    the test is not reached or raises *)
Definition timed_out (cfg : Config) (task : Task) (tk : Tick) : option bool :=
  match truthy_str (started_at task) with
  | None => None
  | Some s =>
      match fromisoformat s, effective_timeout cfg task with
      | Some started, inr n => Some (n * usec_per_second <? now_dt tk - started)
      | _, _ => None
      end
  end.

Definition check_task_completion (task_id : string) (tk : Tick) (d : Daemon) (w : World)
  : Daemon * World * (exn + unit) :=
  match Dict.get task_id (tasks d) with
  | None => (d, w, inl (KeyError (Some task_id)))
  | Some task =>
      match subprocess_run ["tmux"; "has-session"; "-t"; session_name task] false w with
      | (w1, inl _) => (d, w1, inr tt)
      | (w1, inr rc) =>
          if negb (rc =? 0) then
            (* a [KeyError] of the finalizer is caught here *)
            let '(d2, w2, _) := finalize_task_from_logs task_id (now_iso tk) d w1 in
            (d2, w2, inr tt)
          else
            match timed_out (config d) task tk with
            | Some true =>
                let '(d2, w2, _) := kill_task task_id "timeout" (now_iso tk) d w1 in
                (d2, w2, inr tt)
            | _ => (d, w1, inr tt)
            end
      end
  end.

(** ** [cleanup_old_tasks]

    The loop runs over [list(self.tasks.items())]; a [completed_at] that
    does not parse raises inside the loop and ends the sweep. *)

Definition remove_task (task_id : string) (task : Task) (d : Daemon) (w : World)
  : Daemon * World :=
  (set_tasks (Dict.del task_id (tasks d)) d,
   set_log_files (Dict.del (log_file task) (log_files w))
     (set_task_files (Dict.del task_id (task_files w)) w)).

Fixpoint cleanup_loop (cutoff_date : Z) (items : list (string * Task))
  (d : Daemon) (w : World) : Daemon * World :=
  match items with
  | [] => (d, w)
  | (task_id, task) :: rest =>
      if terminal (status task) then
        match truthy_str (completed_at task) with
        | Some s =>
            match fromisoformat s with
            | Some completed_dt =>
                if completed_dt <? cutoff_date then
                  let '(d', w') := remove_task task_id task d w in
                  cleanup_loop cutoff_date rest d' w'
                else cleanup_loop cutoff_date rest d w
            | None => (d, w)
            end
        | None => cleanup_loop cutoff_date rest d w
        end
      else cleanup_loop cutoff_date rest d w
  end.

Definition cutoff (cfg : Config) (now : Z) : Z :=
  now - log_retention_days cfg * usec_per_day.

Definition cleanup_old_tasks (now : Z) (d : Daemon) (w : World) : Daemon * World :=
  cleanup_loop (cutoff (config d) now) (tasks d) d w.

(** ** [monitor_tasks]: one turn of the loop

    The status test reads the task object the snapshot shares with
    [self.tasks]. *)

Fixpoint monitor_pass (items : list (string * Task)) (tk : Tick)
  (d : Daemon) (w : World) : Daemon * World * (exn + unit) :=
  match items with
  | [] => (d, w, inr tt)
  | (task_id, task) :: rest =>
      let current :=
        match Dict.get task_id (tasks d) with Some t => t | None => task end in
      match status current with
      | running =>
          match check_task_completion task_id tk d w with
          | (d', w', inr _) => monitor_pass rest tk d' w'
          | (d', w', inl e) => (d', w', inl e)
          end
      | _ => monitor_pass rest tk d w
      end
  end.

Definition monitor_tick (tk : Tick) (d : Daemon) (w : World) : Daemon * World :=
  match monitor_pass (tasks d) tk d w with
  | (d', w', inr _) => cleanup_old_tasks (now_dt tk) d' w'
  | (d', w', inl _) => (d', w')
  end.

End Monitor.

(* ================================================================== *)
(** * An instance of [datetime.fromisoformat]

    [iso_parse] reads the two forms [datetime.isoformat()] writes,
    [YYYY-MM-DDTHH:MM:SS] and [YYYY-MM-DDTHH:MM:SS.ffffff], into
    microseconds since [0001-01-01T00:00:00]. *)

Module Iso.

(** [n] decimal digits *)
Fixpoint digits (n : nat) (acc : Z) (s : string) : option (Z * string) :=
  match n with
  | O => Some (acc, s)
  | S n' =>
      match s with
      | String c s' =>
          if Str.is_digit c then digits n' (10 * acc + Str.digit_val c) s' else None
      | EmptyString => None
      end
  end.

Definition sep (p : ascii -> bool) (s : string) : option string :=
  match s with
  | String c s' => if p c then Some s' else None
  | EmptyString => None
  end.

Definition is_leap (y : Z) : bool :=
  ((y mod 4 =? 0) && negb (y mod 100 =? 0)) || (y mod 400 =? 0).

Definition days_in_month (y m : Z) : Z :=
  if m =? 2 then (if is_leap y then 29 else 28)
  else if (m =? 4) || (m =? 6) || (m =? 9) || (m =? 11) then 30 else 31.

Definition days_before_year (y : Z) : Z :=
  (y - 1) * 365 + (y - 1) / 4 - (y - 1) / 100 + (y - 1) / 400.

Fixpoint days_before_month (y : Z) (m : nat) : Z :=
  match m with
  | O => 0
  | S m' => days_before_month y m' + days_in_month y (Z.of_nat m)
  end.

(** [date(y, m, d).toordinal()] *)
Definition ordinal (y m d : Z) : Z :=
  days_before_year y + days_before_month y (Z.to_nat (m - 1)) + d.

Definition iso_parse (s : string) : option Z :=
  match digits 4 0 s with
  | Some (y, s1) =>
  match sep (Ascii.eqb "-") s1 with
  | Some s2 =>
  match digits 2 0 s2 with
  | Some (mo, s3) =>
  match sep (Ascii.eqb "-") s3 with
  | Some s4 =>
  match digits 2 0 s4 with
  | Some (dd, s5) =>
  match sep (fun _ => true) s5 with
  | Some s6 =>
  match digits 2 0 s6 with
  | Some (hh, s7) =>
  match sep (Ascii.eqb ":") s7 with
  | Some s8 =>
  match digits 2 0 s8 with
  | Some (mi, s9) =>
  match sep (Ascii.eqb ":") s9 with
  | Some s10 =>
  match digits 2 0 s10 with
  | Some (ss, s11) =>
      let us :=
        match s11 with
        | EmptyString => Some 0
        | String "." s12 =>
            match digits 6 0 s12 with
            | Some (f, EmptyString) => Some f
            | _ => None
            end
        | _ => None
        end in
      match us with
      | Some f =>
          if (1 <=? y) && (1 <=? mo) && (mo <=? 12) && (1 <=? dd)
             && (dd <=? days_in_month y mo)
             && (hh <? 24) && (mi <? 60) && (ss <? 60)
          then
            Some ((((ordinal y mo dd - 1) * 86400 + hh * 3600 + mi * 60 + ss)
                   * usec_per_second) + f)
          else None
      | None => None
      end
  | None => None end | None => None end | None => None end
  | None => None end | None => None end | None => None end
  | None => None end | None => None end | None => None end
  | None => None end | None => None end.

End Iso.

(* ================================================================== *)
(** * What the specification asks of two operations

    Two statements of the specification are compared with the code below;
    each is written here after the specification's words. *)

(** "while alive and under timeout, re-runs progress extraction only";
    "inferred progress is clamped to <= 99": the progress a task should
    show after a monitor tick, given the text of its log. *)
Definition spec_progress_while_running (log_content : string) (old : Z) : Z :=
  match inferred_progress log_content with
  | Some p => Z.min p 99
  | None => old
  end.

(** "a reader must never observe a partially written record": in every
    state of the disk a save goes through, the record file holds what it
    held before or the full new record. *)
Definition spec_atomic_save (task : Task) (w : World) : Prop :=
  forall w', In w' (save_task_steps task w) ->
    Dict.get (id task) (task_files w') = Dict.get (id task) (task_files w)
    \/ Dict.get (id task) (task_files w') = Some (Some task).

(** a field [validate_task] reports as missing: absent, [None] or empty *)
Definition missing (v : option string) : Prop := v = None \/ v = Some "".

(** the tool is a key of the tool table *)
Definition known_tool (cfg : Config) (v : option string) : bool :=
  match v with
  | Some tl => Dict.mem tl (ai_tools cfg)
  | None => false
  end.

(** ** Views of the state *)

Definition task_of (task_id : string) (d : Daemon) : option Task :=
  Dict.get task_id (tasks d).

Definition status_of (task_id : string) (d : Daemon) : option Status :=
  option_map status (task_of task_id d).

Definition progress_of (task_id : string) (d : Daemon) : option Z :=
  option_map progress (task_of task_id d).

Definition completed_at_of (task_id : string) (d : Daemon) : option string :=
  match task_of task_id d with Some t => completed_at t | None => None end.

Definition error_message_of (task_id : string) (d : Daemon) : option string :=
  match task_of task_id d with Some t => error_message t | None => None end.

(** the lines a session has received *)
Definition sent_to (session : string) (w : World) : list string :=
  match Dict.get session (sessions w) with
  | Some ss => sent ss
  | None => []
  end.

(** ** Conditions on a task table, as tests *)

Fixpoint unique_keys {V} (d : Dict.t V) : bool :=
  match d with
  | [] => true
  | (k, _) :: d' => negb (Dict.mem k d') && unique_keys d'
  end.

(** every terminal task with a [completed_at] has one that parses *)
Definition stamps_parse (fromisoformat : string -> option Z) (ts : Dict.t Task) : bool :=
  forallb
    (fun kv =>
       match truthy_str (completed_at (snd kv)) with
       | Some s =>
           negb (terminal (status (snd kv)))
           || match fromisoformat s with Some _ => true | None => false end
       | None => true
       end) ts.

(** no two entries name the same log file *)
Fixpoint distinct_logs (ts : Dict.t Task) : bool :=
  match ts with
  | [] => true
  | (_, t) :: ts' =>
      negb (existsb (fun kv => String.eqb (log_file (snd kv)) (log_file t)) ts')
      && distinct_logs ts'
  end.

(** the test of the sweep on one entry: terminal, with a [completed_at]
    that parses to a point before the cutoff *)
Definition expired (fromisoformat : string -> option Z) (cutoff_date : Z) (t : Task) : bool :=
  terminal (status t)
  && match truthy_str (completed_at t) with
     | Some s =>
         match fromisoformat s with
         | Some c => c <? cutoff_date
         | None => false
         end
     | None => false
     end.

(** the sweep meets an expired entry under the key [k] *)
Definition gone_key (fromisoformat : string -> option Z) (cutoff_date : Z)
  (items : list (string * Task)) (k : string) : bool :=
  existsb (fun kv => String.eqb (fst kv) k
                     && expired fromisoformat cutoff_date (snd kv)) items.

(** the sweep meets an expired entry whose log file is [p] *)
Definition gone_log (fromisoformat : string -> option Z) (cutoff_date : Z)
  (items : list (string * Task)) (p : string) : bool :=
  existsb (fun kv => String.eqb (log_file (snd kv)) p
                     && expired fromisoformat cutoff_date (snd kv)) items.

(** [sub] starts somewhere inside [pre] in the text [pre ++ tail] *)
Fixpoint occurs_before (sub pre tail : string) : bool :=
  match pre with
  | EmptyString => false
  | String _ pre' =>
      String.prefix sub (pre ++ tail) || occurs_before sub pre' tail
  end.

(* ================================================================== *)
(** * A run of the daemon

    One task is submitted, dispatched, and followed along the paths the
    statements below are about.  Each state is obtained from the previous
    one by the methods above; what the host does in between (the session
    ends, the log grows) is written out. *)

Module Run.

Definition nl : string := String Str.LF EmptyString.

Definition daemon0 : Daemon := mkDaemon "/home/ai/ai-workspace" default_config [] [].
Definition world0 : World := mkWorld [] [] [] [] "/home/ai".

Definition request : Request :=
  mkRequest (Some "crush") (Some "review") [("depth", "2")] None "medium" None.
Definition fresh : Fresh :=
  mkFresh "20240101-120000" "abcdef12" "2024-01-01T12:00:00".

Definition tid : string := "task-20240101-120000-abcdef12".
Definition log_path : string :=
  "/home/ai/ai-workspace/logs/task-20240101-120000-abcdef12.log".
Definition session : string := "ai-task-20240101-120000-abcdef12".

(** a tick of the monitor at the time [s] *)
Definition at_time (s : string) : Tick :=
  mkTick (match Iso.iso_parse s with Some z => z | None => 0 end) s.

(** submitted: [queued] *)
Definition submitted := create_task request fresh daemon0 world0.
Definition d_queued : Daemon := fst (fst submitted).
Definition w_queued : World := snd (fst submitted).

(** dispatched by a worker: [running], the session is alive *)
Definition clock : ExecClock :=
  mkExecClock "2024-01-01T12:00:01" "2024-01-01 12:00:01.500000"
    "2024-01-01T12:00:02" "2024-01-01T12:00:03" "2024-01-01T12:00:04".
Definition dispatched := worker clock d_queued w_queued.
Definition d_running : Daemon := fst dispatched.
Definition w_running : World := snd dispatched.

(** the host: the session has ended and the log holds [text] *)
Definition ended (text : string) (w : World) : World :=
  set_log_files [(log_path, text)] (set_sessions [] w).

(** the host: the session is alive and the log holds [text] *)
Definition logged (text : string) (w : World) : World :=
  set_log_files [(log_path, text)] w.

Definition banner : string :=
  "[2024-01-01 12:00:01.500000] Starting task " ++ tid ++ nl.

(** the log of a successful invocation *)
Definition log_ok : string :=
  banner ++ "review done" ++ nl ++ completed_marker tid clock ++ nl.

(** the log of a successful invocation that reported its progress *)
Definition log_ok_progress : string :=
  banner ++ "Progress: 65%" ++ nl ++ completed_marker tid clock ++ nl.

(** the log of an invocation still at work *)
Definition log_working : string :=
  banner ++ "Progress: 40%" ++ nl.

(** the monitor finds the session gone and the marker in the log:
    [completed] *)
Definition finalized :=
  check_task_completion Iso.iso_parse tid (at_time "2024-01-01T12:05:00")
    d_running (ended log_ok w_running).
Definition d_completed : Daemon := fst (fst finalized).
Definition w_completed : World := snd (fst finalized).

(** a kill request for the completed task, and a second one *)
Definition killed := kill_task tid "manual" "2024-01-01T12:06:00" d_completed w_completed.
Definition killed_twice :=
  kill_task tid "manual" "2024-01-01T12:07:00" (fst (fst killed)) (snd (fst killed)).

(** a kill request for the task while it is queued, then the worker that
    takes its identifier from the queue *)
Definition killed_queued := kill_task tid "manual" "2024-01-01T12:00:00" d_queued w_queued.
Definition dispatched_after_kill :=
  worker clock (fst (fst killed_queued)) (snd (fst killed_queued)).

(** the daemon restarts while the task runs: an empty task table, the
    disk and the sessions as the dispatch left them *)
Definition restarted := load_tasks "2024-01-01T12:10:00" daemon0 w_running.

(** the daemon restarts while the task is queued *)
Definition restarted_queued := load_tasks "2024-01-01T12:10:00" daemon0 w_queued.

(** a table of two finished tasks, one completed eight days before the
    sweep and one exactly seven days before it *)
Definition finished (task_id stamp : string) : Task :=
  mkTask task_id (Some "crush") (Some "review") [] None "medium" None
    completed 100 "2024-01-01T08:00:00" (Some "2024-01-01T08:00:01") (Some stamp)
    None ("ai-" ++ task_id)
    ("/home/ai/ai-workspace/logs/" ++ task_id ++ ".log")
    ("/home/ai/ai-workspace/results/" ++ task_id ++ ".json") None.

Definition old_task : Task := finished "task-old" "2024-01-02T12:00:00".
Definition edge_task : Task := finished "task-edge" "2024-01-03T12:00:00".

Definition d_finished : Daemon :=
  mkDaemon "/home/ai/ai-workspace" default_config
    [("task-old", old_task); ("task-edge", edge_task)] [].
Definition w_finished : World :=
  mkWorld [("task-old", Some old_task); ("task-edge", Some edge_task)]
    [(log_file old_task, "old"); (log_file edge_task, "edge")] [] [] "/home/ai".

Definition sweep_time : Z := now_dt (at_time "2024-01-10T12:00:00").

End Run.

(* ================================================================== *)
(** * The rest of the daemon *)

(** ** [load_config]

    [daemon.json] as the entries [load_config] merges into the defaults;
    [None] is a key the file does not give.  The merge is
    [default_config.update(loaded_config)]: an entry of the file replaces
    the default entry of the same key as a whole. *)
Record ConfigFile := mkConfigFile {
  f_max_concurrent_tasks : option Z;
  f_task_timeout : option Z;
  f_cleanup_interval : option Z;
  f_heartbeat_interval : option Z;
  f_log_retention_days : option Z;
  f_ai_tools : option (Dict.t ToolConfig.t)
}.

Definition or_default {A : Type} (v : option A) (dflt : A) : A :=
  match v with Some x => x | None => dflt end.

(** [file] is [None] when [daemon.json] is absent or does not load *)
Definition load_config (file : option ConfigFile) : Config :=
  match file with
  | None => default_config
  | Some f =>
      mkConfig
        (or_default (f_max_concurrent_tasks f) (max_concurrent_tasks default_config))
        (or_default (f_task_timeout f) (task_timeout default_config))
        (or_default (f_cleanup_interval f) (cleanup_interval default_config))
        (or_default (f_heartbeat_interval f) (heartbeat_interval default_config))
        (or_default (f_log_retention_days f) (log_retention_days default_config))
        (or_default (f_ai_tools f) (ai_tools default_config))
  end.

(** ** [acquire_lock] and [release_lock]

    The file [pid/daemon.lock] as a process finds it: its text, and the
    process that holds the [flock] on it.  [acquire_lock] is called by a
    process that does not hold the lock yet ([start] calls it once):
    [open(..., 'w')] creates the file or empties the one that is there,
    [flock(LOCK_EX | LOCK_NB)] raises when the lock is held, and only then
    is the pid written.  Either way [self.lock_fd] is set afterwards. *)
Record LockFile := mkLockFile {
  lock_text : string;
  locked_by : option Z
}.

Definition acquire_lock (pid : Z) (lf : option LockFile) : option LockFile * bool :=
  let opened :=
    match lf with
    | Some f => mkLockFile "" (locked_by f)
    | None => mkLockFile "" None
    end in
  match locked_by opened with
  | Some _ => (Some opened, false)
  | None => (Some (mkLockFile (Str.of_Z pid) (Some pid)), true)
  end.

(** [lock_fd] tells whether [self.lock_fd] is set; the file is unlocked,
    closed and, when it exists, unlinked *)
Definition release_lock (lock_fd : bool) (lf : option LockFile) : option LockFile :=
  if lock_fd then None else lf.

(** ** [get_status]: the entries [task_counts] and [queue_size] *)

Definition count_status (s : Status) (d : Daemon) : nat :=
  List.length (filter (fun kv => Status_eqb (status (snd kv)) s) (tasks d)).

Record TaskCounts := mkTaskCounts {
  n_queued : nat;
  n_running : nat;
  n_completed : nat;
  n_failed : nat
}.

Definition task_counts (d : Daemon) : TaskCounts :=
  mkTaskCounts (count_status queued d) (count_status running d)
    (count_status completed d) (count_status failed d).

Definition queue_size (d : Daemon) : nat := List.length (task_queue d).

(** ** The [stop] command of the script

    [int(f.read().strip())] on the text of the lock file, then
    [os.kill(pid, SIGTERM)].  [py_int] is [int] on a [str] of code points
    below 256: surrounding white space, an optional sign, and decimal
    digits that single underscores may separate; [None] is [ValueError]. *)

Fixpoint lstrip (s : string) : string :=
  match s with
  | String c s' => if Str.is_space c then lstrip s' else s
  | EmptyString => EmptyString
  end.

Fixpoint rstrip (s : string) : string :=
  match s with
  | EmptyString => EmptyString
  | String c s' =>
      match rstrip s' with
      | EmptyString => if Str.is_space c then EmptyString else String c EmptyString
      | r => String c r
      end
  end.

(** [s.strip()] *)
Definition strip (s : string) : string := rstrip (lstrip s).

(** the digits of an [int] literal after its first digit: [acc] is the
    value read so far, [after_digit] tells whether an underscore may
    come *)
Fixpoint py_digits (acc : Z) (after_digit : bool) (s : string) : option Z :=
  match s with
  | EmptyString => if after_digit then Some acc else None
  | String c s' =>
      if Str.is_digit c then py_digits (10 * acc + Str.digit_val c) true s'
      else if Ascii.eqb c "_" && after_digit then py_digits acc false s'
      else None
  end.

Definition py_unsigned (s : string) : option Z :=
  match s with
  | String c _ => if Str.is_digit c then py_digits 0 false s else None
  | EmptyString => None
  end.

Definition py_int (text : string) : option Z :=
  match strip text with
  | String "-" s => option_map Z.opp (py_unsigned s)
  | String "+" s => py_unsigned s
  | s => py_unsigned s
  end.

(** what the [stop] command prints *)
Inductive StopOutcome :=
| StopSignalSent (pid : Z)
| NoRunningDaemonFound
| DaemonNotRunning.

(** [process_exists pid] tells whether [os.kill(pid, SIGTERM)] finds its
    target; when it does not, [ProcessLookupError] is raised *)
Definition stop (process_exists : Z -> bool) (lf : option LockFile) : StopOutcome :=
  match lf with
  | None => DaemonNotRunning
  | Some f =>
      match py_int (strip (lock_text f)) with
      | Some pid => if process_exists pid then StopSignalSent pid else NoRunningDaemonFound
      | None => NoRunningDaemonFound
      end
  end.

(** ** Further views and conditions *)

Definition set_parameters (v : Dict.t string) (t : Task) : Task :=
  mkTask (id t) (tool t) (command t) v (working_dir t)
    (priority t) (timeout t) (status t) (progress t) (created_at t) (started_at t)
    (completed_at t) (error_message t) (session_name t) (log_file t)
    (result_file t) (pid t).

(** the records of a directory listing that read back as tasks *)
Fixpoint parsed (files : list (string * option Task)) : list Task :=
  match files with
  | [] => []
  | (_, Some t) :: rest => t :: parsed rest
  | (_, None) :: rest => parsed rest
  end.

(** every key of [ks] is a key of the table *)
Definition all_known (ks : list string) (ts : Dict.t Task) : bool :=
  forallb (fun k => Dict.mem k ts) ks.

(** [str(KeyError(tool))] for the tool of a task *)
Definition unknown_tool_message (v : option string) : string :=
  "Unexpected error: " ++ str_exn (KeyError v).

(** the files of the tasks and the logs are the same in two worlds *)
Definition same_disk (w w' : World) : Prop :=
  task_files w' = task_files w /\ log_files w' = log_files w /\ home w' = home w.

(** a computation that leaves the files of the tasks and the logs alone *)
Definition keeps_disk {A : Type} (m : M A) : Prop :=
  forall w, same_disk w (fst (m w)).

(** the record a kill request leaves *)
Definition killed_record (reason now : string) (task : Task) : Task :=
  set_completed_at (Some now)
    (set_error_message (Some ("Task killed: " ++ reason)) (set_status failed task)).

(** the record a dispatch starts from *)
Definition started_record (ck : ExecClock) (task : Task) : Task :=
  set_started_at (Some (now_started ck)) (set_status running task).

(** the record finalization leaves when the log file is not there *)
Definition no_log_record (now : string) (task : Task) : Task :=
  set_completed_at (Some now)
    (set_error_message (Some "Log file not found") (set_status failed task)).

(** the record finalization leaves, from what the log path of the task
    holds *)
Definition finalized_record (task_id now : string) (w : World) (task : Task) : Task :=
  match Dict.get (log_file task) (log_files w) with
  | Some log_content =>
      match inferred_progress log_content with
      | Some p => set_progress p (classify_log task_id log_content now task)
      | None => classify_log task_id log_content now task
      end
  | None => no_log_record now task
  end.

(** nobody holds the lock on the lock file *)
Definition lock_free (lf : option LockFile) : bool :=
  match lf with
  | Some f => match locked_by f with Some _ => false | None => true end
  | None => true
  end.

Definition is_status (s : Status) (t : Task) : bool := Status_eqb (status t) s.

(** no character of [s] is in the class [cls] *)
Definition free_of (cls : ascii -> bool) (s : string) : bool :=
  Str.all (fun c => negb (cls c)) s.

(** the first line of a text *)
Definition first_line (s : string) : string := hd "" (Str.split_lines s).

(** [monitor_tasks]: the loop, for as many turns as [turns] is long.  A
    turn is what the host has done to the world since the last one (while
    the loop slept) and the clock of the tick. *)
Fixpoint monitor_tasks (fromisoformat : string -> option Z)
  (turns : list ((World -> World) * Tick)) (d : Daemon) (w : World) : Daemon * World :=
  match turns with
  | [] => (d, w)
  | (host, tk) :: rest =>
      let '(d', w') := monitor_tick fromisoformat tk d (host w) in
      monitor_tasks fromisoformat rest d' w'
  end.

(** every record file is named after the identifier of its record, as
    [save_task] names them *)
Definition named_by_id (files : Dict.t (option Task)) : bool :=
  forallb (fun f => match snd f with
                    | Some t => String.eqb (id t) (fst f)
                    | None => true
                    end) files.

(** ** More of the run *)

Module Run2.

(** a record whose tool the configuration does not know, as a restart
    finds it on disk *)
Definition orphan : Task :=
  mkTask "task-orphan" (Some "mystery") (Some "solve") [("k", "v")] None "low" None
    queued 0 "2024-01-01T09:00:00" None None None "ai-task-orphan"
    "/home/ai/ai-workspace/logs/task-orphan.log"
    "/home/ai/ai-workspace/results/task-orphan.json" None.

Definition d_orphan : Daemon :=
  mkDaemon "/home/ai/ai-workspace" default_config [("task-orphan", orphan)] ["task-orphan"].
Definition w_orphan : World :=
  mkWorld [("task-orphan", Some orphan)] [] [] [] "/home/ai".

(** a tool table with one tool outside the four [build_task_command]
    names, without a timeout *)
Definition custom_config : Config :=
  mkConfig 4 3600 300 30 7 [("mystery", ToolConfig.mk "mystery-cli" [] None None)].
Definition d_custom : Daemon :=
  mkDaemon "/home/ai/ai-workspace" custom_config [("task-orphan", orphan)] ["task-orphan"].

(** the log of a failed invocation *)
Definition log_failed : string :=
  Run.banner ++ "Traceback: boom" ++ Run.nl
  ++ "[TASK_FAILED:" ++ Run.tid ++ ":2024-01-01T12:00:03]" ++ Run.nl.

(** a log without a sentinel *)
Definition log_silent : string := Run.banner ++ "working" ++ Run.nl.

(** a directory listing with a file that does not parse between two
    records *)
Definition listing : list (string * option Task) :=
  [("task-old", Some Run.old_task); ("broken", None); ("task-orphan", Some orphan)].
Definition w_listing : World := mkWorld listing [] [] [] "/home/ai".

(** two finished tasks, the first with a [completed_at] that does not
    parse, the second long expired *)
Definition bad_task : Task := Run.finished "task-bad" "yesterday".
Definition d_bad : Daemon :=
  mkDaemon "/home/ai/ai-workspace" default_config
    [("task-bad", bad_task); ("task-old", Run.old_task)] [].
Definition w_bad : World :=
  mkWorld [("task-bad", Some bad_task); ("task-old", Some Run.old_task)]
    [(log_file bad_task, "bad"); (log_file Run.old_task, "old")] [] [] "/home/ai".

(** a directory where a copy of a record, left as [running], precedes the
    file of the record itself *)
Definition w_copy : World :=
  mkWorld [("task-copy", Some (started_record Run.clock orphan));
           ("task-orphan", Some orphan)] [] [] [] "/home/ai".

(** a log that ends inside the success sentinel, before the closing
    bracket *)
Definition log_cut : string :=
  Run.banner ++ "review done" ++ Run.nl
  ++ "[TASK_COMPLETED:" ++ Run.tid ++ ":2024-01-01T12:00:02".

(** a configuration file that names one tool *)
Definition file_one_tool : ConfigFile :=
  mkConfigFile None None None (Some 10) None
    (Some [("mystery", ToolConfig.mk "mystery-cli" [] None None)]).

End Run2.

(* ================================================================== *)
(** * Facts about dictionaries *)

Module DictFacts.

Section Facts.
Variable V : Type.
Implicit Types (d : Dict.t V) (k : string) (v : V).

Lemma get_set_eq k v d : Dict.get k (Dict.set k v d) = Some v.
Proof.
  induction d as [|[k' v'] d IH]; simpl.
  - now rewrite String.eqb_refl.
  - destruct (String.eqb k k') eqn:E; simpl.
    + now rewrite String.eqb_refl.
    + now rewrite E.
Qed.

Lemma get_set_ne k k' v d :
  k <> k' -> Dict.get k (Dict.set k' v d) = Dict.get k d.
Proof.
  intros Hne. apply String.eqb_neq in Hne.
  induction d as [|[k0 v0] d IH]; simpl.
  - now rewrite Hne.
  - destruct (String.eqb k' k0) eqn:E; simpl.
    + apply String.eqb_eq in E; subst k0. now rewrite Hne.
    + now rewrite IH.
Qed.

Lemma get_del_eq k d : Dict.get k (Dict.del k d) = None.
Proof.
  induction d as [|[k' v'] d IH]; simpl; auto.
  destruct (String.eqb k k') eqn:E; simpl; auto.
  now rewrite E.
Qed.

Lemma get_del_ne k k' d :
  k <> k' -> Dict.get k (Dict.del k' d) = Dict.get k d.
Proof.
  intros Hne. apply String.eqb_neq in Hne.
  induction d as [|[k0 v0] d IH]; simpl; auto.
  destruct (String.eqb k' k0) eqn:E; simpl.
  - apply String.eqb_eq in E; subst k0. now rewrite Hne.
  - now rewrite IH.
Qed.

Lemma get_del_none k k' d :
  Dict.get k d = None -> Dict.get k (Dict.del k' d) = None.
Proof.
  intros H. destruct (String.eqb_spec k k') as [->|Hne].
  - apply get_del_eq.
  - now rewrite get_del_ne.
Qed.

Lemma get_In k v d : Dict.get k d = Some v -> In (k, v) d.
Proof.
  induction d as [|[k' v'] d IH]; simpl; [discriminate|].
  destruct (String.eqb_spec k k') as [->|Hne]; intros H.
  - left. congruence.
  - right. auto.
Qed.

Lemma mem_In_false k v d : Dict.mem k d = false -> ~ In (k, v) d.
Proof.
  unfold Dict.mem.
  induction d as [|[k' v'] d IH]; simpl; auto.
  destruct (String.eqb_spec k k') as [->|Hne]; [discriminate|].
  intros H [Heq|Hin]; [congruence | now apply IH].
Qed.

Lemma In_get k v d : unique_keys d = true -> In (k, v) d -> Dict.get k d = Some v.
Proof.
  induction d as [|[k' v'] d IH]; simpl; [tauto|].
  intros Hu [Heq|Hin]; apply andb_true_iff in Hu; destruct Hu as [Hm Hu].
  - inversion Heq; subst. now rewrite String.eqb_refl.
  - destruct (String.eqb_spec k k') as [->|Hne]; auto.
    apply negb_true_iff in Hm. now apply mem_In_false with (v := v) in Hm.
Qed.

Lemma mem_set k v d : Dict.mem k (Dict.set k v d) = true.
Proof. unfold Dict.mem. now rewrite get_set_eq. Qed.

Lemma mem_del k d : Dict.mem k (Dict.del k d) = false.
Proof. unfold Dict.mem. now rewrite get_del_eq. Qed.
End Facts.

End DictFacts.

(** from here on dictionaries are used through the facts above *)
Arguments Dict.get : simpl never.
Arguments Dict.set : simpl never.
Arguments Dict.del : simpl never.
Arguments Dict.mem : simpl never.

(* ================================================================== *)
(** * Submission *)

Lemma truthy_str_missing (v : option string) :
  truthy_str v = None <-> missing v.
Proof.
  unfold missing. destruct v as [[|c s]|]; simpl; split; intros H; auto;
    try discriminate; destruct H; discriminate.
Qed.

Lemma validate_task_false (cfg : Config) (task : Task) :
  validate_task cfg task = false <->
  missing (tool task) \/ missing (command task) \/ known_tool cfg (tool task) = false.
Proof.
  unfold validate_task.
  destruct (truthy_str (tool task)) as [tl|] eqn:Et.
  - assert (Htool : tool task = Some tl)
      by (destruct (tool task) as [[|c s]|]; simpl in Et; congruence).
    destruct (truthy_str (command task)) as [cm|] eqn:Ec.
    + split.
      * intros Hmem. right; right. now rewrite Htool.
      * intros [H|[H|H]].
        -- apply truthy_str_missing in H. congruence.
        -- apply truthy_str_missing in H. congruence.
        -- now rewrite Htool in H.
    + split; auto. intros _. right; left. now apply truthy_str_missing.
  - split; auto. intros _. left. now apply truthy_str_missing.
Qed.

(** C8: [create_task] fails exactly when the tool or the command of the
    request is missing (absent, [None] or empty, the fields [validate_task]
    logs as "missing") or the tool is not a key of the tool table; a failed
    submission leaves the task table, the queue and the disk as they were;
    a successful one returns the new identifier, whose task is [queued], in
    the table, on disk, and at the end of the queue. *)
Theorem create_task_rejects_before_persistence :
  forall (rq : Request) (f : Fresh) (d : Daemon) (w : World),
    let '(d', w', r) := create_task rq f d w in
    ((exists e, r = inl e) <->
     (missing (r_tool rq) \/ missing (r_command rq)
      \/ known_tool (config d) (r_tool rq) = false))
    /\ (forall e, r = inl e -> d' = d /\ w' = w)
    /\ (forall task_id, r = inr task_id ->
          task_id = new_task_id f
          /\ exists task,
               task_of task_id d' = Some task
               /\ status task = queued
               /\ Dict.get task_id (task_files w') = Some (Some task)
               /\ task_queue d' = (task_queue d ++ [task_id])%list).
Proof.
  intros rq f d w. unfold create_task.
  pose proof (validate_task_false (config d) (new_task d rq f)) as Hv.
  simpl in Hv.
  destruct (validate_task (config d) (new_task d rq f)) eqn:E; simpl.
  - split; [|split].
    + split.
      * intros [e He]; discriminate.
      * intros H. apply Hv in H. discriminate.
    + intros e He; discriminate.
    + intros task_id Hid. inversion Hid; subst task_id. split; [reflexivity|].
      exists (new_task d rq f). unfold task_of; simpl.
      rewrite !DictFacts.get_set_eq. auto.
  - split; [|split].
    + split; [intros _; now apply Hv | intros _; eauto].
    + auto.
    + intros task_id Hid; discriminate.
Qed.

(* ================================================================== *)
(** * Persistence *)

(** C6 (as the code has it): [save_task] writes the record file in place.
    Opening the file for writing leaves it present but without a record;
    the dump then fills it: when [save_task] returns the file holds the
    full record, and in the one state in between it holds none. *)
Theorem save_task_in_place :
  forall (task : Task) (w : World),
    Dict.get (id task) (task_files (save_task task w)) = Some (Some task)
    /\ exists w1,
         save_task_steps task w = [w1; save_task task w]
         /\ Dict.get (id task) (task_files w1) = Some None.
Proof.
  intros task w. unfold save_task, save_task_steps; simpl. split.
  - apply DictFacts.get_set_eq.
  - eexists; split; [reflexivity|]. simpl. apply DictFacts.get_set_eq.
Qed.

(** C6 (as stated) fails: when the completed task of [Run] is saved over
    its record of the time it was running, the disk passes through a state
    in which the record file holds neither the record that was there nor
    the new one. *)
Lemma save_task_not_atomic :
  exists task,
    task_of Run.tid Run.d_completed = Some task
    /\ ~ spec_atomic_save task Run.w_running.
Proof.
  destruct (task_of Run.tid Run.d_completed) as [task|] eqn:E;
    [|vm_compute in E; discriminate].
  exists task. split; [reflexivity|].
  intros H.
  specialize (H (open_w (id task) Run.w_running) (or_introl eq_refl)).
  vm_compute in E. inversion E; subst task; clear E.
  vm_compute in H. destruct H as [H|H]; discriminate.
Qed.

(* ================================================================== *)
(** * Kill requests and dispatch *)

(** [kill_task] asks nothing of the status of the task it is given. *)
Lemma kill_task_any_status :
  forall (task_id reason now : string) (d : Daemon) (w : World) (task : Task),
    task_of task_id d = Some task ->
    let '(d', _, ok) := kill_task task_id reason now d w in
    ok = true
    /\ task_of task_id d' =
         Some (set_completed_at (Some now)
                 (set_error_message (Some ("Task killed: " ++ reason))
                    (set_status failed task))).
Proof.
  intros task_id reason now d w task Hget. unfold kill_task, task_of in *.
  rewrite Hget. unfold subprocess_run.
  destruct (tmux _ w) as [w1 rc]. simpl.
  split; [reflexivity | apply DictFacts.get_set_eq].
Qed.

(** C1: the run shows a terminal status overwritten twice.  The task of
    [Run] is [completed] when a kill request arrives, and is [failed]
    after it; killed while [queued] it is [failed], and the worker that
    then takes its identifier from the queue sets it to [running]. *)
Theorem terminal_status_is_overwritten :
  status_of Run.tid Run.d_completed = Some completed
  /\ status_of Run.tid (fst (fst Run.killed)) = Some failed
  /\ status_of Run.tid (fst (fst Run.killed_queued)) = Some failed
  /\ task_queue (fst (fst Run.killed_queued)) = [Run.tid]
  /\ status_of Run.tid (fst Run.dispatched_after_kill) = Some running.
Proof. vm_compute. repeat split. Qed.

(** C2: a kill request for the completed task of [Run] returns [True] and
    rewrites the three fields; a second request, a minute later, returns
    [True] and moves [completed_at] again. *)
Theorem kill_task_rewrites_terminal_task :
  (status_of Run.tid Run.d_completed = Some completed
   /\ error_message_of Run.tid Run.d_completed = None
   /\ completed_at_of Run.tid Run.d_completed = Some "2024-01-01T12:00:02")
  /\ (snd Run.killed = true
      /\ status_of Run.tid (fst (fst Run.killed)) = Some failed
      /\ error_message_of Run.tid (fst (fst Run.killed)) = Some "Task killed: manual"
      /\ completed_at_of Run.tid (fst (fst Run.killed)) = Some "2024-01-01T12:06:00")
  /\ (snd Run.killed_twice = true
      /\ completed_at_of Run.tid (fst (fst Run.killed_twice)) = Some "2024-01-01T12:07:00").
Proof. vm_compute. repeat split. Qed.

(* ================================================================== *)
(** * Restart recovery *)

(** no method of the daemon assigns [task['pid']]: a task without one is
    never found running *)
Lemma is_task_running_without_pid (task : Task) (w : World) :
  pid task = None -> is_task_running task w = (w, false).
Proof. intros H. unfold is_task_running. now rewrite H. Qed.

Lemma load_task_running_gone :
  forall (now : string) (task : Task) (d : Daemon) (w : World),
    status task = running ->
    Dict.mem (session_name task) (sessions w) = false ->
    let '(d', w') := load_task now task d w in
    task_of (id task) d' =
      Some (set_completed_at (Some now)
              (set_error_message (Some "Process died unexpectedly")
                 (set_status failed task)))
    /\ task_queue d' = task_queue d.
Proof.
  intros now task d w Hst Hgone. unfold load_task. rewrite Hst.
  assert (Hrun : snd (is_task_running task w) = false).
  { unfold is_task_running. destruct (truthy_int (pid task)); [|reflexivity].
    unfold subprocess_run, tmux. now rewrite Hgone. }
  destruct (is_task_running task w) as [w1 alive]. simpl in Hrun. subst alive.
  simpl. split; [apply DictFacts.get_set_eq | reflexivity].
Qed.

Lemma load_task_queued :
  forall (now : string) (task : Task) (d : Daemon) (w : World),
    status task = queued ->
    let '(d', w') := load_task now task d w in
    task_of (id task) d' = Some task
    /\ task_queue d' = (task_queue d ++ [id task])%list
    /\ w' = w.
Proof.
  intros now task d w Hst. unfold load_task. rewrite Hst. simpl.
  split; [apply DictFacts.get_set_eq | auto].
Qed.

(** C5: the daemon of [Run] restarts while its task runs.  The record on
    disk says [running], the session of the task is alive, and after
    [load_tasks] the task is [failed] with "Process died unexpectedly":
    the record carries no [pid], as every record the daemon writes. *)
Theorem load_tasks_fails_live_running_task :
  (exists task,
      Dict.get Run.tid (task_files Run.w_running) = Some (Some task)
      /\ status task = running
      /\ pid task = None
      /\ Dict.mem (session_name task) (sessions Run.w_running) = true)
  /\ status_of Run.tid (fst Run.restarted) = Some failed
  /\ error_message_of Run.tid (fst Run.restarted) = Some "Process died unexpectedly"
  /\ Dict.mem Run.session (sessions (snd Run.restarted)) = true.
Proof.
  split.
  - eexists. vm_compute. repeat split.
  - vm_compute. repeat split.
Qed.

(* ================================================================== *)
(** * Completion inference *)

Lemma finalize_sentinel_completed :
  forall (task_id now : string) (d : Daemon) (w : World) (task : Task) (log_content : string),
    task_of task_id d = Some task ->
    Dict.get (log_file task) (log_files w) = Some log_content ->
    Str.contains (completed_prefix task_id) log_content = true ->
    exists task',
      task_of task_id (fst (fst (finalize_task_from_logs task_id now d w))) = Some task'
      /\ status task' = completed
      /\ progress task' =
           match inferred_progress log_content with Some p => p | None => 100 end.
Proof.
  intros task_id now d w task log_content Hget Hlog Hin.
  unfold finalize_task_from_logs, task_of in *. rewrite Hget, Hlog.
  unfold extract_progress_from_logs, classify_log.
  cbn [tasks set_tasks]. rewrite Hin, DictFacts.get_set_eq.
  destruct (inferred_progress log_content) as [p|];
    repeat (progress (cbn [tasks set_tasks fst snd]; rewrite ?DictFacts.get_set_eq));
    eexists; (split; [reflexivity|]); auto.
Qed.

(** C3: the log of the run holds a progress line and then the success
    sentinel of the task.  Finalization takes the first branch, the task is
    [completed], and its progress is the 65 of the progress line, not 100:
    [extract_progress_from_logs] runs after the branch has set 100. *)
Theorem finalize_completed_progress_overwritten :
  Str.contains (completed_prefix Run.tid) Run.log_ok_progress = true
  /\ inferred_progress Run.log_ok_progress = Some 65
  /\ let '(d, _, _) :=
       finalize_task_from_logs Run.tid "2024-01-01T12:05:00"
         Run.d_running (Run.ended Run.log_ok_progress Run.w_running) in
     status_of Run.tid d = Some completed /\ progress_of Run.tid d = Some 65.
Proof. vm_compute. repeat split. Qed.

(* ================================================================== *)
(** * Dispatch *)

(** C7: the lines the session of the run received, in order.  The
    invocation is the sixth line, sent alone; the seventh runs it a second
    time, this time joined to the two markers. *)
Theorem execute_task_sends_invocation_twice :
  sent_to Run.session Run.w_running =
    [ "mkdir -p /home/ai/ai-workspace/logs";
      "exec > >(tee /home/ai/ai-workspace/logs/task-20240101-120000-abcdef12.log)";
      "exec 2>&1";
      "echo '[2024-01-01 12:00:01.500000] Starting task task-20240101-120000-abcdef12'";
      "source ~/.bashrc";
      "timeout 1800 crush review --depth '2'";
      "timeout 1800 crush review --depth '2' && echo '[TASK_COMPLETED:task-20240101-120000-abcdef12:2024-01-01T12:00:02]' || echo '[TASK_FAILED:task-20240101-120000-abcdef12:2024-01-01T12:00:03]'" ]
  /\ List.length (filter (String.prefix "timeout 1800 crush review --depth '2'")
               (sent_to Run.session Run.w_running)) = 2%nat.
Proof. vm_compute. split; reflexivity. Qed.

(* ================================================================== *)
(** * The monitor *)

(** For a running task whose session is alive and whose timeout has not
    passed, the step of the monitor tick changes nothing: the task table
    (status and progress of the task included) and the host are as before;
    the log is not read. *)
Lemma check_task_completion_alive_unchanged :
  forall (fromisoformat : string -> option Z) (task_id : string) (tk : Tick)
         (d : Daemon) (w : World) (task : Task),
    task_of task_id d = Some task ->
    status task = running ->
    Dict.mem (session_name task) (sessions w) = true ->
    timed_out fromisoformat (config d) task tk <> Some true ->
    check_task_completion fromisoformat task_id tk d w = (d, w, inr tt).
Proof.
  intros fromisoformat task_id tk d w task Hget _ Halive Hunder.
  unfold check_task_completion, task_of in *. rewrite Hget.
  unfold subprocess_run, tmux. rewrite Halive. simpl.
  destruct (timed_out fromisoformat (config d) task tk) as [[|]|];
    congruence.
Qed.

Lemma check_task_completion_alive_unchanged_witness :
  check_task_completion Iso.iso_parse Run.tid (Run.at_time "2024-01-01T12:05:00")
    Run.d_running (Run.logged Run.log_working Run.w_running)
  = (Run.d_running, Run.logged Run.log_working Run.w_running, inr tt).
Proof.
  eapply check_task_completion_alive_unchanged.
  - vm_compute; reflexivity.
  - vm_compute; reflexivity.
  - vm_compute; reflexivity.
  - vm_compute; discriminate.
Defined.

(** C4: the daemon's check of a live task does not do what the claim says
    and what [check_task_status] of the dashboard backend does on the same
    branch ([update_task_progress], with [min(progress, 99)]).  The task of
    the run is running, its session is alive, five minutes of its thirty
    have passed, and its log says "Progress: 40%".  After the step of the
    tick its progress is the 0 it was created with, where extraction and
    clamping give 40. *)
Theorem running_progress_not_extracted :
  let tk := Run.at_time "2024-01-01T12:05:00" in
  let w := Run.logged Run.log_working Run.w_running in
  status_of Run.tid Run.d_running = Some running
  /\ Dict.mem Run.session (sessions w) = true
  /\ option_map (fun t => timed_out Iso.iso_parse (config Run.d_running) t tk)
       (task_of Run.tid Run.d_running) = Some (Some false)
  /\ Dict.get Run.log_path (log_files w) = Some Run.log_working
  /\ progress_of Run.tid Run.d_running = Some 0
  /\ spec_progress_while_running Run.log_working 0 = 40
  /\ progress_of Run.tid
       (fst (fst (check_task_completion Iso.iso_parse Run.tid tk Run.d_running w)))
     <> Some (spec_progress_while_running Run.log_working 0).
Proof. vm_compute. repeat split; discriminate. Qed.

(** ** Terminal tasks under the monitor *)

Lemma finalize_frame :
  forall (task_id now : string) (d : Daemon) (w : World) (k : string),
    k <> task_id ->
    task_of k (fst (fst (finalize_task_from_logs task_id now d w))) = task_of k d.
Proof.
  intros task_id now d w k Hne. unfold finalize_task_from_logs, task_of.
  destruct (Dict.get task_id (tasks d)) as [task|] eqn:Hget; [|reflexivity].
  destruct (Dict.get (log_file task) (log_files w)) as [log_content|].
  - unfold extract_progress_from_logs. cbn [tasks set_tasks].
    rewrite DictFacts.get_set_eq.
    destruct (inferred_progress log_content) as [p|];
      repeat (progress (cbn [tasks set_tasks fst snd];
                        rewrite ?DictFacts.get_set_eq));
      now rewrite ?DictFacts.get_set_ne by assumption.
  - repeat (progress (cbn [tasks set_tasks fst snd];
                      rewrite ?DictFacts.get_set_eq)).
    now rewrite DictFacts.get_set_ne.
Qed.

Lemma kill_task_frame :
  forall (task_id reason now : string) (d : Daemon) (w : World) (k : string),
    k <> task_id ->
    task_of k (fst (fst (kill_task task_id reason now d w))) = task_of k d.
Proof.
  intros task_id reason now d w k Hne. unfold kill_task, task_of.
  destruct (Dict.get task_id (tasks d)) as [task|]; [|reflexivity].
  unfold subprocess_run. destruct (tmux _ w) as [w1 rc].
  cbn [andb fst snd tasks set_tasks]. now rewrite DictFacts.get_set_ne.
Qed.

Lemma check_task_completion_frame :
  forall (fromisoformat : string -> option Z) (task_id : string) (tk : Tick)
         (d : Daemon) (w : World) (k : string),
    k <> task_id ->
    task_of k (fst (fst (check_task_completion fromisoformat task_id tk d w)))
    = task_of k d.
Proof.
  intros fromisoformat task_id tk d w k Hne. unfold check_task_completion.
  destruct (Dict.get task_id (tasks d)) as [task|]; [|reflexivity].
  unfold subprocess_run. destruct (tmux _ w) as [w1 rc]. cbn [andb].
  destruct (negb (rc =? 0)).
  - pose proof (@finalize_frame task_id (now_iso tk) d w1 k Hne) as Hf.
    destruct (finalize_task_from_logs task_id (now_iso tk) d w1) as [[d2 w2] r].
    exact Hf.
  - destruct (timed_out fromisoformat (config d) task tk) as [[|]|];
      try reflexivity.
    pose proof (@kill_task_frame task_id "timeout" (now_iso tk) d w1 k Hne) as Hk.
    destruct (kill_task task_id "timeout" (now_iso tk) d w1) as [[d2 w2] r].
    exact Hk.
Qed.

(** the pass over the running tasks leaves every terminal task as it is *)
Lemma monitor_pass_keeps_terminal :
  forall (fromisoformat : string -> option Z) (items : list (string * Task))
         (tk : Tick) (d : Daemon) (w : World) (k : string) (t : Task),
    task_of k d = Some t ->
    terminal (status t) = true ->
    task_of k (fst (fst (monitor_pass fromisoformat items tk d w))) = Some t.
Proof.
  intros fromisoformat items tk.
  induction items as [|[task_id task] rest IH]; intros d w k t Hget Hterm.
  - exact Hget.
  - cbn [monitor_pass].
    destruct (status match Dict.get task_id (tasks d) with
                     | Some t0 => t0 | None => task end) eqn:Hst;
      try (now apply IH).
    assert (Hne : k <> task_id).
    { intros ->. unfold task_of in Hget. rewrite Hget in Hst.
      rewrite Hst in Hterm. discriminate. }
    pose proof (@check_task_completion_frame fromisoformat task_id tk d w k Hne) as Hf.
    destruct (check_task_completion fromisoformat task_id tk d w) as [[d' w'] [e|u]];
      cbn [fst snd] in *.
    + congruence.
    + apply IH; congruence.
Qed.

(** the sweep removes entries and changes none *)
Lemma cleanup_loop_only_deletes :
  forall (fromisoformat : string -> option Z) (cutoff_date : Z)
         (items : list (string * Task)) (d : Daemon) (w : World) (k : string),
    task_of k (fst (cleanup_loop fromisoformat cutoff_date items d w)) = task_of k d
    \/ task_of k (fst (cleanup_loop fromisoformat cutoff_date items d w)) = None.
Proof.
  intros fromisoformat cutoff_date items.
  induction items as [|[task_id task] rest IH]; intros d w k; cbn [cleanup_loop].
  - now left.
  - destruct (terminal (status task)); [|apply IH].
    destruct (truthy_str (completed_at task)) as [s|]; [|apply IH].
    destruct (fromisoformat s) as [c|]; [|now left].
    destruct (c <? cutoff_date); [|apply IH].
    cbn [remove_task].
    destruct (IH (set_tasks (Dict.del task_id (tasks d)) d)
                 (set_log_files (Dict.del (log_file task) (log_files w))
                    (set_task_files (Dict.del task_id (task_files w)) w)) k)
      as [H|H]; [|now right].
    rewrite H. unfold task_of. cbn [tasks set_tasks].
    destruct (String.eqb_spec k task_id) as [->|Hne].
    + right. apply DictFacts.get_del_eq.
    + left. now apply DictFacts.get_del_ne.
Qed.

(** a monitor tick leaves a terminal task as it is, or removes it *)
Lemma monitor_tick_terminal_final :
  forall (fromisoformat : string -> option Z) (tk : Tick) (d : Daemon) (w : World)
         (k : string) (t : Task),
    task_of k d = Some t ->
    terminal (status t) = true ->
    task_of k (fst (monitor_tick fromisoformat tk d w)) = Some t
    \/ task_of k (fst (monitor_tick fromisoformat tk d w)) = None.
Proof.
  intros fromisoformat tk d w k t Hget Hterm. unfold monitor_tick.
  pose proof (@monitor_pass_keeps_terminal fromisoformat (tasks d) tk d w k t Hget Hterm) as Hp.
  destruct (monitor_pass fromisoformat (tasks d) tk d w) as [[d' w'] [e|u]];
    cbn [fst snd] in *.
  - now left.
  - unfold cleanup_old_tasks.
    destruct (@cleanup_loop_only_deletes fromisoformat
                (cutoff (config d') (now_dt tk)) (tasks d') d' w' k) as [H|H].
    + left. congruence.
    + now right.
Qed.

(* ================================================================== *)
(** * The retention sweep *)

(** what the loop leaves of the task table, of [tasks/] and of the logs,
    when every [completed_at] it meets parses *)
Lemma cleanup_loop_result :
  forall (fromisoformat : string -> option Z) (cutoff_date : Z)
         (items : list (string * Task)) (d : Daemon) (w : World),
    stamps_parse fromisoformat items = true ->
    let '(d', w') := cleanup_loop fromisoformat cutoff_date items d w in
    (forall k, Dict.get k (tasks d') =
               if gone_key fromisoformat cutoff_date items k
               then None else Dict.get k (tasks d))
    /\ (forall k, Dict.get k (task_files w') =
                  if gone_key fromisoformat cutoff_date items k
                  then None else Dict.get k (task_files w))
    /\ (forall p, Dict.get p (log_files w') =
                  if gone_log fromisoformat cutoff_date items p
                  then None else Dict.get p (log_files w)).
Proof.
  intros fromisoformat cutoff_date.
  induction items as [|[task_id task] rest IH]; intros d w Hparse.
  - cbn. auto.
  - cbn [stamps_parse forallb] in Hparse. apply andb_true_iff in Hparse.
    destruct Hparse as [Hhd Hrest]. cbn [snd] in Hhd.
    unfold gone_key, gone_log in *. cbn [cleanup_loop existsb fst snd].
    assert (Hskip :
      expired fromisoformat cutoff_date task = false ->
      let '(d', w') := cleanup_loop fromisoformat cutoff_date rest d w in
      (forall k, Dict.get k (tasks d') =
         if (String.eqb task_id k && expired fromisoformat cutoff_date task)
            || existsb (fun kv => String.eqb (fst kv) k
                          && expired fromisoformat cutoff_date (snd kv)) rest
         then None else Dict.get k (tasks d))
      /\ (forall k, Dict.get k (task_files w') =
          if (String.eqb task_id k && expired fromisoformat cutoff_date task)
             || existsb (fun kv => String.eqb (fst kv) k
                           && expired fromisoformat cutoff_date (snd kv)) rest
          then None else Dict.get k (task_files w))
      /\ (forall p, Dict.get p (log_files w') =
          if (String.eqb (log_file task) p && expired fromisoformat cutoff_date task)
             || existsb (fun kv => String.eqb (log_file (snd kv)) p
                           && expired fromisoformat cutoff_date (snd kv)) rest
          then None else Dict.get p (log_files w))).
    { intros E. rewrite E. specialize (IH d w Hrest).
      destruct (cleanup_loop fromisoformat cutoff_date rest d w) as [d' w'].
      destruct IH as (Ht & Hf & Hl).
      repeat split; intros x; rewrite andb_false_r; cbn [orb]; auto. }
    destruct (terminal (status task)) eqn:Hterm;
      [|apply Hskip; unfold expired; now rewrite Hterm].
    destruct (truthy_str (completed_at task)) as [s|] eqn:Hs;
      [|apply Hskip; unfold expired; now rewrite Hterm, Hs].
    destruct (fromisoformat s) as [c|] eqn:Hc; [|discriminate].
    destruct (c <? cutoff_date) eqn:Hold;
      [|apply Hskip; unfold expired; now rewrite Hterm, Hs, Hc, Hold].
    clear Hskip.
    assert (E : expired fromisoformat cutoff_date task = true)
      by (unfold expired; now rewrite Hterm, Hs, Hc, Hold).
    rewrite E. cbn [remove_task].
    specialize (IH (set_tasks (Dict.del task_id (tasks d)) d)
                   (set_log_files (Dict.del (log_file task) (log_files w))
                      (set_task_files (Dict.del task_id (task_files w)) w))
                   Hrest).
    destruct (cleanup_loop fromisoformat cutoff_date rest _ _) as [d' w'].
    destruct IH as (Ht & Hf & Hl).
    cbn [tasks set_tasks task_files log_files set_task_files set_log_files] in *.
    repeat split; intros x; rewrite ?Ht, ?Hf, ?Hl; rewrite andb_true_r;
      match goal with
      | |- context [existsb ?f rest] => destruct (existsb f rest)
      end;
      rewrite ?orb_true_r, ?orb_false_r; try reflexivity;
      match goal with
      | |- context [String.eqb ?a x] =>
          destruct (String.eqb_spec a x) as [->|Hne];
          [apply DictFacts.get_del_eq | apply DictFacts.get_del_ne; congruence]
      end.
Qed.

Lemma distinct_logs_inj :
  forall (ts : Dict.t Task) (k1 k2 : string) (t1 t2 : Task),
    distinct_logs ts = true ->
    In (k1, t1) ts -> In (k2, t2) ts ->
    log_file t1 = log_file t2 -> (k1, t1) = (k2, t2).
Proof.
  induction ts as [|[k0 t0] ts IH]; intros k1 k2 t1 t2 Hd H1 H2 Heq; [easy|].
  cbn [distinct_logs] in Hd. apply andb_true_iff in Hd. destruct Hd as [Hhd Htl].
  apply negb_true_iff in Hhd.
  assert (Hfresh : forall k t, In (k, t) ts -> log_file t <> log_file t0).
  { intros k t Hin Hlog.
    assert (existsb (fun kv => String.eqb (log_file (snd kv)) (log_file t0)) ts = true).
    { apply existsb_exists. exists (k, t). split; [assumption|].
      cbn [snd]. now apply String.eqb_eq. }
    congruence. }
  destruct H1 as [H1|H1], H2 as [H2|H2].
  - congruence.
  - inversion H1; subst. exfalso. apply (Hfresh _ _ H2). congruence.
  - inversion H2; subst. exfalso. apply (Hfresh _ _ H1). congruence.
  - now apply IH.
Qed.


(** the sweep of [Run]: the task completed eight days ago is removed with
    its files, the task completed exactly [log_retention_days] ago stays *)
Example sweep_at_the_cutoff :
  let '(d', w') :=
    cleanup_old_tasks Iso.iso_parse Run.sweep_time Run.d_finished Run.w_finished in
  cutoff (config Run.d_finished) Run.sweep_time = now_dt (Run.at_time "2024-01-03T12:00:00")
  /\ Dict.keys (tasks d') = ["task-edge"]
  /\ Dict.keys (task_files w') = ["task-edge"]
  /\ Dict.keys (log_files w') = [log_file Run.edge_task].
Proof. vm_compute. repeat split. Qed.

(* ================================================================== *)
(** * Facts about strings and matching *)

Lemma append_nil_r (s : string) : s ++ "" = s.
Proof. induction s; simpl; congruence. Qed.

Lemma append_assoc (a b c : string) : (a ++ b) ++ c = a ++ (b ++ c).
Proof. induction a; simpl; congruence. Qed.

Lemma prefix_app (p s : string) : String.prefix p (p ++ s) = true.
Proof.
  induction p as [|c p IH]; simpl.
  - now destruct s.
  - destruct (ascii_dec c c); [assumption | congruence].
Qed.

Lemma contains_app (sub pre rest : string) :
  Str.contains sub (pre ++ sub ++ rest) = true.
Proof.
  induction pre as [|c pre IH].
  - pose proof (prefix_app sub rest) as H. cbn [append].
    destruct (sub ++ rest); cbn [Str.contains]; now rewrite H.
  - cbn [append Str.contains]. rewrite IH. apply orb_true_r.
Qed.

Lemma re_match_lit_app (r : Re.regex) (p s : string) :
  Re.re_match (Re.lit p ++ r)%list (p ++ s) = Re.re_match r s.
Proof.
  induction p as [|c p IH]; [reflexivity|].
  cbn. rewrite Ascii.eqb_refl. cbn in IH. rewrite IH.
  now destruct (Re.re_match r s) as [[gs rest]|].
Qed.

Lemma re_match_lit_no_prefix (r : Re.regex) (p s : string) :
  String.prefix p s = false -> Re.re_match (Re.lit p ++ r)%list s = None.
Proof.
  revert s. induction p as [|c p IH]; intros s H.
  - destruct s; discriminate.
  - destruct s as [|c' s]; [reflexivity|].
    simpl in H. cbn.
    destruct (ascii_dec c c') as [->|Hne].
    + rewrite Ascii.eqb_refl. cbn in IH. now rewrite (IH s H).
    + apply Ascii.eqb_neq in Hne. now rewrite Hne.
Qed.

(** a greedy run takes the whole of a stretch of its class that ends at a
    character outside it, when the rest of the pattern matches there *)
Lemma greedy_full_run :
  forall (R : Type) (cls : ascii -> bool) (k : string -> string -> option R)
         (ts acc : string) (c : ascii) (rest : string) (x : R),
    Str.all cls ts = true ->
    cls c = false ->
    k (acc ++ ts) (String c rest) = Some x ->
    Re.greedy cls k acc (ts ++ String c rest) = Some x.
Proof.
  intros R cls k ts. induction ts as [|t ts IH]; intros acc c rest x Hall Hc Hk.
  - rewrite append_nil_r in Hk. simpl. now rewrite Hc.
  - simpl in Hall. apply andb_true_iff in Hall. destruct Hall as [Ht Hall].
    simpl. rewrite Ht.
    rewrite (IH (acc ++ String t "") c rest x Hall Hc); [reflexivity|].
    now rewrite append_assoc.
Qed.

(** the pattern of the success sentinel, at a sentinel *)
Lemma re_completed_at_marker (task_id stamp post : string) :
  stamp <> "" ->
  Str.all (fun c => negb (Ascii.eqb c "]")) stamp = true ->
  Re.re_match (re_completed task_id)
    (completed_prefix task_id ++ stamp ++ String "]" post)
  = Some ([stamp], post).
Proof.
  intros Hne Hall. unfold re_completed. rewrite re_match_lit_app.
  destruct stamp as [|c stamp]; [congruence|].
  simpl in Hall. apply andb_true_iff in Hall. destruct Hall as [Hc Hall].
  cbn [app Re.re_match Re.a_quant Re.a_class Re.a_group append].
  rewrite Hc.
  apply greedy_full_run; [assumption | reflexivity |].
  reflexivity.
Qed.

(** the leftmost match is the first place the literal head of the pattern
    occurs at, when the pattern matches there *)
Lemma search_first_occurrence (r : Re.regex) (p pre tail : string) gs rest :
  occurs_before p pre tail = false ->
  Re.re_match (Re.lit p ++ r)%list tail = Some (gs, rest) ->
  Re.search (Re.lit p ++ r)%list (pre ++ tail) = Some gs.
Proof.
  intros Hocc Hm. induction pre as [|c pre IH].
  - simpl. destruct tail; simpl; now rewrite Hm.
  - cbn [occurs_before] in Hocc. apply orb_false_iff in Hocc.
    destruct Hocc as [Hp Hocc].
    cbn [append Re.search] in *.
    rewrite (re_match_lit_no_prefix r p _ Hp). now apply IH.
Qed.

(* ================================================================== *)
(** * Finalization and the stamp of the sentinel *)

Lemma finalize_with_log :
  forall (task_id now : string) (d : Daemon) (w : World) (task : Task) (log_content : string),
    task_of task_id d = Some task ->
    Dict.get (log_file task) (log_files w) = Some log_content ->
    task_of task_id (fst (fst (finalize_task_from_logs task_id now d w)))
    = Some match inferred_progress log_content with
           | Some p => set_progress p (classify_log task_id log_content now task)
           | None => classify_log task_id log_content now task
           end.
Proof.
  intros task_id now d w task log_content Hget Hlog.
  unfold finalize_task_from_logs, task_of in *. rewrite Hget, Hlog.
  unfold extract_progress_from_logs.
  cbn [tasks set_tasks]. rewrite DictFacts.get_set_eq.
  destruct (inferred_progress log_content) as [p|];
    repeat (progress (cbn [tasks set_tasks fst snd]; rewrite ?DictFacts.get_set_eq));
    reflexivity.
Qed.

Lemma marker_in_log (task_id : string) (ck : ExecClock) (pre post : string) :
  pre ++ completed_marker task_id ck ++ post
  = pre ++ completed_prefix task_id ++ now_completed ck ++ String "]" post.
Proof.
  unfold completed_marker. now rewrite !append_assoc.
Qed.

(** When the log of a task holds the sentinel built around the reading
    [now_completed] of a dispatch, with no earlier start of a sentinel of
    the task before it, finalization, at whatever time [now] it runs,
    completes the task with [completed_at] equal to that reading. *)
Lemma finalize_reads_marker :
  forall (task_id now : string) (ck : ExecClock) (d : Daemon) (w : World)
         (task : Task) (pre post : string),
    plain_id task_id = true ->
    task_of task_id d = Some task ->
    now_completed ck <> "" ->
    Str.all (fun c => negb (Ascii.eqb c "]")) (now_completed ck) = true ->
    Dict.get (log_file task) (log_files w)
      = Some (pre ++ completed_marker task_id ck ++ post) ->
    occurs_before (completed_prefix task_id) pre (completed_marker task_id ck ++ post) = false ->
    exists task',
      task_of task_id (fst (fst (finalize_task_from_logs task_id now d w))) = Some task'
      /\ status task' = completed
      /\ completed_at task' = Some (now_completed ck).
Proof.
  intros task_id now ck d w task pre post _ Hget Hne Hall Hlog Hocc.
  rewrite (finalize_with_log task_id now d w Hget Hlog).
  assert (Hc : classify_log task_id (pre ++ completed_marker task_id ck ++ post) now task
               = set_completed_at (Some (now_completed ck))
                   (set_progress 100 (set_status completed task))).
  { unfold classify_log.
    assert (Hs : Re.search (re_completed task_id)
                   (pre ++ completed_marker task_id ck ++ post)
                 = Some [now_completed ck]).
    { unfold re_completed.
      apply search_first_occurrence with (rest := post); [assumption|].
      replace (completed_marker task_id ck ++ post)
        with (completed_prefix task_id ++ now_completed ck ++ String "]" post)
        by (unfold completed_marker; now rewrite !append_assoc).
      now apply re_completed_at_marker. }
    rewrite Hs. rewrite marker_in_log, contains_app. reflexivity. }
  rewrite Hc.
  destruct (inferred_progress _); eexists; (split; [reflexivity|]); split; reflexivity.
Qed.

(* ================================================================== *)
(** * What a dispatch sends to the session *)

Unset Implicit Arguments.

Lemma bind_inr {A B} (m : M A) (k : A -> M B) (w w' : World) (a : A) :
  m w = (w', inr a) -> bind m k w = k a w'.
Proof. intros H. unfold bind. now rewrite H. Qed.

Lemma send_keys_appends (s line : string) (w : World) (ss : Session) :
  Dict.get s (sessions w) = Some ss ->
  send_keys s line w
  = (set_sessions
       (Dict.set s (mkSession (cwd ss) (sent ss ++ [line])) (sessions w)) w,
     inr tt).
Proof.
  intros H. unfold send_keys, bind, subprocess_run. cbn. now rewrite H.
Qed.

Lemma for_each_send_keys (s : string) (lines : list string) :
  forall (w : World) (ss : Session),
    Dict.get s (sessions w) = Some ss ->
    exists w',
      for_each lines (send_keys s) w = (w', inr tt)
      /\ Dict.get s (sessions w') = Some (mkSession (cwd ss) (sent ss ++ lines)).
Proof.
  induction lines as [|x lines IH]; intros w ss H.
  - exists w. split; [reflexivity|]. rewrite app_nil_r. now destruct ss.
  - cbn [for_each].
    rewrite (bind_inr _ _ _ _ _ (send_keys_appends s x w ss H)).
    destruct (IH (set_sessions
                    (Dict.set s (mkSession (cwd ss) (sent ss ++ [x])) (sessions w)) w)
                 (mkSession (cwd ss) (sent ss ++ [x])))
      as (w' & Hrun & Hget).
    { cbn [sessions set_sessions]. apply DictFacts.get_set_eq. }
    exists w'. split; [assumption|].
    rewrite Hget. cbn [cwd sent]. now rewrite <- app_assoc.
Qed.

(** the command line depends on the task and the configuration alone, and
    building it leaves the sessions alone *)
Lemma build_task_command_ok (d : Daemon) (task : Task) (tl : string) (tc : ToolConfig.t) :
  tool task = Some tl ->
  Dict.get tl (ai_tools (config d)) = Some tc ->
  exists cmd,
    forall w, exists w',
      build_task_command d task w = (w', inr cmd) /\ sessions w' = sessions w.
Proof.
  intros Ht Hc. unfold build_task_command, lookup_tool, bind, ret.
  rewrite Ht, Hc.
  destruct (parameters task) as [|kv ps];
    [| destruct (str_in (Some tl) ["crush"]);
       [| destruct (str_in (Some tl) ["blackbox"; "qwen"; "gemini"])]];
    (destruct (match truthy_int (timeout task) with
               | Some n => Some n
               | None => truthy_int (ToolConfig.timeout tc)
               end);
     eexists; intros w; eexists; split; reflexivity).
Qed.

(** after [kill-session] the name is free *)
Lemma kill_session_frees (s : string) (w : World) :
  exists w' rc,
    subprocess_run ["tmux"; "kill-session"; "-t"; s] false w = (w', inr rc)
    /\ Dict.mem s (sessions w') = false.
Proof.
  unfold subprocess_run. cbn.
  destruct (Dict.mem s (sessions w)) eqn:E; cbn; do 2 eexists; split;
    try reflexivity; cbn [sessions set_sessions];
    [apply DictFacts.mem_del | assumption].
Qed.

Lemma new_session_creates (s dir : string) (w : World) :
  Dict.mem s (sessions w) = false ->
  subprocess_run ["tmux"; "new-session"; "-d"; "-s"; s; "-c"; dir] true w
  = (set_sessions (Dict.set s (mkSession dir []) (sessions w)) w, inr 0).
Proof.
  intros H. unfold subprocess_run. cbn. now rewrite H.
Qed.

Lemma start_session_sends :
  forall (d : Daemon) (task_id : string) (task : Task) (ck : ExecClock)
         (tl : string) (tc : ToolConfig.t),
    tool task = Some tl ->
    Dict.get tl (ai_tools (config d)) = Some tc ->
    exists cmd,
      (forall w, exists w', build_task_command d task w = (w', inr cmd))
      /\ forall w, exists w',
           start_session d task_id task ck w = (w', inr tt)
           /\ sent_to (session_name task) w'
              = (log_setup_commands d task_id task ck
                 ++ ToolConfig.env_setup tc
                 ++ [cmd; marker_line cmd task_id ck])%list.
Proof.
  intros d task_id task ck tl tc Ht Hc.
  destruct (build_task_command_ok d task tl tc Ht Hc) as (cmd & Hcmd).
  exists cmd. split.
  { intros w. destruct (Hcmd w) as (w' & H & _). eauto. }
  intros w. unfold start_session, lookup_tool. rewrite Ht, Hc.
  unfold bind at 1. unfold ret at 1. unfold bind at 1.
  destruct (kill_session_frees (session_name task) w) as (w1 & rc & Hkill & Hfree).
  rewrite (bind_inr _ _ _ _ _ Hkill).
  rewrite (bind_inr _ _ _ _ _ (new_session_creates (session_name task) _ w1 Hfree)).
  match goal with
  | |- context [set_sessions (Dict.set _ ?ss0 _) w1] =>
      destruct (for_each_send_keys (session_name task)
                  (log_setup_commands d task_id task ck)
                  (set_sessions (Dict.set (session_name task) ss0 (sessions w1)) w1)
                  ss0 (DictFacts.get_set_eq _ _ _)) as (w2 & Hsetup & Hget2)
  end.
  rewrite (bind_inr _ _ _ _ _ Hsetup).
  destruct (for_each_send_keys (session_name task) (ToolConfig.env_setup tc) w2 _ Hget2)
    as (w3 & Henv & Hget3).
  rewrite (bind_inr _ _ _ _ _ Henv).
  destruct (Hcmd w3) as (w4 & Hbuild & Hsame).
  rewrite (bind_inr _ _ _ _ _ Hbuild).
  rewrite <- Hsame in Hget3.
  rewrite (bind_inr _ _ _ _ _ (send_keys_appends (session_name task) cmd w4 _ Hget3)).
  eexists. split.
  - apply send_keys_appends. cbn [sessions set_sessions]. apply DictFacts.get_set_eq.
  - unfold sent_to. cbn [sessions set_sessions]. rewrite DictFacts.get_set_eq.
    cbn [sent cwd app]. now rewrite <- !app_assoc.
Qed.

Lemma last_two {A : Type} (l : list A) (x y dflt : A) :
  last (l ++ [x; y]) dflt = y.
Proof.
  induction l as [|a l IH]; [reflexivity|].
  cbn [app]. destruct (l ++ [x; y])%list eqn:E.
  - destruct l; discriminate.
  - cbn [last]. cbn [last] in IH. exact IH.
Qed.

(** the marker line and the sentinel, letter by letter *)
Lemma marker_line_text (cmd task_id : string) (ck : ExecClock) :
  marker_line cmd task_id ck
  = cmd ++ " && echo '[TASK_COMPLETED:" ++ task_id ++ ":" ++ now_completed ck
        ++ "]' || echo '[TASK_FAILED:" ++ task_id ++ ":" ++ now_failed ck ++ "]'".
Proof.
  unfold marker_line, completion_cmd, completed_marker, completed_prefix, failed_prefix.
  rewrite !append_assoc. cbn [append]. rewrite ?append_assoc. reflexivity.
Qed.

Lemma completed_marker_text (task_id : string) (ck : ExecClock) (post : string) :
  completed_marker task_id ck ++ post
  = "[TASK_COMPLETED:" ++ task_id ++ ":" ++ now_completed ck ++ "]" ++ post.
Proof.
  unfold completed_marker, completed_prefix.
  rewrite !append_assoc. reflexivity.
Qed.

(** a dispatch of a task whose tool is configured succeeds, leaves the
    task [running], and the session holds the set-up lines, the
    environment lines, the invocation alone, and the invocation again
    joined to the markers *)
Lemma execute_task_sends :
  forall (task_id : string) (ck : ExecClock) (d : Daemon) (w : World)
         (task : Task) (tl : string) (tc : ToolConfig.t),
    task_of task_id d = Some task ->
    tool task = Some tl ->
    Dict.get tl (ai_tools (config d)) = Some tc ->
    exists cmd,
      let '(d', w', ok) := execute_task task_id ck d w in
      ok = true
      /\ status_of task_id d' = Some running
      /\ sent_to (session_name task) w'
         = (log_setup_commands d task_id task ck
            ++ ToolConfig.env_setup tc
            ++ [cmd; marker_line cmd task_id ck])%list.
Proof.
  intros task_id ck d w task tl tc Hget Ht Hc.
  unfold execute_task, task_of in *. rewrite Hget.
  set (task1 := set_started_at (Some (now_started ck)) (set_status running task)).
  set (d1 := set_tasks (Dict.set task_id task1 (tasks d)) d).
  destruct (start_session_sends d1 task_id task1 ck tl tc Ht Hc) as (cmd & _ & Hrun).
  exists cmd.
  destruct (Hrun (save_task task1 w)) as (w' & Hstart & Hsent).
  rewrite Hstart. split; [reflexivity|]. split.
  - unfold status_of, task_of, d1. cbn [tasks set_tasks].
    now rewrite DictFacts.get_set_eq.
  - exact Hsent.
Qed.

(* ================================================================== *)
(** * The stamp of the sentinel is the stamp of the dispatch *)



(** the run, end to end: the task is dispatched with the clock of [Run],
    the log holds what the marker line prints, and the monitor finalizes it
    three minutes later *)
Example completed_at_of_the_run :
  completed_at_of Run.tid Run.d_completed = Some "2024-01-01T12:00:02"
  /\ now_completed Run.clock = "2024-01-01T12:00:02"
  /\ status_of Run.tid Run.d_completed = Some completed.
Proof. vm_compute. repeat split; reflexivity. Qed.


(* ================================================================== *)
(** * Submission and dispatch, further *)

Lemma validate_task_true (cfg : Config) (task : Task) :
  validate_task cfg task = true ->
  exists tl tc, tool task = Some tl /\ Dict.get tl (ai_tools cfg) = Some tc.
Proof.
  unfold validate_task, Dict.mem.
  destruct (tool task) as [[|c s]|]; cbn [truthy_str]; try discriminate.
  destruct (truthy_str (command task)); try discriminate.
  destruct (Dict.get (String c s) (ai_tools cfg)) as [tc|] eqn:E; [|discriminate].
  intros _. exists (String c s), tc. split; [reflexivity | exact E].
Qed.

Lemma execute_task_keeps_queue (task_id : string) (ck : ExecClock) (d : Daemon) (w : World) :
  task_queue (fst (fst (execute_task task_id ck d w))) = task_queue d.
Proof.
  unfold execute_task. destruct (Dict.get task_id (tasks d)); [|reflexivity].
  destruct (start_session _ _ _ _ _) as [w' [e|u]]; reflexivity.
Qed.



Lemma execute_task_frame (task_id : string) (ck : ExecClock) (d : Daemon) (w : World)
  (k : string) :
  k <> task_id ->
  task_of k (fst (fst (execute_task task_id ck d w))) = task_of k d.
Proof.
  intros Hne. unfold execute_task, task_of.
  destruct (Dict.get task_id (tasks d)); [|reflexivity].
  destruct (start_session _ _ _ _ _) as [w' [e|u]]; cbn [fst snd tasks set_tasks];
    now rewrite !DictFacts.get_set_ne by assumption.
Qed.

(** X2: a dispatch, a kill request, a finalization or a monitor check of one
    task leaves the entry of every other task in the table as it is. *)
Theorem other_tasks_untouched :
  forall (fromisoformat : string -> option Z) (task_id reason now : string)
         (ck : ExecClock) (tk : Tick) (d : Daemon) (w : World) (k : string),
    k <> task_id ->
    task_of k (fst (fst (execute_task task_id ck d w))) = task_of k d
    /\ task_of k (fst (fst (kill_task task_id reason now d w))) = task_of k d
    /\ task_of k (fst (fst (finalize_task_from_logs task_id now d w))) = task_of k d
    /\ task_of k (fst (fst (check_task_completion fromisoformat task_id tk d w)))
       = task_of k d.
Proof.
  intros fromisoformat task_id reason now ck tk d w k Hne.
  repeat split.
  - now apply execute_task_frame.
  - now apply kill_task_frame.
  - now apply finalize_frame.
  - now apply check_task_completion_frame.
Qed.

Lemma other_tasks_untouched_witness :
  let d := Run.d_finished in
  let w := Run.w_finished in
  task_of "task-edge" (fst (fst (execute_task "task-old" Run.clock d w)))
    = task_of "task-edge" d
  /\ task_of "task-edge" (fst (fst (kill_task "task-old" "manual" "2024-01-10T12:00:00" d w)))
     = task_of "task-edge" d
  /\ task_of "task-edge"
       (fst (fst (finalize_task_from_logs "task-old" "2024-01-10T12:00:00" d w)))
     = task_of "task-edge" d
  /\ task_of "task-edge"
       (fst (fst (check_task_completion Iso.iso_parse "task-old"
                    (Run.at_time "2024-01-10T12:00:00") d w)))
     = task_of "task-edge" d.
Proof.
  apply (other_tasks_untouched Iso.iso_parse "task-old" "manual" "2024-01-10T12:00:00"
           Run.clock (Run.at_time "2024-01-10T12:00:00") Run.d_finished Run.w_finished
           "task-edge").
  vm_compute; discriminate.
Defined.

Lemma start_session_unknown_tool (d : Daemon) (task_id : string) (task : Task)
  (ck : ExecClock) (w : World) :
  known_tool (config d) (tool task) = false ->
  start_session d task_id task ck w = (w, inl (KeyError (tool task))).
Proof.
  unfold known_tool, Dict.mem, start_session, lookup_tool. intros H.
  destruct (tool task) as [tl|].
  - destruct (Dict.get tl (ai_tools (config d))); [discriminate | reflexivity].
  - reflexivity.
Qed.

(** X3: the dispatch of a task whose tool the configuration does not know
    fails before any tmux command: [execute_task] returns [False], the task
    is [failed] with the [KeyError] as its message, [started_at] and
    [completed_at] both set, the record on disk says the same, and the
    sessions are as they were. *)
Theorem execute_task_unknown_tool :
  forall (task_id : string) (ck : ExecClock) (d : Daemon) (w : World) (task : Task),
    task_of task_id d = Some task ->
    known_tool (config d) (tool task) = false ->
    let task' :=
      set_completed_at (Some (now_except ck))
        (set_error_message (Some (unknown_tool_message (tool task)))
           (set_status failed
              (set_started_at (Some (now_started ck)) (set_status running task)))) in
    let '(d', w', ok) := execute_task task_id ck d w in
    ok = false
    /\ task_of task_id d' = Some task'
    /\ Dict.get (id task) (task_files w') = Some (Some task')
    /\ sessions w' = sessions w.
Proof.
  intros task_id ck d w task Hget Hunknown. unfold execute_task, task_of in *.
  rewrite Hget.
  rewrite start_session_unknown_tool by exact Hunknown.
  cbn [tool set_started_at set_status failed_to_start].
  repeat split.
  - cbn [tasks set_tasks]. apply DictFacts.get_set_eq.
  - unfold save_task, save_task_steps. cbn [last id set_completed_at set_error_message
      set_status set_started_at json_dump open_w task_files set_task_files].
    apply DictFacts.get_set_eq.
Qed.

Lemma execute_task_unknown_tool_witness :
  let task' :=
    set_completed_at (Some (now_except Run.clock))
      (set_error_message (Some (unknown_tool_message (tool Run2.orphan)))
         (set_status failed
            (set_started_at (Some (now_started Run.clock))
               (set_status running Run2.orphan)))) in
  let '(d', w', ok) := execute_task "task-orphan" Run.clock Run2.d_orphan Run2.w_orphan in
  ok = false
  /\ task_of "task-orphan" d' = Some task'
  /\ Dict.get (id Run2.orphan) (task_files w') = Some (Some task')
  /\ sessions w' = sessions Run2.w_orphan.
Proof.
  apply (execute_task_unknown_tool "task-orphan" Run.clock Run2.d_orphan Run2.w_orphan
           Run2.orphan); vm_compute; reflexivity.
Defined.

(* ================================================================== *)
(** * What a dispatch leaves alone *)

Lemma same_disk_refl (w : World) : same_disk w w.
Proof. now unfold same_disk. Qed.

Lemma same_disk_trans (w1 w2 w3 : World) :
  same_disk w1 w2 -> same_disk w2 w3 -> same_disk w1 w3.
Proof. unfold same_disk. intros (A & B & C) (D & E & F). repeat split; congruence. Qed.

Lemma same_disk_sessions (v : Dict.t Session) (w : World) :
  same_disk w (set_sessions v w).
Proof. now unfold same_disk. Qed.

Lemma keeps_disk_ret {A : Type} (a : A) : keeps_disk (ret a).
Proof. intros w. apply same_disk_refl. Qed.

Lemma keeps_disk_raise {A : Type} (e : exn) : keeps_disk (@raise A e).
Proof. intros w. apply same_disk_refl. Qed.

Lemma keeps_disk_bind {A B : Type} (m : M A) (k : A -> M B) :
  keeps_disk m -> (forall a, keeps_disk (k a)) -> keeps_disk (bind m k).
Proof.
  intros Hm Hk w. unfold bind. specialize (Hm w).
  destruct (m w) as [w1 [e|a]]; cbn [fst] in *; [assumption|].
  eapply same_disk_trans; [exact Hm | apply Hk].
Qed.

Lemma keeps_disk_tmux (args : list string) (w : World) :
  same_disk w (fst (tmux args w)).
Proof.
  unfold tmux.
  repeat match goal with
         | |- context [match ?x with _ => _ end] => destruct x
         end;
    cbn [fst]; solve [apply same_disk_refl | apply same_disk_sessions].
Qed.

Lemma keeps_disk_subprocess_run (cmd : list string) (check : bool) :
  keeps_disk (subprocess_run cmd check).
Proof.
  intros w. unfold subprocess_run.
  destruct cmd as [|prog args]; [apply same_disk_refl|].
  destruct (String.eqb_spec prog "tmux") as [->|Hne].
  - pose proof (keeps_disk_tmux args w) as H.
    destruct (tmux args w) as [w' rc]. cbn [fst] in H.
    now destruct (check && negb (rc =? 0)).
  - assert (E : (match prog with
                 | "tmux" =>
                     let '(w', rc) := tmux args w in
                     if check && negb (rc =? 0)
                     then (w', inl (CalledProcessError (prog :: args) rc))
                     else (w', inr rc)
                 | _ => (w, inl (ValueError "unknown program"))
                 end) = (w, inl (ValueError "unknown program"))).
    { clear -Hne.
      repeat match goal with
             | |- context [match ?x with _ => _ end] =>
                 is_var x; destruct x; try reflexivity
             end.
      congruence. }
    rewrite E. apply same_disk_refl.
Qed.

Lemma keeps_disk_send_keys (session line : string) : keeps_disk (send_keys session line).
Proof.
  unfold send_keys. apply keeps_disk_bind.
  - apply keeps_disk_subprocess_run.
  - intros _. apply keeps_disk_ret.
Qed.

Lemma keeps_disk_for_each {A : Type} (xs : list A) (body : A -> M unit) :
  (forall x, keeps_disk (body x)) -> keeps_disk (for_each xs body).
Proof.
  intros Hbody. induction xs as [|x xs IH]; cbn [for_each].
  - apply keeps_disk_ret.
  - apply keeps_disk_bind; [apply Hbody | intros _; exact IH].
Qed.

Lemma keeps_disk_build_task_command (d : Daemon) (task : Task) :
  keeps_disk (build_task_command d task).
Proof.
  unfold build_task_command. apply keeps_disk_bind.
  - unfold lookup_tool. destruct (tool task) as [tl|]; [|apply keeps_disk_raise].
    destruct (Dict.get tl (ai_tools (config d))); [apply keeps_disk_ret | apply keeps_disk_raise].
  - intros tc. apply keeps_disk_bind.
    + destruct (parameters task) as [|kv ps]; [apply keeps_disk_ret|].
      destruct (str_in (tool task) ["crush"]); [apply keeps_disk_ret|].
      destruct (str_in (tool task) ["blackbox"; "qwen"; "gemini"]);
        [|apply keeps_disk_ret].
      intros w. cbn [fst]. now unfold same_disk.
    + intros param_str.
      destruct (match truthy_int (timeout task) with
                | Some n => Some n
                | None => truthy_int (ToolConfig.timeout tc)
                end); apply keeps_disk_ret.
Qed.

Lemma keeps_disk_start_session (d : Daemon) (task_id : string) (task : Task)
  (ck : ExecClock) :
  keeps_disk (start_session d task_id task ck).
Proof.
  unfold start_session. apply keeps_disk_bind.
  - unfold lookup_tool. destruct (tool task) as [tl|]; [|apply keeps_disk_raise].
    destruct (Dict.get tl (ai_tools (config d))); [apply keeps_disk_ret | apply keeps_disk_raise].
  - intros tc. apply keeps_disk_bind.
    + intros w. apply same_disk_refl.
    + intros work_dir.
      apply keeps_disk_bind; [apply keeps_disk_subprocess_run | intros _].
      apply keeps_disk_bind; [apply keeps_disk_subprocess_run | intros _].
      apply keeps_disk_bind;
        [apply keeps_disk_for_each; intros x; apply keeps_disk_send_keys | intros _].
      apply keeps_disk_bind;
        [apply keeps_disk_for_each; intros x; apply keeps_disk_send_keys | intros _].
      apply keeps_disk_bind; [apply keeps_disk_build_task_command | intros cmd].
      apply keeps_disk_bind; [apply keeps_disk_send_keys | intros _].
      apply keeps_disk_send_keys.
Qed.



(** X5: [build_task_command] gives parameters a place on the command line for
    the four tools it names only: for a task of any other tool the command
    line, and the world, are those of the same task without parameters. *)
Theorem build_task_command_drops_parameters :
  forall (d : Daemon) (task : Task) (w : World),
    str_in (tool task) ["crush"; "blackbox"; "qwen"; "gemini"] = false ->
    build_task_command d task w = build_task_command d (set_parameters [] task) w.
Proof.
  intros d task w H. unfold build_task_command.
  cbn [tool command parameters timeout id set_parameters].
  assert (H1 : str_in (tool task) ["crush"] = false
               /\ str_in (tool task) ["blackbox"; "qwen"; "gemini"] = false).
  { unfold str_in in *. destruct (tool task) as [tl|]; [|auto].
    cbn [existsb] in *. apply orb_false_iff in H. destruct H as [H1 H2].
    rewrite H1, H2. auto. }
  destruct H1 as [H1 H2]. rewrite H1, H2.
  now destruct (parameters task).
Qed.

Lemma build_task_command_drops_parameters_witness :
  build_task_command Run2.d_custom Run2.orphan Run2.w_orphan
  = build_task_command Run2.d_custom (set_parameters [] Run2.orphan) Run2.w_orphan.
Proof.
  apply (build_task_command_drops_parameters Run2.d_custom Run2.orphan Run2.w_orphan).
  vm_compute; reflexivity.
Defined.

Lemma kill_task_known :
  forall (task_id reason now : string) (d : Daemon) (w : World) (task : Task),
    task_of task_id d = Some task ->
    let '(d', w', ok) := kill_task task_id reason now d w in
    ok = true
    /\ task_of task_id d' = Some (killed_record reason now task)
    /\ Dict.get (id task) (task_files w') = Some (Some (killed_record reason now task))
    /\ Dict.mem (session_name task) (sessions w') = false
    /\ log_files w' = log_files w.
Proof.
  intros task_id reason now d w task H. unfold kill_task, task_of in *. rewrite H.
  destruct (kill_session_frees (session_name task) w) as (w1 & rc & Hkill & Hfree).
  pose proof (keeps_disk_subprocess_run
                ["tmux"; "kill-session"; "-t"; session_name task] false w) as Hdisk.
  rewrite Hkill in *. cbn [fst] in Hdisk. destruct Hdisk as (Hfiles & Hlogs & _).
  fold (killed_record reason now task).
  split; [reflexivity|]. split; [|split; [|split]].
  - cbn [tasks set_tasks]. apply DictFacts.get_set_eq.
  - unfold save_task, save_task_steps.
    cbn [last json_dump open_w task_files set_task_files].
    change (id (killed_record reason now task)) with (id task).
    apply DictFacts.get_set_eq.
  - exact Hfree.
  - rewrite <- Hlogs. reflexivity.
Qed.

(** X6: a kill request for an unknown identifier returns [False] and
    changes nothing; for a known task, whatever its status, it returns
    [True], the session of the task is gone, the task is [failed] with the
    reason in its message and [completed_at] set to the time of the
    request, its record on disk says the same, and no log file is
    touched. *)
Theorem kill_task_effect :
  forall (task_id reason now : string) (d : Daemon) (w : World),
    (task_of task_id d = None -> kill_task task_id reason now d w = (d, w, false))
    /\ (forall task, task_of task_id d = Some task ->
          let '(d', w', ok) := kill_task task_id reason now d w in
          ok = true
          /\ task_of task_id d' = Some (killed_record reason now task)
          /\ Dict.get (id task) (task_files w') = Some (Some (killed_record reason now task))
          /\ Dict.mem (session_name task) (sessions w') = false
          /\ log_files w' = log_files w).
Proof.
  intros task_id reason now d w. split.
  - unfold kill_task, task_of. intros H. now rewrite H.
  - intros task H. exact (kill_task_known task_id reason now d w task H).
Qed.

(* ================================================================== *)
(** * Finalization, further *)

Lemma finalize_result :
  forall (task_id now : string) (d : Daemon) (w : World) (task : Task),
    task_of task_id d = Some task ->
    finalize_task_from_logs task_id now d w
    = (set_tasks (Dict.set task_id (finalized_record task_id now w task)
                    match Dict.get (log_file task) (log_files w) with
                    | Some log_content =>
                        match inferred_progress log_content with
                        | Some _ =>
                            Dict.set task_id (classify_log task_id log_content now task)
                              (tasks d)
                        | None => tasks d
                        end
                    | None => tasks d
                    end) d,
       save_task (finalized_record task_id now w task) w, inr tt).
Proof.
  intros task_id now d w task Hget.
  unfold finalize_task_from_logs, finalized_record, no_log_record, task_of in *.
  rewrite Hget.
  destruct (Dict.get (log_file task) (log_files w)) as [log_content|].
  - unfold extract_progress_from_logs. cbn [tasks set_tasks].
    rewrite DictFacts.get_set_eq.
    destruct (inferred_progress log_content) as [p|];
      repeat (progress (cbn [tasks set_tasks fst snd]; rewrite ?DictFacts.get_set_eq));
      reflexivity.
  - repeat (progress (cbn [tasks set_tasks fst snd]; rewrite ?DictFacts.get_set_eq)).
    reflexivity.
Qed.

Lemma classify_log_terminal (task_id log_content now : string) (task : Task) :
  terminal (status (classify_log task_id log_content now task)) = true
  /\ completed_at (classify_log task_id log_content now task) <> None
  /\ id (classify_log task_id log_content now task) = id task.
Proof.
  unfold classify_log.
  destruct (Str.contains (completed_prefix task_id) log_content).
  - destruct (Re.search (re_completed task_id) log_content);
      repeat split; discriminate.
  - destruct (Str.contains (failed_prefix task_id) log_content).
    + destruct (last_opt (filter is_error_line (Str.split_lines log_content)));
        repeat split; discriminate.
    + repeat split; discriminate.
Qed.

Lemma finalized_record_terminal (task_id now : string) (w : World) (task : Task) :
  terminal (status (finalized_record task_id now w task)) = true
  /\ completed_at (finalized_record task_id now w task) <> None
  /\ id (finalized_record task_id now w task) = id task.
Proof.
  unfold finalized_record.
  destruct (Dict.get (log_file task) (log_files w)) as [log_content|].
  - destruct (classify_log_terminal task_id log_content now task) as (A & B & C).
    destruct (inferred_progress log_content); repeat split; assumption.
  - repeat split; discriminate.
Qed.

(** X7: finalization of a known task never raises and always ends in a
    terminal state: the task is [completed] or [failed], its
    [completed_at] is set, the record on disk is the record in the table,
    and neither a log file nor a session is touched. *)
Theorem finalize_leaves_terminal :
  forall (task_id now : string) (d : Daemon) (w : World) (task : Task),
    task_of task_id d = Some task ->
    let '(d', w', r) := finalize_task_from_logs task_id now d w in
    r = inr tt
    /\ exists task',
         task_of task_id d' = Some task'
         /\ terminal (status task') = true
         /\ completed_at task' <> None
         /\ Dict.get (id task) (task_files w') = Some (Some task')
         /\ log_files w' = log_files w
         /\ sessions w' = sessions w.
Proof.
  intros task_id now d w task Hget.
  rewrite (finalize_result task_id now d w task Hget).
  destruct (finalized_record_terminal task_id now w task) as (A & B & C).
  split; [reflexivity|].
  exists (finalized_record task_id now w task). repeat split; try assumption.
  - unfold task_of. cbn [tasks set_tasks]. apply DictFacts.get_set_eq.
  - unfold save_task, save_task_steps.
    cbn [last json_dump open_w task_files set_task_files]. rewrite C.
    apply DictFacts.get_set_eq.
Qed.

Lemma finalize_leaves_terminal_witness :
  let '(d', w', r) :=
    finalize_task_from_logs Run.tid "2024-01-01T12:05:00" Run.d_running
      (Run.ended Run2.log_failed Run.w_running) in
  r = inr tt
  /\ exists task',
       task_of Run.tid d' = Some task'
       /\ terminal (status task') = true
       /\ completed_at task' <> None
       /\ Dict.get (id (started_record Run.clock (new_task Run.daemon0 Run.request Run.fresh)))
            (task_files w') = Some (Some task')
       /\ log_files w' = log_files (Run.ended Run2.log_failed Run.w_running)
       /\ sessions w' = sessions (Run.ended Run2.log_failed Run.w_running).
Proof.
  apply (finalize_leaves_terminal Run.tid "2024-01-01T12:05:00" Run.d_running
           (Run.ended Run2.log_failed Run.w_running)
           (started_record Run.clock (new_task Run.daemon0 Run.request Run.fresh))).
  vm_compute; reflexivity.
Defined.



(* ================================================================== *)
(** * The monitor, further *)

(** X9: when the monitor finds the session of a known task gone, its check is
    the finalization of the task at the time of the tick: the check does
    not raise and the task is terminal afterwards, whatever the log
    holds. *)
Theorem check_task_completion_session_gone :
  forall (fromisoformat : string -> option Z) (task_id : string) (tk : Tick)
         (d : Daemon) (w : World) (task : Task),
    task_of task_id d = Some task ->
    Dict.mem (session_name task) (sessions w) = false ->
    check_task_completion fromisoformat task_id tk d w
    = (fst (finalize_task_from_logs task_id (now_iso tk) d w), inr tt)
    /\ exists task',
         task_of task_id (fst (fst (check_task_completion fromisoformat task_id tk d w)))
         = Some task'
         /\ terminal (status task') = true.
Proof.
  intros fromisoformat task_id tk d w task Hget Hgone.
  assert (E : check_task_completion fromisoformat task_id tk d w
              = (fst (finalize_task_from_logs task_id (now_iso tk) d w), inr tt)).
  { unfold check_task_completion, task_of in *. rewrite Hget.
    unfold subprocess_run, tmux. rewrite Hgone. cbn [andb negb Z.eqb].
    now destruct (finalize_task_from_logs task_id (now_iso tk) d w) as [[d2 w2] r]. }
  split; [exact E|]. rewrite E.
  rewrite (finalize_result task_id (now_iso tk) d w task Hget). cbn [fst snd].
  exists (finalized_record task_id (now_iso tk) w task). split.
  - unfold task_of. cbn [tasks set_tasks]. apply DictFacts.get_set_eq.
  - apply finalized_record_terminal.
Qed.

Lemma check_task_completion_session_gone_witness :
  let tk := Run.at_time "2024-01-01T12:05:00" in
  let w := Run.ended Run2.log_silent Run.w_running in
  check_task_completion Iso.iso_parse Run.tid tk Run.d_running w
  = (fst (finalize_task_from_logs Run.tid (now_iso tk) Run.d_running w), inr tt)
  /\ exists task',
       task_of Run.tid (fst (fst (check_task_completion Iso.iso_parse Run.tid tk Run.d_running w)))
       = Some task'
       /\ terminal (status task') = true.
Proof.
  apply (check_task_completion_session_gone Iso.iso_parse Run.tid
           (Run.at_time "2024-01-01T12:05:00") Run.d_running
           (Run.ended Run2.log_silent Run.w_running)
           (started_record Run.clock (new_task Run.daemon0 Run.request Run.fresh)));
    vm_compute; reflexivity.
Defined.

(** X10: a known task whose session is alive and whose deadline has passed
    (more than the effective timeout since [started_at]) is killed by the
    check of the monitor: its session is gone afterwards and the task is
    [failed] with the message "Task killed: timeout" and [completed_at] at
    the time of the tick. *)
Theorem check_task_completion_timeout :
  forall (fromisoformat : string -> option Z) (task_id : string) (tk : Tick)
         (d : Daemon) (w : World) (task : Task),
    task_of task_id d = Some task ->
    Dict.mem (session_name task) (sessions w) = true ->
    timed_out fromisoformat (config d) task tk = Some true ->
    let '(d', w', r) := check_task_completion fromisoformat task_id tk d w in
    r = inr tt
    /\ task_of task_id d' = Some (killed_record "timeout" (now_iso tk) task)
    /\ Dict.mem (session_name task) (sessions w') = false.
Proof.
  intros fromisoformat task_id tk d w task Hget Halive Hout.
  pose proof (kill_task_known task_id "timeout" (now_iso tk) d w task Hget) as Hkill.
  unfold check_task_completion, task_of in *. rewrite Hget.
  unfold subprocess_run, tmux. rewrite Halive. cbn [andb negb Z.eqb]. rewrite Hout.
  destruct (kill_task task_id "timeout" (now_iso tk) d w) as [[d2 w2] ok].
  destruct Hkill as (_ & A & _ & B & _). auto.
Qed.

Lemma check_task_completion_timeout_witness :
  let tk := Run.at_time "2024-01-01T13:00:00" in
  let task := started_record Run.clock (new_task Run.daemon0 Run.request Run.fresh) in
  let '(d', w', r) :=
    check_task_completion Iso.iso_parse Run.tid tk Run.d_running
      (Run.logged Run.log_working Run.w_running) in
  r = inr tt
  /\ task_of Run.tid d' = Some (killed_record "timeout" (now_iso tk) task)
  /\ Dict.mem (session_name task) (sessions w') = false.
Proof.
  apply (check_task_completion_timeout Iso.iso_parse Run.tid
           (Run.at_time "2024-01-01T13:00:00") Run.d_running
           (Run.logged Run.log_working Run.w_running)
           (started_record Run.clock (new_task Run.daemon0 Run.request Run.fresh)));
    vm_compute; reflexivity.
Defined.

Lemma mem_of_In {V : Type} (k : string) (v : V) (d : Dict.t V) :
  In (k, v) d -> Dict.mem k d = true.
Proof.
  intros H. destruct (Dict.mem k d) eqn:E; [reflexivity|].
  exfalso. exact (@DictFacts.mem_In_false V k v d E H).
Qed.

Lemma mem_set_other {V : Type} (k k' : string) (v : V) (d : Dict.t V) :
  Dict.mem k d = true -> Dict.mem k (Dict.set k' v d) = true.
Proof.
  unfold Dict.mem. intros H.
  destruct (String.eqb_spec k k') as [->|Hne].
  - now rewrite DictFacts.get_set_eq.
  - now rewrite DictFacts.get_set_ne.
Qed.

Lemma check_task_completion_keeps_known :
  forall (fromisoformat : string -> option Z) (task_id : string) (tk : Tick)
         (d : Daemon) (w : World) (k : string),
    Dict.mem k (tasks d) = true ->
    Dict.mem k (tasks (fst (fst (check_task_completion fromisoformat task_id tk d w)))) = true.
Proof.
  intros fromisoformat task_id tk d w k Hk.
  destruct (String.eqb_spec k task_id) as [->|Hne].
  - unfold check_task_completion.
    destruct (Dict.get task_id (tasks d)) as [task|] eqn:Hget; [|exact Hk].
    unfold subprocess_run. destruct (tmux _ w) as [w1 rc]. cbn [andb].
    destruct (negb (rc =? 0)).
    + rewrite (finalize_result task_id (now_iso tk) d w1 task Hget).
      cbn [fst snd tasks set_tasks]. apply DictFacts.mem_set.
    + destruct (timed_out fromisoformat (config d) task tk) as [[|]|]; try exact Hk.
      unfold kill_task. rewrite Hget. unfold subprocess_run.
      destruct (tmux _ w1) as [w2 rc2]. cbn [andb fst snd tasks set_tasks].
      apply DictFacts.mem_set.
  - pose proof (@check_task_completion_frame fromisoformat task_id tk d w k Hne) as F.
    unfold task_of, Dict.mem in *. now rewrite F.
Qed.

Lemma check_task_completion_known_ok :
  forall (fromisoformat : string -> option Z) (task_id : string) (tk : Tick)
         (d : Daemon) (w : World),
    Dict.mem task_id (tasks d) = true ->
    snd (check_task_completion fromisoformat task_id tk d w) = inr tt.
Proof.
  intros fromisoformat task_id tk d w Hk. unfold check_task_completion, Dict.mem in *.
  destruct (Dict.get task_id (tasks d)) as [task|]; [|discriminate].
  unfold subprocess_run. destruct (tmux _ w) as [w1 rc]. cbn [andb].
  destruct (negb (rc =? 0)).
  - now destruct (finalize_task_from_logs task_id (now_iso tk) d w1) as [[d2 w2] r].
  - destruct (timed_out fromisoformat (config d) task tk) as [[|]|]; try reflexivity.
    now destruct (kill_task task_id "timeout" (now_iso tk) d w1) as [[d2 w2] r].
Qed.

Lemma monitor_pass_ok :
  forall (fromisoformat : string -> option Z) (items : list (string * Task))
         (tk : Tick) (d : Daemon) (w : World),
    all_known (map fst items) (tasks d) = true ->
    snd (monitor_pass fromisoformat items tk d w) = inr tt.
Proof.
  intros fromisoformat items tk.
  induction items as [|[task_id task] rest IH]; intros d w Hall; [reflexivity|].
  cbn [map fst all_known forallb] in Hall. apply andb_true_iff in Hall.
  destruct Hall as [Hk Hrest]. cbn [monitor_pass].
  destruct (status match Dict.get task_id (tasks d) with
                   | Some t0 => t0 | None => task end);
    try (now apply IH).
  pose proof (check_task_completion_known_ok fromisoformat task_id tk d w Hk) as Hok.
  assert (Hkeep : all_known (map fst rest)
                    (tasks (fst (fst (check_task_completion fromisoformat task_id tk d w))))
                  = true).
  { unfold all_known in *. rewrite forallb_forall in *. intros k Hin.
    apply check_task_completion_keeps_known. now apply Hrest. }
  destruct (check_task_completion fromisoformat task_id tk d w) as [[d' w'] r].
  cbn [fst snd] in *. subst r. now apply IH.
Qed.

(** X11: the pass of a monitor tick over the tasks of the table never raises:
    every tick goes on to the retention sweep, run on the state the pass
    leaves. *)
Theorem monitor_tick_reaches_sweep :
  forall (fromisoformat : string -> option Z) (tk : Tick) (d : Daemon) (w : World),
    snd (monitor_pass fromisoformat (tasks d) tk d w) = inr tt
    /\ monitor_tick fromisoformat tk d w
       = cleanup_old_tasks fromisoformat (now_dt tk)
           (fst (fst (monitor_pass fromisoformat (tasks d) tk d w)))
           (snd (fst (monitor_pass fromisoformat (tasks d) tk d w))).
Proof.
  intros fromisoformat tk d w.
  assert (Hok : snd (monitor_pass fromisoformat (tasks d) tk d w) = inr tt).
  { apply monitor_pass_ok. unfold all_known. rewrite forallb_forall.
    intros k Hin. apply in_map_iff in Hin. destruct Hin as ([k' v] & <- & Hin).
    now apply mem_of_In with (v := v). }
  split; [exact Hok|]. unfold monitor_tick.
  destruct (monitor_pass fromisoformat (tasks d) tk d w) as [[d' w'] r].
  cbn [fst snd] in *. now subst r.
Qed.

(* ================================================================== *)
(** * The retention sweep, further *)

(** the sweep removes an entry only under the key of an expired entry it
    meets, whether or not it is cut short *)
Lemma cleanup_loop_removes_only_expired :
  forall (fromisoformat : string -> option Z) (cutoff_date : Z)
         (items : list (string * Task)) (d : Daemon) (w : World) (k : string),
    gone_key fromisoformat cutoff_date items k = false ->
    let '(d', w') := cleanup_loop fromisoformat cutoff_date items d w in
    Dict.get k (tasks d') = Dict.get k (tasks d)
    /\ Dict.get k (task_files w') = Dict.get k (task_files w).
Proof.
  intros fromisoformat cutoff_date items.
  induction items as [|[task_id task] rest IH]; intros d w k Hgone.
  - cbn. auto.
  - unfold gone_key in Hgone. cbn [existsb fst snd] in Hgone.
    apply orb_false_iff in Hgone. destruct Hgone as [Hhd Hrest].
    fold (gone_key fromisoformat cutoff_date rest k) in Hrest.
    cbn [cleanup_loop]. unfold expired in Hhd.
    destruct (terminal (status task)); [|now apply IH].
    destruct (truthy_str (completed_at task)) as [s|]; [|now apply IH].
    destruct (fromisoformat s) as [c|]; [|auto].
    destruct (c <? cutoff_date); [|now apply IH].
    cbn [andb] in Hhd. rewrite andb_true_r in Hhd. apply String.eqb_neq in Hhd.
    cbn [remove_task].
    specialize (IH (set_tasks (Dict.del task_id (tasks d)) d)
                   (set_log_files (Dict.del (log_file task) (log_files w))
                      (set_task_files (Dict.del task_id (task_files w)) w))
                   k Hrest).
    destruct (cleanup_loop fromisoformat cutoff_date rest _ _) as [d' w'].
    cbn [tasks set_tasks task_files set_task_files set_log_files] in IH.
    destruct IH as [A B]. rewrite A, B.
    split; apply DictFacts.get_del_ne; congruence.
Qed.

Lemma gone_key_unique :
  forall (fromisoformat : string -> option Z) (cutoff_date : Z)
         (ts : Dict.t Task) (k : string) (t : Task),
    unique_keys ts = true ->
    Dict.get k ts = Some t ->
    gone_key fromisoformat cutoff_date ts k = expired fromisoformat cutoff_date t.
Proof.
  intros fromisoformat cutoff_date ts k t Hu Hget.
  destruct (expired fromisoformat cutoff_date t) eqn:E.
  - unfold gone_key. apply existsb_exists. exists (k, t). split.
    + now apply DictFacts.get_In.
    + cbn [fst snd]. now rewrite String.eqb_refl.
  - apply not_true_iff_false. intros H. unfold gone_key in H.
    apply existsb_exists in H. destruct H as ([k' t'] & Hin & H).
    cbn [fst snd] in H. apply andb_true_iff in H. destruct H as [Hk Ht].
    apply String.eqb_eq in Hk. subst k'.
    pose proof (@DictFacts.In_get Task k t' ts Hu Hin) as G. congruence.
Qed.

(** X12: the sweep never removes an unfinished task: a task that is [queued]
    or [running], or has no [completed_at], is in the table after the sweep
    as it was, with its record file as it was, also when a timestamp the
    sweep cannot parse cuts the sweep short. *)
Theorem cleanup_keeps_unfinished :
  forall (fromisoformat : string -> option Z) (now : Z) (d : Daemon) (w : World)
         (task_id : string) (task : Task),
    unique_keys (tasks d) = true ->
    task_of task_id d = Some task ->
    terminal (status task) = false \/ truthy_str (completed_at task) = None ->
    let '(d', w') := cleanup_old_tasks fromisoformat now d w in
    task_of task_id d' = Some task
    /\ Dict.get task_id (task_files w') = Dict.get task_id (task_files w).
Proof.
  intros fromisoformat now d w task_id task Hu Hget Hunfinished.
  unfold cleanup_old_tasks, task_of in *.
  assert (Hexp : expired fromisoformat (cutoff (config d) now) task = false).
  { unfold expired. destruct Hunfinished as [-> | ->]; [reflexivity|].
    apply andb_false_r. }
  pose proof (cleanup_loop_removes_only_expired fromisoformat (cutoff (config d) now)
                (tasks d) d w task_id) as R.
  rewrite (gone_key_unique fromisoformat _ (tasks d) task_id task Hu Hget) in R.
  specialize (R Hexp).
  destruct (cleanup_loop fromisoformat (cutoff (config d) now) (tasks d) d w) as [d' w'].
  destruct R as [A B]. split; congruence.
Qed.

Lemma cleanup_keeps_unfinished_witness :
  let '(d', w') :=
    cleanup_old_tasks Iso.iso_parse (now_dt (Run.at_time "2025-01-01T00:00:00"))
      Run.d_running Run.w_running in
  task_of Run.tid d'
    = Some (started_record Run.clock (new_task Run.daemon0 Run.request Run.fresh))
  /\ Dict.get Run.tid (task_files w') = Dict.get Run.tid (task_files Run.w_running).
Proof.
  apply (cleanup_keeps_unfinished Iso.iso_parse (now_dt (Run.at_time "2025-01-01T00:00:00"))
           Run.d_running Run.w_running Run.tid
           (started_record Run.clock (new_task Run.daemon0 Run.request Run.fresh))).
  - vm_compute; reflexivity.
  - vm_compute; reflexivity.
  - left. vm_compute; reflexivity.
Defined.

Lemma cleanup_loop_stops :
  forall (fromisoformat : string -> option Z) (cutoff_date : Z)
         (before after : list (string * Task)) (k : string) (bad : Task) (s : string)
         (d : Daemon) (w : World),
    terminal (status bad) = true ->
    truthy_str (completed_at bad) = Some s ->
    fromisoformat s = None ->
    cleanup_loop fromisoformat cutoff_date (before ++ (k, bad) :: after) d w
    = cleanup_loop fromisoformat cutoff_date before d w.
Proof.
  intros fromisoformat cutoff_date before after k bad s d w Ht Hs Hp. revert d w.
  induction before as [|[task_id task] rest IH]; intros d w.
  - cbn [app cleanup_loop]. now rewrite Ht, Hs, Hp.
  - cbn [app cleanup_loop].
    destruct (terminal (status task)); [|apply IH].
    destruct (truthy_str (completed_at task)) as [s'|]; [|apply IH].
    destruct (fromisoformat s') as [c|]; [|reflexivity].
    destruct (c <? cutoff_date); [|apply IH].
    destruct (remove_task task_id task d w) as [d' w']. apply IH.
Qed.

Lemma unique_keys_app_right :
  forall (V : Type) (xs ys : Dict.t V) (k : string) (v : V),
    unique_keys (xs ++ ys)%list = true -> In (k, v) ys ->
    forall v', ~ In (k, v') xs.
Proof.
  intros V xs ys k v. induction xs as [|[k0 v0] xs IH]; intros Hu Hin v' Hx; [easy|].
  cbn [app unique_keys] in Hu. apply andb_true_iff in Hu. destruct Hu as [Hfresh Hu].
  destruct Hx as [Hx|Hx].
  - inversion Hx; subst. apply negb_true_iff in Hfresh.
    apply (@DictFacts.mem_In_false V k v (xs ++ ys)%list Hfresh).
    apply in_or_app. now right.
  - exact (IH Hu Hin v' Hx).
Qed.

(** X13: a [completed_at] the sweep cannot parse ends the sweep where it
    stands: when a terminal task with such a timestamp is in the table,
    every task listed after it is kept as it is, expired or not. *)
Theorem cleanup_stops_at_unparsed_stamp :
  forall (fromisoformat : string -> option Z) (now : Z) (d : Daemon) (w : World)
         (before after : list (string * Task)) (k : string) (bad : Task) (s : string)
         (k2 : string) (t2 : Task),
    tasks d = (before ++ (k, bad) :: after)%list ->
    unique_keys (tasks d) = true ->
    terminal (status bad) = true ->
    truthy_str (completed_at bad) = Some s ->
    fromisoformat s = None ->
    In (k2, t2) after ->
    task_of k2 (fst (cleanup_old_tasks fromisoformat now d w)) = Some t2.
Proof.
  intros fromisoformat now d w before after k bad s k2 t2 Hsplit Hu Ht Hs Hp Hin.
  unfold cleanup_old_tasks, task_of. rewrite Hsplit.
  rewrite (cleanup_loop_stops fromisoformat _ before after k bad s d w Ht Hs Hp).
  assert (Hgone : gone_key fromisoformat (cutoff (config d) now) before k2 = false).
  { apply not_true_iff_false. intros H. unfold gone_key in H.
    apply existsb_exists in H. destruct H as ([k' t'] & Hin' & H).
    cbn [fst snd] in H. apply andb_true_iff in H. destruct H as [Hk _].
    apply String.eqb_eq in Hk. subst k'. rewrite Hsplit in Hu.
    apply (unique_keys_app_right Task before ((k, bad) :: after) k2 t2 Hu
             (or_intror Hin) t' Hin'). }
  pose proof (cleanup_loop_removes_only_expired fromisoformat (cutoff (config d) now)
                before d w k2 Hgone) as R.
  destruct (cleanup_loop fromisoformat (cutoff (config d) now) before d w) as [d' w'].
  cbn [fst]. destruct R as [A _]. rewrite A.
  apply DictFacts.In_get; [assumption|].
  rewrite Hsplit. apply in_or_app. right. now right.
Qed.

Lemma cleanup_stops_at_unparsed_stamp_witness :
  task_of "task-old"
    (fst (cleanup_old_tasks Iso.iso_parse Run.sweep_time Run2.d_bad Run2.w_bad))
  = Some Run.old_task.
Proof.
  apply (cleanup_stops_at_unparsed_stamp Iso.iso_parse Run.sweep_time Run2.d_bad Run2.w_bad
           [] [("task-old", Run.old_task)] "task-bad" Run2.bad_task "yesterday"
           "task-old" Run.old_task).
  - vm_compute; reflexivity.
  - vm_compute; reflexivity.
  - vm_compute; reflexivity.
  - vm_compute; reflexivity.
  - vm_compute; reflexivity.
  - left. reflexivity.
Defined.

(* ================================================================== *)
(** * The retention sweep of a tick *)

Lemma finalize_config (task_id now : string) (d : Daemon) (w : World) :
  config (fst (fst (finalize_task_from_logs task_id now d w))) = config d.
Proof.
  unfold finalize_task_from_logs.
  destruct (Dict.get task_id (tasks d)) as [task|] eqn:Hget; [|reflexivity].
  destruct (Dict.get (log_file task) (log_files w)) as [log_content|].
  - unfold extract_progress_from_logs. cbn [tasks set_tasks].
    rewrite DictFacts.get_set_eq.
    destruct (inferred_progress log_content) as [p|];
      repeat (progress (cbn [tasks set_tasks fst snd];
                        rewrite ?DictFacts.get_set_eq));
      reflexivity.
  - repeat (progress (cbn [tasks set_tasks fst snd];
                      rewrite ?DictFacts.get_set_eq)).
    reflexivity.
Qed.

Lemma kill_task_config (task_id reason now : string) (d : Daemon) (w : World) :
  config (fst (fst (kill_task task_id reason now d w))) = config d.
Proof.
  unfold kill_task.
  destruct (Dict.get task_id (tasks d)) as [task|]; [|reflexivity].
  unfold subprocess_run. destruct (tmux _ w) as [w1 rc]. reflexivity.
Qed.

Lemma check_task_completion_config (fromisoformat : string -> option Z)
  (task_id : string) (tk : Tick) (d : Daemon) (w : World) :
  config (fst (fst (check_task_completion fromisoformat task_id tk d w))) = config d.
Proof.
  unfold check_task_completion.
  destruct (Dict.get task_id (tasks d)) as [task|]; [|reflexivity].
  unfold subprocess_run. destruct (tmux _ w) as [w1 rc]. cbn [andb].
  destruct (negb (rc =? 0)).
  - pose proof (finalize_config task_id (now_iso tk) d w1) as H.
    destruct (finalize_task_from_logs task_id (now_iso tk) d w1) as [[d2 w2] r].
    exact H.
  - destruct (timed_out fromisoformat (config d) task tk) as [[|]|]; try reflexivity.
    pose proof (kill_task_config task_id "timeout" (now_iso tk) d w1) as H.
    destruct (kill_task task_id "timeout" (now_iso tk) d w1) as [[d2 w2] r].
    exact H.
Qed.

Lemma monitor_pass_config (fromisoformat : string -> option Z)
  (items : list (string * Task)) (tk : Tick) :
  forall (d : Daemon) (w : World),
    config (fst (fst (monitor_pass fromisoformat items tk d w))) = config d.
Proof.
  induction items as [|[task_id task] rest IH]; intros d w; [reflexivity|].
  cbn [monitor_pass].
  destruct (status match Dict.get task_id (tasks d) with
                   | Some t0 => t0 | None => task end);
    try apply IH.
  pose proof (check_task_completion_config fromisoformat task_id tk d w) as H.
  destruct (check_task_completion fromisoformat task_id tk d w) as [[d' w'] [e|u]];
    cbn [fst snd] in *; [exact H|].
  now rewrite IH.
Qed.

(** while every [completed_at] it meets parses, the sweep goes on *)
Lemma cleanup_loop_app (fromisoformat : string -> option Z) (cutoff_date : Z)
  (before rest : list (string * Task)) :
  forall (d : Daemon) (w : World),
    stamps_parse fromisoformat before = true ->
    cleanup_loop fromisoformat cutoff_date (before ++ rest) d w
    = cleanup_loop fromisoformat cutoff_date rest
        (fst (cleanup_loop fromisoformat cutoff_date before d w))
        (snd (cleanup_loop fromisoformat cutoff_date before d w)).
Proof.
  induction before as [|[task_id task] before IH]; intros d w Hparse; [reflexivity|].
  cbn [stamps_parse forallb snd] in Hparse. apply andb_true_iff in Hparse.
  destruct Hparse as [Hhd Hrest]. cbn [app cleanup_loop].
  destruct (terminal (status task)); [|now apply IH].
  destruct (truthy_str (completed_at task)) as [s|]; [|now apply IH].
  cbn [negb orb] in Hhd.
  destruct (fromisoformat s) as [c|]; [|discriminate].
  destruct (c <? cutoff_date); [|now apply IH].
  destruct (remove_task task_id task d w) as [d' w']. now apply IH.
Qed.

(** what is not there before the sweep is not there after it *)
Lemma cleanup_loop_keeps_absent (fromisoformat : string -> option Z) (cutoff_date : Z)
  (items : list (string * Task)) :
  forall (d : Daemon) (w : World),
    let '(d', w') := cleanup_loop fromisoformat cutoff_date items d w in
    (forall k, Dict.get k (tasks d) = None -> Dict.get k (tasks d') = None)
    /\ (forall k, Dict.get k (task_files w) = None -> Dict.get k (task_files w') = None)
    /\ (forall p, Dict.get p (log_files w) = None -> Dict.get p (log_files w') = None).
Proof.
  induction items as [|[task_id task] rest IH]; intros d w; cbn [cleanup_loop].
  - auto.
  - destruct (terminal (status task)); [|apply IH].
    destruct (truthy_str (completed_at task)) as [s|]; [|apply IH].
    destruct (fromisoformat s) as [c|]; [|auto].
    destruct (c <? cutoff_date); [|apply IH].
    cbn [remove_task].
    specialize (IH (set_tasks (Dict.del task_id (tasks d)) d)
                   (set_log_files (Dict.del (log_file task) (log_files w))
                      (set_task_files (Dict.del task_id (task_files w)) w))).
    destruct (cleanup_loop fromisoformat cutoff_date rest _ _) as [d' w'].
    cbn [tasks set_tasks task_files log_files set_task_files set_log_files] in IH.
    destruct IH as (A & B & C).
    repeat split; intros x Hx; [apply A | apply B | apply C];
      now apply DictFacts.get_del_none.
Qed.

(** the sweep removes a log file only when it meets an expired entry that
    names it, whether or not it is cut short *)
Lemma cleanup_loop_keeps_log (fromisoformat : string -> option Z) (cutoff_date : Z)
  (items : list (string * Task)) :
  forall (d : Daemon) (w : World) (p : string),
    gone_log fromisoformat cutoff_date items p = false ->
    Dict.get p (log_files (snd (cleanup_loop fromisoformat cutoff_date items d w)))
    = Dict.get p (log_files w).
Proof.
  induction items as [|[task_id task] rest IH]; intros d w p Hgone; [reflexivity|].
  unfold gone_log in Hgone. cbn [existsb fst snd] in Hgone.
  apply orb_false_iff in Hgone. destruct Hgone as [Hhd Hrest].
  fold (gone_log fromisoformat cutoff_date rest p) in Hrest.
  cbn [cleanup_loop]. unfold expired in Hhd.
  destruct (terminal (status task)); [|now apply IH].
  destruct (truthy_str (completed_at task)) as [s|]; [|now apply IH].
  destruct (fromisoformat s) as [c|]; [|reflexivity].
  destruct (c <? cutoff_date); [|now apply IH].
  cbn [andb] in Hhd. rewrite andb_true_r in Hhd. apply String.eqb_neq in Hhd.
  cbn [remove_task]. rewrite IH by assumption.
  cbn [log_files set_log_files]. apply DictFacts.get_del_ne. congruence.
Qed.



(** the tick of [Run]: the task completed eight days ago is removed with
    its files, the task completed exactly [log_retention_days] days ago
    stays with its files *)
Example tick_at_the_cutoff :
  let tk := Run.at_time "2024-01-10T12:00:00" in
  let '(d', w') := monitor_tick Iso.iso_parse tk Run.d_finished Run.w_finished in
  log_retention_days (config Run.d_finished) = 7
  /\ Iso.iso_parse "2024-01-03T12:00:00" = Some (now_dt tk - 7 * (86400 * 1000000))
  /\ Dict.keys (tasks d') = ["task-edge"]
  /\ Dict.keys (task_files w') = ["task-edge"]
  /\ Dict.keys (log_files w') = [log_file Run.edge_task].
Proof. vm_compute. repeat split. Qed.


(* ================================================================== *)
(** * Restart recovery, further *)

Lemma mem_set_iff {V : Type} (k k' : string) (v : V) (d : Dict.t V) :
  Dict.mem k (Dict.set k' v d) = String.eqb k k' || Dict.mem k d.
Proof.
  unfold Dict.mem. destruct (String.eqb_spec k k') as [->|Hne].
  - now rewrite DictFacts.get_set_eq.
  - now rewrite DictFacts.get_set_ne.
Qed.

Lemma load_task_queue (now : string) (task : Task) (d : Daemon) (w : World) :
  task_queue (fst (load_task now task d w))
  = (task_queue d ++ if is_status queued task then [id task] else [])%list.
Proof.
  unfold load_task, is_status.
  destruct (status task); cbn [Status_eqb fst task_queue set_task_queue set_tasks];
    rewrite ?app_nil_r; try reflexivity.
  destruct (is_task_running task w) as [w1 [|]]; cbn [negb fst task_queue set_tasks];
    rewrite ?app_nil_r; reflexivity.
Qed.

Lemma load_task_keys (now : string) (task : Task) (d : Daemon) (w : World) (k : string) :
  Dict.mem k (tasks (fst (load_task now task d w)))
  = String.eqb k (id task) || Dict.mem k (tasks d).
Proof.
  unfold load_task.
  destruct (status task); cbn [fst tasks set_task_queue set_tasks];
    try apply mem_set_iff.
  destruct (is_task_running task w) as [w1 [|]]; cbn [negb fst tasks set_tasks];
    rewrite ?mem_set_iff; [reflexivity|].
  now destruct (String.eqb k (id task)).
Qed.

Lemma load_task_no_write (now : string) (task : Task) (d : Daemon) (w : World) :
  is_status running task = false -> snd (load_task now task d w) = w.
Proof.
  unfold load_task, is_status. now destruct (status task).
Qed.

Lemma load_task_other_files (now : string) (task : Task) (d : Daemon) (w : World)
  (k : string) :
  k <> id task ->
  Dict.get k (task_files (snd (load_task now task d w))) = Dict.get k (task_files w).
Proof.
  intros Hne. unfold load_task.
  destruct (status task); cbn [snd]; try reflexivity.
  unfold is_task_running.
  destruct (truthy_int (pid task)) as [n|].
  - unfold subprocess_run, tmux.
    destruct (Dict.mem (session_name task) (sessions w));
      cbn [andb negb Z.eqb snd save_task save_task_steps last json_dump open_w
           task_files set_task_files id set_completed_at set_error_message set_status];
      try reflexivity.
    now rewrite !DictFacts.get_set_ne.
  - cbn [negb snd save_task save_task_steps last json_dump open_w
         task_files set_task_files id set_completed_at set_error_message set_status].
    now rewrite !DictFacts.get_set_ne.
Qed.

Lemma load_files_queue (now : string) (files : Dict.t (option Task)) :
  forall (d : Daemon) (w : World),
    unique_keys files = true ->
    named_by_id files = true ->
    (forall stem c, In (stem, c) files -> Dict.get stem (task_files w) = Some c) ->
    task_queue (fst (load_files now (Dict.keys files) d w))
    = (task_queue d ++ map id (filter (is_status queued) (parsed files)))%list.
Proof.
  induction files as [|[stem c] rest IH]; intros d w Hu Hn Hread;
    cbn [Dict.keys map fst load_files parsed].
  - now rewrite app_nil_r.
  - cbn [unique_keys named_by_id forallb fst snd] in Hu, Hn.
    apply andb_true_iff in Hu. destruct Hu as [Hfresh Hu].
    apply andb_true_iff in Hn. destruct Hn as [Hid Hn].
    rewrite (Hread stem c (or_introl eq_refl)).
    destruct c as [task|].
    + apply String.eqb_eq in Hid.
      pose proof (load_task_queue now task d w) as Hq.
      pose proof (fun k => load_task_other_files now task d w k) as Hf.
      destruct (load_task now task d w) as [d' w']. cbn [fst snd] in Hq, Hf.
      change (map fst rest) with (Dict.keys rest).
      rewrite IH, Hq; auto.
      * cbn [filter]. destruct (is_status queued task); cbn [map]; now rewrite <- app_assoc.
      * intros s c Hin. rewrite Hf.
        -- apply Hread. now right.
        -- rewrite Hid. intros ->. apply negb_true_iff in Hfresh.
           exact (DictFacts.mem_In_false _ _ _ Hfresh Hin).
    + change (map fst rest) with (Dict.keys rest).
      apply IH; auto. intros s c Hin. apply Hread. now right.
Qed.

(** X14: in a tasks directory whose record files are named after the
    identifiers of their records (as [save_task] names them), [load_tasks]
    puts on the queue, behind what is there, the identifier of every record
    file that reads back as a [queued] task, once per file and in the order
    of the directory listing; running, completed and failed records and
    files that do not parse add nothing. *)
Theorem load_tasks_requeues_queued :
  forall (now : string) (d : Daemon) (w : World),
    unique_keys (task_files w) = true ->
    named_by_id (task_files w) = true ->
    task_queue (fst (load_tasks now d w))
    = (task_queue d ++ map id (filter (is_status queued) (parsed (task_files w))))%list.
Proof.
  intros now d w Hu Hn. unfold load_tasks.
  apply load_files_queue; auto.
  intros stem c Hin. now apply DictFacts.In_get.
Qed.

Lemma load_tasks_requeues_queued_witness :
  task_queue (fst (load_tasks "2024-01-11T00:00:00" Run.daemon0 Run2.w_listing))
  = ([] ++ map id (filter (is_status queued) (parsed (task_files Run2.w_listing))))%list.
Proof.
  apply (load_tasks_requeues_queued "2024-01-11T00:00:00" Run.daemon0 Run2.w_listing);
    vm_compute; reflexivity.
Defined.

(** Each file is read at its turn: when the copy of a record is failed, the
    write goes to the file of the record, and what that file held when the
    loading began is not what is read from it. *)
Example load_tasks_reads_after_writes :
  filter (is_status queued) (parsed (task_files Run2.w_copy)) = [Run2.orphan]
  /\ task_queue (fst (load_tasks "2024-01-11T00:00:00" Run.daemon0 Run2.w_copy)) = []
  /\ option_map status
       (task_of "task-orphan" (fst (load_tasks "2024-01-11T00:00:00" Run.daemon0 Run2.w_copy)))
     = Some failed.
Proof. vm_compute. repeat split; reflexivity. Qed.

Lemma parsed_In (stem : string) (t : Task) (files : Dict.t (option Task)) :
  In (stem, Some t) files -> In t (parsed files).
Proof.
  induction files as [|[s [t'|]] rest IH]; cbn [parsed In]; [tauto| |].
  - intros [Heq|Hin]; [left; congruence | right; auto].
  - intros [Heq|Hin]; [discriminate | auto].
Qed.

Lemma load_files_no_write (now : string) (w : World) :
  (forall stem t, Dict.get stem (task_files w) = Some (Some t) ->
                  is_status running t = false) ->
  forall (stems : list string) (d : Daemon),
    snd (load_files now stems d w) = w.
Proof.
  intros Hrun stems.
  induction stems as [|stem rest IH]; intros d; cbn [load_files]; [reflexivity|].
  destruct (Dict.get stem (task_files w)) as [[task|]|] eqn:E; auto.
  pose proof (load_task_no_write now task d w (Hrun stem task E)) as Hw.
  destruct (load_task now task d w) as [d' w']. cbn [snd] in Hw. subst w'.
  apply IH.
Qed.

(** X16: a restart writes to disk only to fail a running record: when no
    record file reads back as a [running] task, [load_tasks] leaves the
    record files, the logs and the sessions exactly as they are. *)
Theorem load_tasks_writes_only_for_running :
  forall (now : string) (d : Daemon) (w : World),
    existsb (is_status running) (parsed (task_files w)) = false ->
    snd (load_tasks now d w) = w.
Proof.
  intros now d w H. unfold load_tasks.
  apply load_files_no_write.
  intros stem t Hget.
  apply DictFacts.get_In, parsed_In in Hget.
  destruct (is_status running t) eqn:E; [|reflexivity].
  assert (existsb (is_status running) (parsed (task_files w)) = true) as Ht
    by (apply existsb_exists; eauto).
  congruence.
Qed.

Lemma load_tasks_writes_only_for_running_witness :
  snd (load_tasks "2024-01-11T00:00:00" Run.daemon0 Run2.w_listing) = Run2.w_listing.
Proof.
  apply (load_tasks_writes_only_for_running "2024-01-11T00:00:00" Run.daemon0 Run2.w_listing).
  vm_compute; reflexivity.
Defined.

(* ================================================================== *)
(** * The singleton guard and the [stop] command *)

Lemma py_digits_acc (d : Decimal.uint) :
  forall p : positive,
    py_digits (Zpos p) true (NilEmpty.string_of_uint d) = Some (Zpos (Pos.of_uint_acc d p)).
Proof.
  induction d; intros p; cbn [NilEmpty.string_of_uint py_digits Pos.of_uint_acc];
    try reflexivity;
    match goal with
    | |- context [Str.is_digit ?c] =>
        replace (Str.is_digit c) with true by (vm_compute; reflexivity)
    end;
    match goal with
    | |- py_digits (_ + Str.digit_val ?c) true _ = _ =>
        let v := eval vm_compute in (Str.digit_val c) in
        change (Str.digit_val c) with v
    end;
    match goal with
    | |- py_digits ?a true _ = Some (Zpos (Pos.of_uint_acc _ ?q)) =>
        replace a with (Zpos q) by lia
    end;
    apply IHd.
Qed.

Lemma py_digits_zero (d : Decimal.uint) :
  py_digits 0 true (NilEmpty.string_of_uint d) = Some (Z.of_N (Pos.of_uint d)).
Proof.
  induction d; cbn [NilEmpty.string_of_uint py_digits Pos.of_uint];
    try reflexivity;
    match goal with
    | |- context [Str.is_digit ?c] =>
        replace (Str.is_digit c) with true by (vm_compute; reflexivity)
    end;
    [exact IHd | ..];
    match goal with
    | |- py_digits ?a true _ = Some (Z.of_N (Npos (Pos.of_uint_acc _ ?q))) =>
        replace a with (Zpos q) by (vm_compute; reflexivity)
    end;
    apply py_digits_acc.
Qed.

Lemma py_unsigned_uint (d : Decimal.uint) :
  d <> Decimal.Nil ->
  py_unsigned (NilEmpty.string_of_uint d) = Some (Z.of_N (Pos.of_uint d)).
Proof.
  intros Hne. pose proof (py_digits_zero d) as H.
  destruct d; [congruence | ..];
    cbn [NilEmpty.string_of_uint py_unsigned py_digits] in *;
    match goal with
    | |- context [Str.is_digit ?c] =>
        replace (Str.is_digit c) with true in * by (vm_compute; reflexivity)
    end;
    exact H.
Qed.

Lemma digits_of_uint (d : Decimal.uint) :
  Str.all Str.is_digit (NilEmpty.string_of_uint d) = true.
Proof.
  induction d; cbn [NilEmpty.string_of_uint Str.all]; try reflexivity;
    match goal with
    | |- context [Str.is_digit ?c] =>
        replace (Str.is_digit c) with true by (vm_compute; reflexivity)
    end;
    exact IHd.
Qed.

Lemma digit_not_space (c : ascii) : Str.is_digit c = true -> Str.is_space c = false.
Proof.
  unfold Str.is_digit, Str.is_space, Str.in_range. cbv zeta.
  generalize (nat_of_ascii c). intros n H.
  apply andb_true_iff in H. destruct H as [H1 H2].
  apply Nat.leb_le in H1. apply Nat.leb_le in H2.
  repeat rewrite orb_false_iff. repeat split.
  - apply andb_false_iff. right. apply Nat.leb_gt. lia.
  - apply andb_false_iff. right. apply Nat.leb_gt. lia.
  - apply Nat.eqb_neq. lia.
  - apply Nat.eqb_neq. lia.
Qed.

Lemma rstrip_digits (s : string) : Str.all Str.is_digit s = true -> rstrip s = s.
Proof.
  induction s as [|c s IH]; [reflexivity|]. cbn [Str.all rstrip]. intros H.
  apply andb_true_iff in H. destruct H as [Hc Hs]. rewrite (IH Hs).
  destruct s; [|reflexivity]. now rewrite (digit_not_space c Hc).
Qed.

Lemma strip_digits (s : string) : Str.all Str.is_digit s = true -> strip s = s.
Proof.
  intros H. unfold strip.
  assert (L : lstrip s = s).
  { destruct s as [|c s]; [reflexivity|]. cbn [Str.all] in H.
    apply andb_true_iff in H. destruct H as [Hc _].
    cbn [lstrip]. now rewrite (digit_not_space c Hc). }
  rewrite L. now apply rstrip_digits.
Qed.

(** what [acquire_lock] writes reads back as the pid *)
Lemma py_int_of_pid (pid : Z) :
  0 <= pid ->
  strip (Str.of_Z pid) = Str.of_Z pid /\ py_int (Str.of_Z pid) = Some pid.
Proof.
  intros Hpos. destruct pid as [|p|p]; [split; reflexivity | | lia].
  unfold Str.of_Z. cbn [Z.to_int NilZero.string_of_int NilZero.string_of_uint].
  pose proof (DecimalPos.Unsigned.to_uint_nonnil p) as Hnn.
  assert (E : NilZero.string_of_uint (Pos.to_uint p)
              = NilEmpty.string_of_uint (Pos.to_uint p)).
  { unfold NilZero.string_of_uint. destruct (Pos.to_uint p); [congruence | reflexivity ..]. }
  rewrite E.
  pose proof (strip_digits _ (digits_of_uint (Pos.to_uint p))) as Hstrip.
  split; [exact Hstrip|].
  unfold py_int. rewrite Hstrip.
  pose proof (py_unsigned_uint (Pos.to_uint p) Hnn) as Hu.
  rewrite DecimalPos.Unsigned.of_to in Hu. cbn [Z.of_N] in Hu.
  destruct (Pos.to_uint p); [congruence | ..];
    cbn [NilEmpty.string_of_uint] in *; exact Hu.
Qed.

(** X17: one daemon at a time: once a process has acquired the lock, the
    [acquire_lock] of another process returns [False] and the first
    process still holds the lock; but the attempt has emptied the lock
    file, and the [stop] command, which reads the pid from it, then
    reports that no running daemon is found. *)
Theorem second_instance_is_refused :
  forall (p1 p2 : Z) (lf : option LockFile) (process_exists : Z -> bool),
    lock_free lf = true ->
    p1 <> p2 ->
    let '(lf1, ok1) := acquire_lock p1 lf in
    let '(lf2, ok2) := acquire_lock p2 lf1 in
    ok1 = true
    /\ ok2 = false
    /\ option_map locked_by lf2 = Some (Some p1)
    /\ option_map lock_text lf2 = Some ""
    /\ stop process_exists lf2 = NoRunningDaemonFound.
Proof.
  intros p1 p2 lf process_exists Hfree _. unfold acquire_lock.
  destruct lf as [[text [q|]]|]; cbn in *; try discriminate; repeat split.
Qed.

Lemma second_instance_is_refused_witness :
  let '(lf1, ok1) := acquire_lock 4242 None in
  let '(lf2, ok2) := acquire_lock 4343 lf1 in
  ok1 = true
  /\ ok2 = false
  /\ option_map locked_by lf2 = Some (Some 4242)
  /\ option_map lock_text lf2 = Some ""
  /\ stop (fun _ => true) lf2 = NoRunningDaemonFound.
Proof.
  apply (second_instance_is_refused 4242 4343 None (fun _ => true)).
  - reflexivity.
  - discriminate.
Defined.

(** X18: the lock file round trip: a process that acquires a free lock holds
    it, the [stop] command reads its pid back from the file and signals it;
    after [release_lock] the file is gone, [stop] reports that the daemon
    is not running, and the next [acquire_lock] succeeds. *)
Theorem lock_round_trip :
  forall (pid next : Z) (lf : option LockFile) (process_exists : Z -> bool),
    lock_free lf = true ->
    0 <= pid ->
    process_exists pid = true ->
    let '(lf1, ok) := acquire_lock pid lf in
    ok = true
    /\ option_map locked_by lf1 = Some (Some pid)
    /\ stop process_exists lf1 = StopSignalSent pid
    /\ stop process_exists (release_lock true lf1) = DaemonNotRunning
    /\ snd (acquire_lock next (release_lock true lf1)) = true.
Proof.
  intros pid next lf process_exists Hfree Hpos Hex. unfold acquire_lock.
  assert (E : locked_by match lf with
                        | Some f => mkLockFile "" (locked_by f)
                        | None => mkLockFile "" None
                        end = None).
  { destruct lf as [[text [q|]]|]; cbn in *; congruence. }
  rewrite E. destruct (py_int_of_pid pid Hpos) as [Hs Hi].
  repeat split. unfold stop. cbn [lock_text]. now rewrite Hs, Hi, Hex.
Qed.

Lemma lock_round_trip_witness :
  let '(lf1, ok) := acquire_lock 4242 None in
  ok = true
  /\ option_map locked_by lf1 = Some (Some 4242)
  /\ stop (fun _ => true) lf1 = StopSignalSent 4242
  /\ stop (fun _ => true) (release_lock true lf1) = DaemonNotRunning
  /\ snd (acquire_lock 4343 (release_lock true lf1)) = true.
Proof.
  apply (lock_round_trip 4242 4343 None (fun _ => true)).
  - reflexivity.
  - lia.
  - reflexivity.
Defined.

(* ================================================================== *)
(** * Status and configuration *)

Lemma set_fresh {V : Type} (k : string) (v : V) (d : Dict.t V) :
  Dict.mem k d = false -> Dict.set k v d = (d ++ [(k, v)])%list.
Proof.
  unfold Dict.mem. induction d as [|[k' v'] d IH]; [reflexivity|].
  unfold Dict.get, Dict.set. fold (@Dict.get V) (@Dict.set V).
  destruct (String.eqb k k'); [discriminate|].
  intros H. cbn [app]. now rewrite (IH H).
Qed.

Lemma count_status_app (s : Status) (ws : string) (cfg : Config) (q : list string)
  (ts : Dict.t Task) (k : string) (t : Task) :
  count_status s (mkDaemon ws cfg (ts ++ [(k, t)])%list q)
  = (count_status s (mkDaemon ws cfg ts q) + if is_status s t then 1 else 0)%nat.
Proof.
  unfold count_status, is_status. cbn [tasks].
  rewrite filter_app, length_app. cbn [filter snd].
  now destruct (Status_eqb (status t) s).
Qed.

(** X19: what [get_status] reports after an accepted submission under a new
    identifier: one more [queued] task, the other three counts as before,
    and a queue one entry longer. *)
Theorem get_status_after_submission :
  forall (rq : Request) (f : Fresh) (d : Daemon) (w : World) (task_id : string),
    snd (create_task rq f d w) = inr task_id ->
    Dict.mem task_id (tasks d) = false ->
    let d' := fst (fst (create_task rq f d w)) in
    task_counts d'
    = mkTaskCounts (S (n_queued (task_counts d))) (n_running (task_counts d))
        (n_completed (task_counts d)) (n_failed (task_counts d))
    /\ queue_size d' = S (queue_size d).
Proof.
  intros rq f d w task_id Hok Hfresh. unfold create_task in *.
  destruct (validate_task (config d) (new_task d rq f)); cbn [negb fst snd] in *;
    [|discriminate].
  inversion Hok; subst task_id; clear Hok.
  unfold queue_size, task_counts.
  cbn [task_queue set_task_queue set_tasks n_queued n_running n_completed n_failed].
  rewrite length_app. cbn [List.length]. split; [|lia].
  rewrite (set_fresh _ _ _ Hfresh). destruct d as [ws cfg ts q]. cbn [tasks workspace config].
  unfold set_task_queue, set_tasks. cbn [workspace config tasks task_queue].
  rewrite !count_status_app. unfold is_status. cbn [status new_task Status_eqb].
  unfold count_status. cbn [tasks]. f_equal; lia.
Qed.

Lemma get_status_after_submission_witness :
  let d' := fst (fst (create_task Run.request Run.fresh Run.d_finished Run.w_finished)) in
  task_counts d'
  = mkTaskCounts (S (n_queued (task_counts Run.d_finished)))
      (n_running (task_counts Run.d_finished))
      (n_completed (task_counts Run.d_finished)) (n_failed (task_counts Run.d_finished))
  /\ queue_size d' = S (queue_size Run.d_finished).
Proof.
  apply (get_status_after_submission Run.request Run.fresh Run.d_finished Run.w_finished Run.tid);
    vm_compute; reflexivity.
Defined.

(** X20: [load_config] merges key by key: a configuration file that gives
    [ai_tools] replaces the default tool table as a whole, so a submission
    for a tool the file does not list, a default tool included, is
    rejected and leaves the daemon as it was. *)
Theorem config_file_replaces_tool_table :
  forall (file : ConfigFile) (table : Dict.t ToolConfig.t) (rq : Request) (f : Fresh)
         (ws : string) (ts : Dict.t Task) (q : list string) (w : World) (tl : string),
    f_ai_tools file = Some table ->
    r_tool rq = Some tl ->
    Dict.mem tl table = false ->
    let d := mkDaemon ws (load_config (Some file)) ts q in
    ai_tools (config d) = table
    /\ exists e, create_task rq f d w = (d, w, inl e).
Proof.
  intros file table rq f ws ts q w tl Hfile Htool Hmem.
  cbn [config load_config ai_tools]. rewrite Hfile. cbn [or_default].
  split; [reflexivity|]. unfold create_task.
  assert (Hv : validate_task
                 (config (mkDaemon ws (load_config (Some file)) ts q))
                 (new_task (mkDaemon ws (load_config (Some file)) ts q) rq f) = false).
  { apply validate_task_false. right; right.
    cbn [tool new_task config load_config ai_tools known_tool].
    rewrite Htool, Hfile. exact Hmem. }
  cbn [config load_config] in Hv. rewrite Hfile in Hv. cbn [or_default] in Hv.
  cbn [config]. rewrite Hv. cbn [negb]. eauto.
Qed.

Lemma config_file_replaces_tool_table_witness :
  let d := mkDaemon "/home/ai/ai-workspace" (load_config (Some Run2.file_one_tool)) [] [] in
  ai_tools (config d) = [("mystery", ToolConfig.mk "mystery-cli" [] None None)]
  /\ exists e, create_task Run.request Run.fresh d Run.world0 = (d, Run.world0, inl e).
Proof.
  apply (config_file_replaces_tool_table Run2.file_one_tool
           [("mystery", ToolConfig.mk "mystery-cli" [] None None)]
           Run.request Run.fresh "/home/ai/ai-workspace" [] [] Run.world0 "crush");
    vm_compute; reflexivity.
Defined.

(* ================================================================== *)
(** * Progress extraction, further *)

Section NeedsClass.

Variable cls : ascii -> bool.

Lemma free_of_tail (c : ascii) (s : string) :
  free_of cls (String c s) = true -> free_of cls s = true.
Proof. unfold free_of. cbn [Str.all]. intros H. now apply andb_true_iff in H. Qed.

Lemma greedy_none (R : Type) (c0 : ascii -> bool) (k : string -> string -> option R) :
  (forall acc rest, free_of cls rest = true -> k acc rest = None) ->
  forall s acc, free_of cls s = true -> Re.greedy c0 k acc s = None.
Proof.
  intros Hk s. induction s as [|c s IH]; intros acc Hs; cbn [Re.greedy].
  - now apply Hk.
  - rewrite (IH _ (free_of_tail _ _ Hs)), (Hk _ _ Hs). now destruct (c0 c).
Qed.

Lemma lazy_none (R : Type) (c0 : ascii -> bool) (k : string -> string -> option R) :
  (forall acc rest, free_of cls rest = true -> k acc rest = None) ->
  forall s acc, free_of cls s = true -> Re.lazy c0 k acc s = None.
Proof.
  intros Hk s. induction s as [|c s IH]; intros acc Hs; cbn [Re.lazy]; rewrite (Hk _ _ Hs).
  - reflexivity.
  - rewrite (IH _ (free_of_tail _ _ Hs)). now destruct (c0 c).
Qed.

(** a pattern with an item of the class [cls] that must match at least
    once matches no text free of the class *)
Lemma re_match_needs_class (r1 r2 : Re.regex) (g : bool) :
  forall s, free_of cls s = true ->
    Re.re_match (r1 ++ Re.Atom cls Re.Plus g :: r2)%list s = None.
Proof.
  induction r1 as [|a r1 IH]; intros s Hs.
  - cbn [app Re.re_match Re.a_quant Re.a_class]. destruct s as [|c s]; [reflexivity|].
    unfold free_of in Hs. cbn [Str.all] in Hs. apply andb_true_iff in Hs.
    destruct Hs as [Hc _]. apply negb_true_iff in Hc. now rewrite Hc.
  - cbn [app Re.re_match].
    assert (Hk : forall acc rest, free_of cls rest = true ->
              match Re.re_match (r1 ++ Re.Atom cls Re.Plus g :: r2)%list rest with
              | Some (gs, rest') => Some (if Re.a_group a then acc :: gs else gs, rest')
              | None => None
              end = None).
    { intros acc rest Hr. now rewrite (IH rest Hr). }
    destruct (Re.a_quant a).
    + destruct s as [|c s]; [reflexivity|].
      rewrite (Hk _ _ (free_of_tail _ _ Hs)). now destruct (Re.a_class a c).
    + destruct s as [|c s]; [now apply Hk|].
      rewrite (Hk _ _ (free_of_tail _ _ Hs)), (Hk _ _ Hs). now destruct (Re.a_class a c).
    + now apply greedy_none.
    + destruct s as [|c s]; [reflexivity|].
      destruct (Re.a_class a c); [|reflexivity].
      apply greedy_none; [exact Hk | exact (free_of_tail _ _ Hs)].
    + now apply lazy_none.
Qed.

Lemma findall_needs_class (r1 r2 : Re.regex) (g : bool) :
  forall s n, free_of cls s = true ->
    Re.findall_from (r1 ++ Re.Atom cls Re.Plus g :: r2)%list s n = [].
Proof.
  intros s. induction s as [|c s IH]; intros n Hs.
  - destruct n; cbn [Re.findall_from]; [|reflexivity].
    now rewrite (re_match_needs_class r1 r2 g _ Hs).
  - destruct n; cbn [Re.findall_from].
    + rewrite (re_match_needs_class r1 r2 g _ Hs). apply IH.
      exact (free_of_tail _ _ Hs).
    + apply IH. exact (free_of_tail _ _ Hs).
Qed.

End NeedsClass.

(** X21: a log without a decimal digit matches none of the three progress
    patterns: [extract_progress_from_logs] leaves a known task, its
    progress included, as it is. *)
Theorem extract_progress_needs_digit :
  forall (task_id log_content : string) (d : Daemon) (task : Task),
    task_of task_id d = Some task ->
    free_of Str.is_digit log_content = true ->
    inferred_progress log_content = None
    /\ extract_progress_from_logs task_id log_content d = inr d.
Proof.
  intros task_id log_content d task Hget Hfree.
  assert (H : inferred_progress log_content = None).
  { unfold inferred_progress, Re.findall.
    change re_progress with
      (([Re.Atom (fun c => Ascii.eqb c "P" || Ascii.eqb c "p") Re.Once false]
        ++ Re.lit "rogress"
        ++ [Re.Atom (Ascii.eqb ":") Re.Optional false;
            Re.Atom Str.is_space Re.Star false])
       ++ Re.Atom Str.is_digit Re.Plus true :: Re.lit "%")%list.
    rewrite (findall_needs_class Str.is_digit _ _ _ _ _ Hfree).
    change re_complete with
      ([] ++ Re.Atom Str.is_digit Re.Plus true
          :: (Re.lit "%" ++ [Re.Atom Str.is_space Re.Plus false] ++ Re.lit "complete"))%list.
    rewrite (findall_needs_class Str.is_digit _ _ _ _ _ Hfree).
    change re_processing with
      ((Re.lit "Processing"
        ++ [Re.Atom (fun c => negb (Ascii.eqb c Str.LF)) Re.LazyStar false])
       ++ Re.Atom Str.is_digit Re.Plus true
          :: ([Re.Atom Str.is_space Re.Plus false] ++ Re.lit "of"
              ++ [Re.Atom Str.is_space Re.Plus false;
                  Re.Atom Str.is_digit Re.Plus true]))%list.
    rewrite (findall_needs_class Str.is_digit _ _ _ _ _ Hfree).
    reflexivity. }
  split; [exact H|].
  unfold extract_progress_from_logs, task_of in *. now rewrite Hget, H.
Qed.

Lemma extract_progress_needs_digit_witness :
  inferred_progress "Progress: soon" = None
  /\ extract_progress_from_logs Run.tid "Progress: soon" Run.d_running = inr Run.d_running.
Proof.
  apply (extract_progress_needs_digit Run.tid "Progress: soon" Run.d_running
           (started_record Run.clock (new_task Run.daemon0 Run.request Run.fresh)));
    vm_compute; reflexivity.
Defined.

(* ================================================================== *)
(** * The message of a marked failure *)

Lemma prefix_split (p : string) :
  forall s, String.prefix p s = true -> exists post, s = p ++ post.
Proof.
  induction p as [|c p IH]; intros s H.
  - exists s. reflexivity.
  - destruct s as [|c' s]; [discriminate|]. cbn [String.prefix] in H.
    destruct (ascii_dec c c') as [->|]; [|discriminate].
    destruct (IH s H) as (post & ->). exists post. reflexivity.
Qed.

Lemma contains_split (sub : string) :
  forall s, Str.contains sub s = true -> exists pre post, s = pre ++ sub ++ post.
Proof.
  intros s. induction s as [|c s IH]; cbn [Str.contains]; intros H.
  - rewrite orb_false_r in H. destruct (prefix_split _ _ H) as (post & E).
    exists "", post. exact E.
  - apply orb_true_iff in H. destruct H as [H|H].
    + destruct (prefix_split _ _ H) as (post & E). exists "", post. exact E.
    + destruct (IH H) as (pre & post & ->). exists (String c pre), post. reflexivity.
Qed.

Lemma contains_inner (a b c s : string) :
  Str.contains (a ++ b ++ c) s = true -> Str.contains b s = true.
Proof.
  intros H. destruct (contains_split _ _ H) as (pre & post & ->).
  replace (pre ++ (a ++ b ++ c) ++ post) with ((pre ++ a) ++ b ++ (c ++ post))
    by (now rewrite !append_assoc).
  apply contains_app.
Qed.

Lemma lower_app (a b : string) : Str.lower (a ++ b) = Str.lower a ++ Str.lower b.
Proof. induction a as [|c a IH]; cbn [append Str.lower]; congruence. Qed.

Lemma contains_lower (sub s : string) :
  Str.contains sub s = true -> Str.contains (Str.lower sub) (Str.lower s) = true.
Proof.
  intros H. destruct (contains_split _ _ H) as (pre & post & ->).
  rewrite !lower_app. apply contains_app.
Qed.

Lemma split_lines_cons (s : string) : exists l ls, Str.split_lines s = l :: ls.
Proof.
  induction s as [|c s (l & ls & IH)]; cbn [Str.split_lines]; [eauto|].
  destruct (Ascii.eqb c Str.LF); [eauto|]. rewrite IH. eauto.
Qed.

Lemma split_lines_head (sub post : string) :
  free_of (Ascii.eqb Str.LF) sub = true ->
  exists l ls, Str.split_lines (sub ++ post) = (sub ++ l) :: ls.
Proof.
  induction sub as [|c sub IH]; intros H.
  - apply split_lines_cons.
  - unfold free_of in H. cbn [Str.all] in H. apply andb_true_iff in H.
    destruct H as [Hc H]. apply negb_true_iff in Hc.
    destruct (IH H) as (l & ls & E).
    cbn [append Str.split_lines]. rewrite Ascii.eqb_sym, Hc, E. eauto.
Qed.

Lemma line_contains (sub : string) :
  free_of (Ascii.eqb Str.LF) sub = true ->
  forall s, Str.contains sub s = true ->
    exists line, In line (Str.split_lines s) /\ Str.contains sub line = true.
Proof.
  intros Hsub s H. destruct (contains_split _ _ H) as (pre & post & ->). clear H.
  induction pre as [|c pre (line & Hin & Hc)].
  - destruct (split_lines_head sub post Hsub) as (l & ls & E).
    exists (sub ++ l). cbn [append]. rewrite E. split; [now left|].
    apply (contains_app sub "" l).
  - cbn [append Str.split_lines]. destruct (Ascii.eqb c Str.LF).
    + exists line. split; [now right | assumption].
    + destruct (Str.split_lines (pre ++ sub ++ post)) as [|l0 ls]; [easy|].
      destruct Hin as [<-|Hin].
      * exists (String c l0). split; [now left|].
        cbn [Str.contains]. rewrite Hc. apply orb_true_r.
      * exists line. split; [now right | assumption].
Qed.

Lemma last_opt_in {A : Type} (l : list A) :
  l <> [] -> exists x, last_opt l = Some x /\ In x l.
Proof.
  induction l as [|a l IH]; [congruence|]. intros _.
  destruct l as [|b l].
  - exists a. split; [reflexivity | now left].
  - destruct IH as (x & E & Hin); [discriminate|].
    exists x. split; [exact E | now right].
Qed.

Lemma take_length (n : nat) (s : string) : (String.length (Str.take n s) <= n)%nat.
Proof.
  revert s. induction n as [|n IH]; intros s; [reflexivity|].
  destruct s as [|c s]; cbn [Str.take String.length]; [lia|].
  specialize (IH s). lia.
Qed.

(** the line of a failure sentinel is an error line itself *)
Lemma failed_prefix_error_line (task_id log_content : string) :
  Str.contains (failed_prefix task_id) log_content = true ->
  exists line, In line (Str.split_lines log_content) /\ is_error_line line = true.
Proof.
  intros H.
  assert (H1 : Str.contains "[TASK_FAILED:" log_content = true).
  { apply (contains_inner "" "[TASK_FAILED:" (task_id ++ ":")).
    unfold failed_prefix in H. cbn [append] in *.
    now rewrite ?append_assoc in *. }
  destruct (line_contains "[TASK_FAILED:" (eq_refl _) _ H1) as (line & Hin & Hc).
  exists line. split; [assumption|].
  apply contains_lower in Hc.
  change (Str.lower "[TASK_FAILED:") with ("[task_" ++ "failed" ++ ":") in Hc.
  apply contains_inner in Hc.
  unfold is_error_line. cbn [existsb]. rewrite Hc. apply orb_true_r.
Qed.

(** X22: a marked failure always carries a message: when the log of a known
    task holds the start of its failure sentinel and not that of its
    success sentinel, finalization leaves the task [failed] with an error
    message of at most 500 characters, the start of the last log line that
    holds "error", "failed" or "exception" in any case; the line of the
    sentinel is such a line. *)
Theorem finalize_failure_has_message :
  forall (task_id now : string) (d : Daemon) (w : World) (task : Task)
         (log_content : string),
    task_of task_id d = Some task ->
    Dict.get (log_file task) (log_files w) = Some log_content ->
    Str.contains (completed_prefix task_id) log_content = false ->
    Str.contains (failed_prefix task_id) log_content = true ->
    exists line,
      last_opt (filter is_error_line (Str.split_lines log_content)) = Some line
      /\ In line (Str.split_lines log_content)
      /\ is_error_line line = true
      /\ (String.length (Str.take 500 line) <= 500)%nat
      /\ let d' := fst (fst (finalize_task_from_logs task_id now d w)) in
         status_of task_id d' = Some failed
         /\ error_message_of task_id d' = Some (Str.take 500 line).
Proof.
  intros task_id now d w task log_content Hget Hlog Hno Hyes.
  destruct (failed_prefix_error_line _ _ Hyes) as (l0 & Hin0 & Herr0).
  destruct (last_opt_in (filter is_error_line (Str.split_lines log_content)))
    as (line & Hlast & Hin).
  { intros E. assert (Hf : In l0 (filter is_error_line (Str.split_lines log_content)))
      by (apply filter_In; auto).
    rewrite E in Hf. exact Hf. }
  apply filter_In in Hin. destruct Hin as [Hin Herr].
  exists line. split; [exact Hlast|]. split; [exact Hin|]. split; [exact Herr|].
  split; [apply take_length|].
  rewrite (finalize_result task_id now d w task Hget). cbn [fst snd].
  unfold status_of, error_message_of, task_of. cbn [tasks set_tasks].
  rewrite DictFacts.get_set_eq. cbn [option_map].
  unfold finalized_record, classify_log. rewrite Hlog, Hno, Hyes, Hlast.
  destruct (inferred_progress log_content); split; reflexivity.
Qed.

Lemma finalize_failure_has_message_witness :
  let w := Run.ended Run2.log_failed Run.w_running in
  exists line,
    last_opt (filter is_error_line (Str.split_lines Run2.log_failed)) = Some line
    /\ In line (Str.split_lines Run2.log_failed)
    /\ is_error_line line = true
    /\ (String.length (Str.take 500 line) <= 500)%nat
    /\ let d' := fst (fst (finalize_task_from_logs Run.tid "2024-01-01T12:05:00"
                             Run.d_running w)) in
       status_of Run.tid d' = Some failed
       /\ error_message_of Run.tid d' = Some (Str.take 500 line).
Proof.
  apply (finalize_failure_has_message Run.tid "2024-01-01T12:05:00" Run.d_running
           (Run.ended Run2.log_failed Run.w_running)
           (started_record Run.clock (new_task Run.daemon0 Run.request Run.fresh))
           Run2.log_failed);
    vm_compute; reflexivity.
Defined.

(* ================================================================== *)
(** * Workers and restarts *)

(** X23: a worker turn takes exactly the identifier at the head of the queue:
    on an empty queue nothing changes; otherwise the queue loses its head,
    no task other than the one named is touched, and an identifier whose
    task is no longer in the table is dropped without any other effect. *)
Theorem worker_takes_head :
  forall (ck : ExecClock) (d : Daemon) (w : World),
    (task_queue d = [] -> worker ck d w = (d, w))
    /\ (forall k q, task_queue d = k :: q ->
          task_queue (fst (worker ck d w)) = q
          /\ (Dict.mem k (tasks d) = false -> worker ck d w = (set_task_queue q d, w))
          /\ (forall k', k' <> k -> task_of k' (fst (worker ck d w)) = task_of k' d)).
Proof.
  intros ck d w. unfold worker. split.
  - intros H. now rewrite H.
  - intros k q H. rewrite H. cbn [tasks set_task_queue].
    destruct (Dict.mem k (tasks d)) eqn:Hmem.
    + pose proof (execute_task_keeps_queue k ck (set_task_queue q d) w) as Hq.
      pose proof (fun k' => execute_task_frame k ck (set_task_queue q d) w k') as Hf.
      destruct (execute_task k ck (set_task_queue q d) w) as [[d2 w2] ok].
      cbn [fst] in *. repeat split; [exact Hq | discriminate | exact Hf].
    + repeat split.
Qed.

(** X24: a submission survives a restart: after [create_task] has accepted a
    task on a workspace without record files, the [load_tasks] of a new
    daemon on the same disk has exactly that task in its table, as it was
    submitted, and its identifier once on the queue; nothing is written. *)
Theorem restart_recovers_submission :
  forall (rq : Request) (f : Fresh) (d : Daemon) (w : World) (task_id now : string),
    task_files w = [] ->
    snd (create_task rq f d w) = inr task_id ->
    let '(d1, w1, _) := create_task rq f d w in
    let '(d2, w2) := load_tasks now (mkDaemon (workspace d) (config d) [] []) w1 in
    task_of task_id d1 = Some (new_task d rq f)
    /\ tasks d2 = [(task_id, new_task d rq f)]
    /\ task_queue d2 = [task_id]
    /\ w2 = w1.
Proof.
  intros rq f d w task_id now Hempty Hok. unfold create_task in *.
  destruct (validate_task (config d) (new_task d rq f)); cbn [negb snd] in *;
    [|discriminate].
  inversion Hok; subst task_id; clear Hok.
  unfold load_tasks, save_task, save_task_steps.
  cbn [last json_dump open_w task_files set_task_files]. rewrite Hempty.
  assert (E : Dict.set (id (new_task d rq f)) (Some (new_task d rq f))
                (Dict.set (id (new_task d rq f)) (@None Task) [])
              = [(id (new_task d rq f), Some (new_task d rq f))]).
  { cbv [Dict.set]. now rewrite String.eqb_refl. }
  rewrite E. cbn [load_files Dict.keys map fst task_files].
  assert (G : Dict.get (id (new_task d rq f))
                (task_files (json_dump (new_task d rq f) (id (new_task d rq f))
                               (open_w (id (new_task d rq f)) w)))
              = Some (Some (new_task d rq f))).
  { unfold json_dump. cbn [task_files set_task_files]. apply DictFacts.get_set_eq. }
  rewrite G. unfold load_task.
  cbn [status new_task tasks task_queue set_tasks set_task_queue app load_files].
  split; [|split; [|split]]; try reflexivity.
  unfold task_of. cbn [tasks set_task_queue set_tasks]. apply DictFacts.get_set_eq.
Qed.

Lemma restart_recovers_submission_witness :
  let '(d1, w1, _) := create_task Run.request Run.fresh Run.daemon0 Run.world0 in
  let '(d2, w2) :=
    load_tasks "2024-01-01T12:10:00"
      (mkDaemon (workspace Run.daemon0) (config Run.daemon0) [] []) w1 in
  task_of Run.tid d1 = Some (new_task Run.daemon0 Run.request Run.fresh)
  /\ tasks d2 = [(Run.tid, new_task Run.daemon0 Run.request Run.fresh)]
  /\ task_queue d2 = [Run.tid]
  /\ w2 = w1.
Proof.
  apply (restart_recovers_submission Run.request Run.fresh Run.daemon0 Run.world0
           Run.tid "2024-01-01T12:10:00"); vm_compute; reflexivity.
Defined.

Lemma monitor_tick_keeps_absent :
  forall (fromisoformat : string -> option Z) (tk : Tick) (d : Daemon) (w : World)
         (k : string),
    task_of k d = None ->
    task_of k (fst (monitor_tick fromisoformat tk d w)) = None.
Proof.
  intros fromisoformat tk d w k H. unfold monitor_tick.
  assert (P : forall items d0 w0, task_of k d0 = None ->
               task_of k (fst (fst (monitor_pass fromisoformat items tk d0 w0))) = None).
  { induction items as [|[task_id task] items IHi]; intros d0 w0 H0; [exact H0|].
    cbn [monitor_pass].
    destruct (status match Dict.get task_id (tasks d0) with
                     | Some t0 => t0 | None => task end); try (now apply IHi).
    destruct (String.eqb_spec k task_id) as [->|Hne].
    - unfold check_task_completion. unfold task_of in H0. rewrite H0. exact H0.
    - pose proof (@check_task_completion_frame fromisoformat task_id tk d0 w0 k Hne) as F.
      destruct (check_task_completion fromisoformat task_id tk d0 w0)
        as [[d1 w1] [e|u]]; cbn [fst snd] in *.
      + congruence.
      + apply IHi. congruence. }
  specialize (P (tasks d) d w H).
  destruct (monitor_pass fromisoformat (tasks d) tk d w) as [[d1 w1] [e|u]];
    cbn [fst snd] in *; [exact P|].
  unfold cleanup_old_tasks.
  destruct (@cleanup_loop_only_deletes fromisoformat
              (cutoff (config d1) (now_dt tk)) (tasks d1) d1 w1 k) as [Q|Q];
    congruence.
Qed.

(** X25: terminal states are absorbing under the monitor: however many
    turns the loop of [monitor_tasks] takes, and whatever the host does to
    sessions, logs and files between the turns, a task that is [completed]
    or [failed] is afterwards in the table exactly as it was, or has been
    removed by a sweep. *)
Theorem monitor_tasks_terminal_absorbing :
  forall (fromisoformat : string -> option Z) (turns : list ((World -> World) * Tick))
         (d : Daemon) (w : World) (k : string) (t : Task),
    task_of k d = Some t ->
    terminal (status t) = true ->
    task_of k (fst (monitor_tasks fromisoformat turns d w)) = Some t
    \/ task_of k (fst (monitor_tasks fromisoformat turns d w)) = None.
Proof.
  intros fromisoformat turns d w k t Hget Hterm.
  assert (Inv : task_of k d = Some t \/ task_of k d = None) by now left.
  clear Hget. revert d w Inv.
  induction turns as [|[host tk] rest IH]; intros d w Inv; [exact Inv|].
  cbn [monitor_tasks].
  assert (Inv' : task_of k (fst (monitor_tick fromisoformat tk d (host w))) = Some t
                 \/ task_of k (fst (monitor_tick fromisoformat tk d (host w))) = None).
  { destruct Inv as [H|H].
    - exact (@monitor_tick_terminal_final fromisoformat tk d (host w) k t H Hterm).
    - right. now apply monitor_tick_keeps_absent. }
  destruct (monitor_tick fromisoformat tk d (host w)) as [d' w']. cbn [fst] in Inv'.
  now apply IH.
Qed.

Lemma monitor_tasks_terminal_absorbing_witness :
  let turns :=
    [(fun w => w, Run.at_time "2024-01-01T12:30:00");
     (Run.logged "more", Run.at_time "2024-01-01T12:30:30");
     (fun w => w, Run.at_time "2024-01-09T12:30:00")] in
  let t := finalized_record Run.tid "2024-01-01T12:05:00"
             (Run.ended Run.log_ok Run.w_running)
             (started_record Run.clock (new_task Run.daemon0 Run.request Run.fresh)) in
  task_of Run.tid (fst (monitor_tasks Iso.iso_parse turns Run.d_completed Run.w_completed))
  = Some t
  \/ task_of Run.tid (fst (monitor_tasks Iso.iso_parse turns Run.d_completed Run.w_completed))
     = None.
Proof.
  apply (monitor_tasks_terminal_absorbing Iso.iso_parse
           [(fun w => w, Run.at_time "2024-01-01T12:30:00");
            (Run.logged "more", Run.at_time "2024-01-01T12:30:30");
            (fun w => w, Run.at_time "2024-01-09T12:30:00")]
           Run.d_completed Run.w_completed Run.tid
           (finalized_record Run.tid "2024-01-01T12:05:00"
              (Run.ended Run.log_ok Run.w_running)
              (started_record Run.clock (new_task Run.daemon0 Run.request Run.fresh))));
    vm_compute; reflexivity.
Defined.
